(** * clusteradm: the [join] command's hub-trust escalation and readiness waits

    A shallow embedding of [pkg/cmd/join/exec.go]: the methods [complete],
    [validate], [run], [createExternalBootstrapConfig],
    [createClientcmdapiv1Config], [setKubeconfig] and the two
    [waitUntil...ConditionIsTrue] functions. The [get work] command
    ([pkg/cmd/get/work/exec.go]) follows in module [GetWork].

    Go values are modelled as follows.
    - A [string] is a [string]; a [[]byte] is [GoBytes], which keeps the
      difference between a nil slice and an empty one.
    - A Go [error] is [error]; a function returning [(T, error)] and used with
      [if err != nil { return ..., err }] returns [result T]; the one call
      whose value is stored whatever the error is ([GetAPIServer]) returns a
      pair.
    - The slices of a [clientcmdapiv1.Config] are addresses of backing arrays
      in a store, so that passing a [Config] by value shares its arrays and
      [DeepCopy] does not.
    - Every call that leaves the process (hub, local cluster, file system,
      terminal) is answered by a [World] and recorded in the state's trace. *)

From Stdlib Require Import ZArith Lia.
From stdpp Require Import base option list strings gmap.

(** ** Go values *)

(** [[]byte]: [None] is the nil slice. *)
Definition GoBytes : Type := option (list Byte.byte).

Definition bytes_len (b : GoBytes) : nat :=
  match b with None => 0 | Some l => length l end.

(** [k8s.io/apimachinery/pkg/apis/meta/v1.StatusReason], the reasons this
    command can meet. *)
Inductive StatusReason :=
| StatusReasonUnknown
| StatusReasonUnauthorized
| StatusReasonForbidden
| StatusReasonNotFound
| StatusReasonTimeout.

(** A Go [error]: an API status error carrying its reason, or any other
    error. *)
Inductive error :=
| StatusError (reason : StatusReason) (msg : string)
| PlainError (msg : string).

(** [errors.IsNotFound] of [k8s.io/apimachinery/pkg/api/errors]. *)
Definition IsNotFound (err : error) : bool :=
  match err with
  | StatusError StatusReasonNotFound _ => true
  | _ => false
  end.

Inductive result (A : Type) :=
| Ok (a : A)
| Err (e : error).
Arguments Ok {A} a.
Arguments Err {A} e.

(** [fmt.Errorf] with a constant message. *)
Definition Errorf (msg : string) : error := PlainError msg.

(** [int64(x)] for a Go integer [x]: two's complement on 64 bits. *)
Definition int64 (z : Z) : Z := (z + 2 ^ 63) mod 2 ^ 64 - 2 ^ 63.

(** ** [clientcmdapiv1]: the kubeconfig types *)

Record Cluster := mkCluster {
  Server : string;
  TLSServerName : string;
  InsecureSkipTLSVerify : bool;
  CertificateAuthority : string;
  CertificateAuthorityData : GoBytes;
  ProxyURL : string
}.

Record NamedCluster := mkNamedCluster {
  nc_Name : string;
  nc_Cluster : Cluster
}.

Record AuthInfo := mkAuthInfo {
  Token : string
}.

Record NamedAuthInfo := mkNamedAuthInfo {
  na_Name : string;
  na_AuthInfo : AuthInfo
}.

Record Context := mkContext {
  ctx_Cluster : string;
  ctx_AuthInfo : string;
  ctx_Namespace : string
}.

Record NamedContext := mkNamedContext {
  nx_Name : string;
  nx_Context : Context
}.

(** The address of a backing array in the store. *)
Definition addr : Type := nat.

(** A [clientcmdapiv1.Config] value: three slice headers and a string. *)
Record Config := mkConfig {
  Clusters : addr;
  AuthInfos : addr;
  Contexts : addr;
  CurrentContext : string
}.

(** What a [Config] holds once its slices are read through. *)
Record ConfigData := mkConfigData {
  d_Clusters : list NamedCluster;
  d_AuthInfos : list NamedAuthInfo;
  d_Contexts : list NamedContext;
  d_CurrentContext : string
}.

(** Field assignments on [Clusters[i].Cluster]. *)
Definition with_Server (v : string) (nc : NamedCluster) : NamedCluster :=
  let c := nc_Cluster nc in
  mkNamedCluster (nc_Name nc)
    (mkCluster v (TLSServerName c) (InsecureSkipTLSVerify c)
       (CertificateAuthority c) (CertificateAuthorityData c) (ProxyURL c)).

Definition with_InsecureSkipTLSVerify (v : bool) (nc : NamedCluster)
  : NamedCluster :=
  let c := nc_Cluster nc in
  mkNamedCluster (nc_Name nc)
    (mkCluster (Server c) (TLSServerName c) v
       (CertificateAuthority c) (CertificateAuthorityData c) (ProxyURL c)).

Definition with_CertificateAuthorityData (v : GoBytes) (nc : NamedCluster)
  : NamedCluster :=
  let c := nc_Cluster nc in
  mkNamedCluster (nc_Name nc)
    (mkCluster (Server c) (TLSServerName c) (InsecureSkipTLSVerify c)
       (CertificateAuthority c) v (ProxyURL c)).

(** ** The join command's options and template values *)

Record BundleVersion := mkBundleVersion {
  RegistrationImageVersion : string;
  PlacementImageVersion : string;
  WorkImageVersion : string;
  OperatorImageVersion : string
}.

(** [version.VersionBundle]. *)
Record VersionBundle := mkVersionBundle {
  vb_Registration : string;
  vb_Placement : string;
  vb_Work : string;
  vb_Operator : string
}.

Record Hub := mkHub {
  hub_APIServer : string;
  hub_KubeConfig : string
}.

Record Klusterlet := mkKlusterlet {
  kl_APIServer : string
}.

Record Values := mkValues {
  v_ClusterName : string;
  v_Hub : Hub;
  v_Klusterlet : Klusterlet;
  v_Registry : string;
  v_BundleVersion : BundleVersion
}.

(** [genericclioptions.ClusteradmFlags], the fields [join] reads. *)
Record ClusteradmFlags := mkFlags {
  DryRun : bool;
  Timeout : Z
}.

(** [join.Options]. [HubConfig] is a [*Config]: [None] is nil. The pointed
    [Config] value is never assigned to after it is built (only the array
    behind [Clusters] is), so the pointer is modelled by the value. *)
Record Options := mkOptions {
  Flags : ClusteradmFlags;
  token : string;
  hubAPIServer : string;
  clusterName : string;
  registry : string;
  bundleVersion : string;
  caFile : string;
  outputFile : string;
  wait : bool;
  forceHubInClusterEndpointLookup : bool;
  hubInClusterEndpoint : string;
  HubCADate : GoBytes;
  HubConfig : option Config;
  values : Values
}.

Definition set_hubInClusterEndpoint (v : string) (o : Options) : Options :=
  mkOptions (Flags o) (token o) (hubAPIServer o) (clusterName o) (registry o)
    (bundleVersion o) (caFile o) (outputFile o) (wait o)
    (forceHubInClusterEndpointLookup o) v (HubCADate o) (HubConfig o)
    (values o).

Definition set_HubCADate (v : GoBytes) (o : Options) : Options :=
  mkOptions (Flags o) (token o) (hubAPIServer o) (clusterName o) (registry o)
    (bundleVersion o) (caFile o) (outputFile o) (wait o)
    (forceHubInClusterEndpointLookup o) (hubInClusterEndpoint o) v
    (HubConfig o) (values o).

Definition set_HubConfig (v : option Config) (o : Options) : Options :=
  mkOptions (Flags o) (token o) (hubAPIServer o) (clusterName o) (registry o)
    (bundleVersion o) (caFile o) (outputFile o) (wait o)
    (forceHubInClusterEndpointLookup o) (hubInClusterEndpoint o) (HubCADate o)
    v (values o).

Definition set_values (v : Values) (o : Options) : Options :=
  mkOptions (Flags o) (token o) (hubAPIServer o) (clusterName o) (registry o)
    (bundleVersion o) (caFile o) (outputFile o) (wait o)
    (forceHubInClusterEndpointLookup o) (hubInClusterEndpoint o) (HubCADate o)
    (HubConfig o) v.

Definition with_BundleVersion (b : BundleVersion) (v : Values) : Values :=
  mkValues (v_ClusterName v) (v_Hub v) (v_Klusterlet v) (v_Registry v) b.

Definition with_Hub_KubeConfig (k : string) (v : Values) : Values :=
  mkValues (v_ClusterName v) (mkHub (hub_APIServer (v_Hub v)) k)
    (v_Klusterlet v) (v_Registry v) (v_BundleVersion v).

Definition with_Klusterlet_APIServer (a : string) (v : Values) : Values :=
  mkValues (v_ClusterName v) (v_Hub v) (mkKlusterlet a) (v_Registry v)
    (v_BundleVersion v).

(** ** Pods and watch events *)

(** [corev1.PodCondition]. *)
Record PodCondition := mkPodCondition {
  pc_Type : string;
  pc_Status : string;
  pc_Reason : string;
  pc_Message : string
}.

(** [corev1.Pod], the part the readiness predicates and the spinner read. *)
Record Pod := mkPod {
  pod_Name : string;
  pod_Phase : string;
  pod_Conditions : list PodCondition
}.

(** [metav1.Condition]. *)
Record Condition := mkCondition {
  cond_Type : string;
  cond_Status : string;
  cond_Reason : string;
  cond_Message : string
}.

(** A [runtime.Object] as a watch delivers it: a pod, the [metav1.Status] of
    an error event, or an object of some other kind. *)
Inductive Object :=
| ObjPod (pod : Pod)
| ObjStatus (reason : StatusReason) (msg : string)
| ObjOther (kind : string).

Inductive EventType := Added | Modified | Deleted | Bookmark | Error.

(** [watch.Event]. *)
Record Event := mkEvent {
  ev_Type : EventType;
  ev_Object : Object
}.

(** How the result channel of a [watch.Interface] ends: it is closed (the
    server-side timeout elapsed), or the stream breaks with an error. *)
Inductive StreamEnd :=
| Closed
| Broken (e : error).

(** The events a watch delivers, in arrival order, and how it ends. *)
Record Stream := mkStream {
  events : list Event;
  ending : StreamEnd
}.

(** [metav1.ListOptions], the fields the waits set. [TimeoutSeconds] is a
    [*int64]. *)
Record ListOptions := mkListOptions {
  TimeoutSeconds : option Z;
  LabelSelector : string
}.

(** [meta.IsStatusConditionTrue] of [k8s.io/apimachinery/pkg/api/meta]: the
    first condition of the given type decides. *)
Fixpoint IsStatusConditionPresentAndEqual
  (conditions : list Condition) (conditionType status : string) : bool :=
  match conditions with
  | [] => false
  | condition :: rest =>
      if String.eqb (cond_Type condition) conditionType
      then String.eqb (cond_Status condition) status
      else IsStatusConditionPresentAndEqual rest conditionType status
  end.

Definition IsStatusConditionTrue
  (conditions : list Condition) (conditionType : string) : bool :=
  IsStatusConditionPresentAndEqual conditions conditionType "True".

(** ** The world outside the process *)

(** A [*kubernetes.Clientset]: a handle the world answers for. *)
Definition Clientset : Type := nat.

(** A [*rest.Config] handle. *)
Definition RestConfig : Type := nat.

(** What the calls leaving [exec.go] answer. The functions of
    [pkg/helpers], [pkg/helpers/version], [pkg/helpers/printer],
    [pkg/cmd/join/preflight] and of the libraries are not part of the
    embedded file; their answers are taken as given. *)
Record World := mkWorld {
  GetVersionBundle : string -> result VersionBundle;
  ReadFile : string -> result GoBytes;
  CreateClientFromClientcmdapiv1Config : ConfigData -> result Clientset;
  GetAPIServer : Clientset -> string * option error;
  GetCACert : Clientset -> result GoBytes;
  KubernetesClientSet : result Clientset;
  ValidAPIHost : string -> bool;
  RunChecks : option ConfigData -> result unit;
  yaml_Marshal : option ConfigData -> result string;
  GetClients : result Clientset;
  ApplyDirectly : Values -> bool -> list string -> result (list string);
  ApplyDeployments : Values -> bool -> string -> result (list string);
  ApplyCustomResources : Values -> bool -> string -> result (list string);
  WaitUntilCRDReady : string -> bool -> result unit;
  ToRESTConfig : result RestConfig;
  NewForConfig : RestConfig -> result Clientset;
  WatchPods : Clientset -> string -> ListOptions -> result Stream;
  GetSpinnerPodStatus : Pod -> string;
  GetExampleHeader : string;
  WriteOutput : string -> list string -> result unit
}.

(** The calls a run makes, as they are recorded. *)
Inductive Effect :=
| EGetVersionBundle (version : string)
| EReadFile (path : string)
| ECreateClient (d : ConfigData)
| EGetAPIServer (client : Clientset)
| EGetCACert (client : Clientset)
| EKubernetesClientSet
| ERunChecks (d : option ConfigData)
| EGetClients
| EApplyDirectly (dryRun : bool) (files : list string)
| EApplyDeployments (dryRun : bool) (file : string)
| EApplyCustomResources (dryRun : bool) (file : string)
| EWaitUntilCRDReady (name : string) (wait : bool)
| EToRESTConfig
| ENewForConfig (c : RestConfig)
| EWatchPods (client : Clientset) (namespace : string) (o : ListOptions)
| EWatchStop
| ESpinnerStart (msg : string)
| ESpinnerStop
| EPrintf (header cluster : string)
| EWriteOutput (file : string) (output : list string).

(** ** Program state *)

(** The receiver [o], the backing arrays of the kubeconfig slices, the
    [atomic.Value] cells of the spinners, and the calls made so far (oldest
    first). *)
Record State := mkState {
  opts : Options;
  clusterArrays : list (list NamedCluster);
  authInfoArrays : list (list NamedAuthInfo);
  contextArrays : list (list NamedContext);
  phaseCells : list string;
  trace : list Effect
}.

Definition init_state (o : Options) : State := mkState o [] [] [] [] [].

(** Running a piece of the program ends normally with a value or panics. *)
Inductive Outcome (A : Type) :=
| Done (a : A)
| Panic (msg : string).
Arguments Done {A} a.
Arguments Panic {A} msg.

Definition M (A : Type) : Type := State -> Outcome A * State.

Definition ret {A} (a : A) : M A := fun s => (Done a, s).

Definition bind {A B} (m : M A) (k : A -> M B) : M B :=
  fun s =>
    match m s with
    | (Done a, s') => k a s'
    | (Panic msg, s') => (Panic msg, s')
    end.

Definition panic {A} (msg : string) : M A := fun s => (Panic msg, s).

Declare Scope go_scope.
Delimit Scope go_scope with go.

Notation "'let*' x ':=' c 'in' k" := (bind c (fun x => k))
  (at level 10, x name, c at level 100, k at level 200) : go_scope.
Notation "'let*' ' p ':=' c 'in' k" := (bind c (fun x => let 'p := x in k))
  (at level 10, p pattern, c at level 100, k at level 200) : go_scope.
(** [v, err := c; if err != nil { return err }]. *)
Notation "'try*' x ':=' c 'in' k" :=
  (bind c (fun r => match r with Ok x => k | Err e => ret (Err e) end))
  (at level 10, x name, c at level 100, k at level 200) : go_scope.

Open Scope go_scope.

Definition get_opts : M Options := fun s => (Done (opts s), s).

Definition modify_opts (f : Options -> Options) : M unit :=
  fun s =>
    (Done tt,
     mkState (f (opts s)) (clusterArrays s) (authInfoArrays s)
       (contextArrays s) (phaseCells s) (trace s)).

Definition emit (e : Effect) : M unit :=
  fun s =>
    (Done tt,
     mkState (opts s) (clusterArrays s) (authInfoArrays s) (contextArrays s)
       (phaseCells s) (trace s ++ [e])).

Definition set_clusterArrays (v : list (list NamedCluster)) (s : State)
  : State :=
  mkState (opts s) v (authInfoArrays s) (contextArrays s) (phaseCells s)
    (trace s).

Definition set_authInfoArrays (v : list (list NamedAuthInfo)) (s : State)
  : State :=
  mkState (opts s) (clusterArrays s) v (contextArrays s) (phaseCells s)
    (trace s).

Definition set_contextArrays (v : list (list NamedContext)) (s : State)
  : State :=
  mkState (opts s) (clusterArrays s) (authInfoArrays s) v (phaseCells s)
    (trace s).

Definition set_phaseCells (v : list string) (s : State) : State :=
  mkState (opts s) (clusterArrays s) (authInfoArrays s) (contextArrays s) v
    (trace s).

(** Allocation of a backing array: a fresh address past every live one. *)
Definition alloc_Clusters (l : list NamedCluster) : M addr :=
  fun s =>
    (Done (length (clusterArrays s)),
     set_clusterArrays (clusterArrays s ++ [l]) s).

Definition alloc_AuthInfos (l : list NamedAuthInfo) : M addr :=
  fun s =>
    (Done (length (authInfoArrays s)),
     set_authInfoArrays (authInfoArrays s ++ [l]) s).

Definition alloc_Contexts (l : list NamedContext) : M addr :=
  fun s =>
    (Done (length (contextArrays s)),
     set_contextArrays (contextArrays s ++ [l]) s).

(** The contents of a [Config] in a state, when its slices are live. *)
Definition view (s : State) (cfg : Config) : option ConfigData :=
  match clusterArrays s !! Clusters cfg,
        authInfoArrays s !! AuthInfos cfg,
        contextArrays s !! Contexts cfg with
  | Some cl, Some au, Some cx => Some (mkConfigData cl au cx (CurrentContext cfg))
  | _, _, _ => None
  end.

Definition read_Config (cfg : Config) : M ConfigData :=
  fun s =>
    match view s cfg with
    | Some d => (Done d, s)
    | None => (Panic "invalid memory address", s)
    end.

(** Reading through a [*Config] that may be nil. *)
Definition read_ptr (p : option Config) : M (option ConfigData) :=
  match p with
  | None => ret None
  | Some cfg => let* d := read_Config cfg in ret (Some d)
  end.

(** [cfg.Clusters[i] = f(cfg.Clusters[i])]: a write into the backing array,
    seen through every slice that shares it; out of range it panics. *)
Definition assign_Clusters (cfg : Config) (i : nat)
  (f : NamedCluster -> NamedCluster) : M unit :=
  fun s =>
    match clusterArrays s !! Clusters cfg with
    | Some arr =>
        match arr !! i with
        | Some nc =>
            (Done tt,
             set_clusterArrays
               (<[Clusters cfg := <[i := f nc]> arr]> (clusterArrays s)) s)
        | None => (Panic "index out of range", s)
        end
    | None => (Panic "invalid memory address", s)
    end.

(** [DeepCopy] on a [Config]: fresh backing arrays with the same elements. *)
Definition DeepCopy (cfg : Config) : M Config :=
  let* d := read_Config cfg in
  let* clusters := alloc_Clusters (d_Clusters d) in
  let* authInfos := alloc_AuthInfos (d_AuthInfos d) in
  let* contexts := alloc_Contexts (d_Contexts d) in
  ret (mkConfig clusters authInfos contexts (d_CurrentContext d)).

(** ** Calls that leave the process *)

Section Calls.
Context (W : World).

Definition version_GetVersionBundle (v : string) : M (result VersionBundle) :=
  let* _ := emit (EGetVersionBundle v) in
  ret (GetVersionBundle W v).

Definition os_ReadFile (path : string) : M (result GoBytes) :=
  let* _ := emit (EReadFile path) in
  ret (ReadFile W path).

(** The config is passed by value: the helper reads through its slices. *)
Definition helpers_CreateClientFromClientcmdapiv1Config (cfg : Config)
  : M (result Clientset) :=
  let* d := read_Config cfg in
  let* _ := emit (ECreateClient d) in
  ret (CreateClientFromClientcmdapiv1Config W d).

Definition helpers_GetAPIServer (kubeClient : Clientset)
  : M (string * option error) :=
  let* _ := emit (EGetAPIServer kubeClient) in
  ret (GetAPIServer W kubeClient).

Definition helpers_GetCACert (kubeClient : Clientset) : M (result GoBytes) :=
  let* _ := emit (EGetCACert kubeClient) in
  ret (GetCACert W kubeClient).

Definition factory_KubernetesClientSet : M (result Clientset) :=
  let* _ := emit EKubernetesClientSet in
  ret (KubernetesClientSet W).

(** [preflightinterface.RunChecks] on the single [HubKubeconfigCheck]. *)
Definition preflight_RunChecks (p : option Config) : M (result unit) :=
  let* d := read_ptr p in
  let* _ := emit (ERunChecks d) in
  ret (RunChecks W d).

(** [yaml.Marshal] of a [*Config]. *)
Definition yaml_Marshal_ptr (p : option Config) : M (result string) :=
  let* d := read_ptr p in
  ret (yaml_Marshal W d).
End Calls.

(** ** Trust escalation: [complete] and [validate] *)

Section Join.
Context (W : World).

(** Create bootstrap with token but without CA. *)
Definition createExternalBootstrapConfig : M Config :=
  let* o := get_opts in
  let* clusters :=
    alloc_Clusters
      [ mkNamedCluster "hub"
          (mkCluster (hubAPIServer o) "" true "" None "") ] in
  let* authInfos :=
    alloc_AuthInfos [ mkNamedAuthInfo "bootstrap" (mkAuthInfo (token o)) ] in
  let* contexts :=
    alloc_Contexts
      [ mkNamedContext "bootstrap" (mkContext "hub" "bootstrap" "default") ] in
  ret (mkConfig clusters authInfos contexts "bootstrap").

Definition createClientcmdapiv1Config (externalClientUnSecure : Clientset)
  (bootstrapExternalConfigUnSecure : Config) : M (result Config) :=
  let* o := get_opts in
  (* set hub in cluster endpoint *)
  try* _ :=
    (if forceHubInClusterEndpointLookup o then
       let* '(endpoint, err) := helpers_GetAPIServer W externalClientUnSecure in
       let* _ := modify_opts (set_hubInClusterEndpoint endpoint) in
       match err with
       | Some e => if negb (IsNotFound e) then ret (Err e) else ret (Ok tt)
       | None => ret (Ok tt)
       end
     else ret (Ok tt)) in
  let* bootstrapConfig := DeepCopy bootstrapExternalConfigUnSecure in
  let* _ :=
    assign_Clusters bootstrapConfig 0 (with_InsecureSkipTLSVerify false) in
  let* o := get_opts in
  let* _ := assign_Clusters bootstrapConfig 0 (with_Server (hubAPIServer o)) in
  let* o := get_opts in
  match HubCADate o with
  | Some ca =>
      (* directly set ca-data if --ca-file is set *)
      let* _ :=
        assign_Clusters bootstrapConfig 0
          (with_CertificateAuthorityData (Some ca)) in
      ret (Ok bootstrapConfig)
  | None =>
      (* get ca data from externalClientUnsecure, ca may be empty *)
      try* ca := helpers_GetCACert W externalClientUnSecure in
      let* _ :=
        assign_Clusters bootstrapConfig 0 (with_CertificateAuthorityData ca) in
      ret (Ok bootstrapConfig)
  end.

Definition setKubeconfig : M (result unit) :=
  let* o := get_opts in
  (* replace apiserver if the flag is set *)
  let* _ :=
    (if forceHubInClusterEndpointLookup o then
       match HubConfig o with
       | Some cfg =>
           assign_Clusters cfg 0 (with_Server (hubInClusterEndpoint o))
       | None => panic "nil pointer dereference"
       end
     else ret tt) in
  let* o := get_opts in
  try* bootstrapConfigBytes := yaml_Marshal_ptr W (HubConfig o) in
  let* _ :=
    modify_opts
      (fun o => set_values (with_Hub_KubeConfig bootstrapConfigBytes (values o)) o) in
  ret (Ok tt).

Definition complete : M (result unit) :=
  let* o := get_opts in
  if String.eqb (token o) "" then ret (Err (Errorf "token is missing")) else
  if String.eqb (hubAPIServer o) "" then
    ret (Err (Errorf "hub-server is missing")) else
  if String.eqb (clusterName o) "" then
    ret (Err (Errorf "name is missing")) else
  if Nat.eqb (String.length (registry o)) 0 then
    ret (Err (Errorf "the OCM image registry should not be empty, like quay.io/open-cluster-management")) else
  let* _ :=
    modify_opts
      (set_values
         (mkValues (clusterName o) (mkHub (hubAPIServer o) "")
            (mkKlusterlet "") (registry o) (mkBundleVersion "" "" "" ""))) in
  try* versionBundle := version_GetVersionBundle W (bundleVersion o) in
  let* _ :=
    modify_opts
      (fun o =>
         set_values
           (with_BundleVersion
              (mkBundleVersion (vb_Registration versionBundle)
                 (vb_Placement versionBundle) (vb_Work versionBundle)
                 (vb_Operator versionBundle))
              (values o)) o) in
  (* if --ca-file is set, read ca data *)
  try* _ :=
    (if negb (String.eqb (caFile o) "") then
       try* cabytes := os_ReadFile W (caFile o) in
       let* _ := modify_opts (set_HubCADate cabytes) in
       ret (Ok tt)
     else ret (Ok tt)) in
  (* Create an unsecure bootstrap *)
  let* bootstrapExternalConfigUnSecure := createExternalBootstrapConfig in
  (* create external client from the bootstrap *)
  try* externalClientUnSecure :=
    helpers_CreateClientFromClientcmdapiv1Config W
      bootstrapExternalConfigUnSecure in
  (* Create the kubeconfig for the internal client *)
  let* r :=
    createClientcmdapiv1Config externalClientUnSecure
      bootstrapExternalConfigUnSecure in
  let* _ :=
    modify_opts
      (set_HubConfig (match r with Ok cfg => Some cfg | Err _ => None end)) in
  try* _ := ret r in
  (* get managed cluster externalServerURL *)
  try* kubeClient := factory_KubernetesClientSet W in
  let* '(klusterletApiserver, err) := helpers_GetAPIServer W kubeClient in
  let klusterletApiserver :=
    match err with
    | Some _ => ""
    | None =>
        if negb (ValidAPIHost W klusterletApiserver) then ""
        else klusterletApiserver
    end in
  let* _ :=
    modify_opts
      (fun o =>
         set_values
           (with_Klusterlet_APIServer klusterletApiserver (values o)) o) in
  ret (Ok tt).

Definition validate : M (result unit) :=
  let* o := get_opts in
  (* preflight check *)
  try* _ := preflight_RunChecks W (HubConfig o) in
  try* _ := setKubeconfig in
  ret (Ok tt).
End Join.


(** ** Rollout: [run] and the two readiness waits *)

(** Modelled from the spec: the error of a wait whose stream ends before the
    condition holds ([helpers.WatchUntil] is not part of the embedded file;
    the spec calls it a [TimeoutError]). *)
Definition TimeoutError : error :=
  PlainError "timed out waiting for the condition".

Section Rollout.
Context (W : World).

Definition helpers_GetClients : M (result Clientset) :=
  let* _ := emit EGetClients in
  ret (GetClients W).

Definition applier_ApplyDirectly (v : Values) (dryRun : bool)
  (files : list string) : M (result (list string)) :=
  let* _ := emit (EApplyDirectly dryRun files) in
  ret (ApplyDirectly W v dryRun files).

Definition applier_ApplyDeployments (v : Values) (dryRun : bool)
  (file : string) : M (result (list string)) :=
  let* _ := emit (EApplyDeployments dryRun file) in
  ret (ApplyDeployments W v dryRun file).

Definition applier_ApplyCustomResources (v : Values) (dryRun : bool)
  (file : string) : M (result (list string)) :=
  let* _ := emit (EApplyCustomResources dryRun file) in
  ret (ApplyCustomResources W v dryRun file).

Definition wait_WaitUntilCRDReady (name : string) (b : bool)
  : M (result unit) :=
  let* _ := emit (EWaitUntilCRDReady name b) in
  ret (WaitUntilCRDReady W name b).

Definition factory_ToRESTConfig : M (result RestConfig) :=
  let* _ := emit EToRESTConfig in
  ret (ToRESTConfig W).

Definition kubernetes_NewForConfig (c : RestConfig) : M (result Clientset) :=
  let* _ := emit (ENewForConfig c) in
  ret (NewForConfig W c).

Definition apply_WriteOutput (file : string) (output : list string)
  : M (result unit) :=
  let* _ := emit (EWriteOutput file output) in
  ret (WriteOutput W file output).

(** [client.CoreV1().Pods(namespace).Watch(ctx, options)]. *)
Definition pods_Watch (client : Clientset) (namespace : string)
  (options : ListOptions) : M (result Stream) :=
  let* _ := emit (EWatchPods client namespace options) in
  ret (WatchPods W client namespace options).

(** [phase := &atomic.Value{}; phase.Store("")]. *)
Definition new_phase : M addr :=
  fun s => (Done (length (phaseCells s)), set_phaseCells (phaseCells s ++ [""]) s).

(** [phase.Store(v)]. *)
Definition phase_Store (phase : addr) (v : string) : M unit :=
  fun s => (Done tt, set_phaseCells (<[phase := v]> (phaseCells s)) s).

(** Modelled from the spec: the event loop of [helpers.WatchUntil], which is
    not part of the embedded file. Events are consumed in arrival order; the
    first one the predicate accepts ends the wait with success; a stream that
    closes first gives the timeout error, one that breaks gives its error. *)
Fixpoint consume (assertEvent : Event -> M bool) (evs : list Event)
  (e : StreamEnd) : M (result unit) :=
  match evs with
  | [] =>
      match e with
      | Closed => ret (Err TimeoutError)
      | Broken err => ret (Err err)
      end
  | event :: rest =>
      let* ok := assertEvent event in
      if ok then ret (Ok tt) else consume assertEvent rest e
  end.

(** Modelled from the spec: [helpers.WatchUntil], the Condition Poller of the
    spec, which is not part of the embedded file. The stream is opened once;
    an error opening it is returned; the stream is closed on every exit. *)
Definition WatchUntil (watchFunc : M (result Stream))
  (assertEvent : Event -> M bool) : M (result unit) :=
  try* w := watchFunc in
  let* r := consume assertEvent (events w) (ending w) in
  let* _ := emit EWatchStop in
  ret r.

(** The conversion loop of both predicates: one [metav1.Condition] per pod
    condition, in order. *)
Definition conds_of (pod : Pod) : list Condition :=
  map
    (fun c =>
       mkCondition (pc_Type c) (pc_Status c) (pc_Reason c) (pc_Message c))
    (pod_Conditions pod).

(** The predicate [waitUntilRegistrationOperatorConditionIsTrue] hands to
    [WatchUntil]. *)
Definition registrationOperatorPredicate (phase : addr) (event : Event)
  : M bool :=
  match ev_Object event with
  | ObjPod pod =>
      let* _ := phase_Store phase (GetSpinnerPodStatus W pod) in
      ret (IsStatusConditionTrue (conds_of pod) "Ready")
  | _ => ret false
  end.

(** The predicate [waitUntilKlusterletConditionIsTrue] hands to
    [WatchUntil]. *)
Definition klusterletPredicate (phase : addr) (event : Event) : M bool :=
  match ev_Object event with
  | ObjPod pod =>
      let* _ := phase_Store phase (GetSpinnerPodStatus W pod) in
      ret (IsStatusConditionTrue (conds_of pod) "Ready")
  | _ => ret false
  end.

Definition waitUntilRegistrationOperatorConditionIsTrue (timeout : Z)
  : M (result unit) :=
  try* restConfig := factory_ToRESTConfig in
  try* client := kubernetes_NewForConfig restConfig in
  let* phase := new_phase in
  let* _ :=
    emit (ESpinnerStart "Waiting for registration operator to become ready...") in
  let* r :=
    WatchUntil
      (pods_Watch client "open-cluster-management"
         (mkListOptions (Some timeout) "app=klusterlet"))
      (registrationOperatorPredicate phase) in
  let* _ := emit ESpinnerStop in
  ret r.

(** Wait until the klusterlet condition available=true, or timeout in
    [timeout] seconds. *)
Definition waitUntilKlusterletConditionIsTrue (timeout : Z)
  : M (result unit) :=
  try* client := factory_KubernetesClientSet W in
  let* phase := new_phase in
  let* _ :=
    emit (ESpinnerStart "Waiting for klusterlet agent to become ready...") in
  let* r :=
    WatchUntil
      (pods_Watch client "open-cluster-management-agent"
         (mkListOptions (Some timeout) "app=klusterlet-registration-agent"))
      (klusterletPredicate phase) in
  let* _ := emit ESpinnerStop in
  ret r.

Definition run : M (result unit) :=
  let* o := get_opts in
  let dryRun := DryRun (Flags o) in
  let output := [] in
  try* clients := helpers_GetClients in
  let files :=
    [ "join/namespace_agent.yaml";
      "join/namespace.yaml";
      "join/bootstrap_hub_kubeconfig.yaml";
      "join/cluster_role.yaml";
      "join/cluster_role_binding.yaml";
      "join/klusterlets.crd.yaml";
      "join/service_account.yaml" ] in
  try* out := applier_ApplyDirectly (values o) dryRun files in
  let output := output ++ out in
  try* out := applier_ApplyDeployments (values o) dryRun "join/operator.yaml" in
  let output := output ++ out in
  try* _ :=
    (if negb dryRun then
       wait_WaitUntilCRDReady
         "klusterlets.operator.open-cluster-management.io" (wait o)
     else ret (Ok tt)) in
  try* out :=
    applier_ApplyCustomResources (values o) dryRun "join/klusterlets.cr.yaml" in
  let output := output ++ out in
  try* _ :=
    (if wait o && negb dryRun then
       waitUntilRegistrationOperatorConditionIsTrue (int64 (Timeout (Flags o)))
     else ret (Ok tt)) in
  try* _ :=
    (if wait o && negb dryRun then
       waitUntilKlusterletConditionIsTrue (int64 (Timeout (Flags o)))
     else ret (Ok tt)) in
  let* _ := emit (EPrintf (GetExampleHeader W) (v_ClusterName (values o))) in
  apply_WriteOutput (outputFile o) output.
End Rollout.

(** * [get work]: listing the manifest works of a managed cluster

    A shallow embedding of [pkg/cmd/get/work/exec.go]: [complete],
    [validate], [run], the two converters and [getFileds]. *)

Module GetWork.

(** [workapiv1.ManifestWork], the fields the command reads. A manifest is
    kept as its raw text: only their number is used. *)
Record ManifestWork := mkWork {
  Name : string;
  Namespace : string;
  Manifests : list string;
  Conditions : list Condition
}.

(** The [runtime.Object] handed to a converter: a manifest work list, or an
    object of another kind. *)
Inductive RuntimeObject :=
| WorkList (items : list ManifestWork)
| Other (kind : string).

(** The condition types of [open-cluster-management.io/api/work/v1]. *)
Definition WorkApplied : string := "Applied".
Definition WorkAvailable : string := "Available".

(** [meta.FindStatusCondition]: the first condition of the given type, or
    nil. *)
Fixpoint FindStatusCondition (conditions : list Condition)
  (conditionType : string) : option Condition :=
  match conditions with
  | [] => None
  | c :: rest =>
      if String.eqb (cond_Type c) conditionType then Some c
      else FindStatusCondition rest conditionType
  end.

Definition getFileds (work : ManifestWork) : string * Z * string * string :=
  let cluster := Namespace work in
  let number := Z.of_nat (length (Manifests work)) in
  let applied :=
    match FindStatusCondition (Conditions work) WorkApplied with
    | Some appliedCond => cond_Status appliedCond
    | None => ""
    end in
  let available :=
    match FindStatusCondition (Conditions work) WorkAvailable with
    | Some availableCond => cond_Status availableCond
    | None => ""
    end in
  (cluster, number, applied, available).

(** A table cell or tree field: an [interface{}] holding a string or an
    int. *)
Inductive Cell :=
| CellString (s : string)
| CellInt (n : Z).

(** [metav1.TableColumnDefinition]. *)
Record TableColumnDefinition := mkColumn {
  col_Name : string;
  col_Type : string
}.

(** [metav1.TableRow]. [Object] is the [&work] of the row's
    [runtime.RawExtension]: the address of a loop variable. *)
Record TableRow := mkRow {
  Cells : list Cell;
  Object : addr
}.

(** [metav1.Table]. *)
Record Table := mkTable {
  ColumnDefinitions : list TableColumnDefinition;
  Rows : list TableRow
}.

Definition row_cells (work : ManifestWork) : list Cell :=
  let '(cluster, number, applied, available) := getFileds work in
  [ CellString (Name work); CellString cluster; CellInt number;
    CellString applied; CellString available ].

(** The loop of [converToTable] over [workList.Items]. [vars] holds the
    instances of the loop variable [work] that the rows point to. With
    [perIteration] (the loop-variable rule of Go 1.22 and later) every
    iteration has a variable of its own; without it (earlier Go) the one
    variable of the loop is assigned again in every iteration. *)
Fixpoint table_loop (perIteration : bool) (items : list ManifestWork)
  (rows : list TableRow) (vars : list ManifestWork)
  : list TableRow * list ManifestWork :=
  match items with
  | [] => (rows, vars)
  | work :: rest =>
      let '(a, vars') :=
        if perIteration then (length vars, vars ++ [work])
        else
          match vars with
          | [] => (0, [work])
          | _ => (0, <[0 := work]> vars)
          end in
      table_loop perIteration rest (rows ++ [mkRow (row_cells work) a]) vars'
  end.

(** [converToTable]; with the table, the loop variables its rows point
    to. *)
Definition converToTable (perIteration : bool) (obj : RuntimeObject)
  : Table * list ManifestWork :=
  let columns :=
    [ mkColumn "Name" "string";
      mkColumn "Cluster" "string";
      mkColumn "Number Of Manifests" "integer";
      mkColumn "Applied" "string";
      mkColumn "Available" "string" ] in
  match obj with
  | WorkList items =>
      let '(rows, vars) := table_loop perIteration items [] [] in
      (mkTable columns rows, vars)
  | Other _ => (mkTable columns [], [])
  end.

(** The map [convertToTree] builds for one work. *)
Definition tree_fields (work : ManifestWork) : gmap string Cell :=
  let '(cluster, number, applied, available) := getFileds work in
  let mp : gmap string Cell := ∅ in
  let mp := <[".Cluster" := CellString cluster]> mp in
  let mp := <[".Number of Manifests" := CellInt number]> mp in
  let mp := <[".Applied" := CellString applied]> mp in
  let mp := <[".Available" := CellString available]> mp in
  mp.

(** The options of the command, with its printer and the results of the
    calls it makes. The printer ([pkg/helpers/printer]) and the flags'
    [ValidateHub] are not part of the embedded file: they are taken as
    given. *)
Section Command.
Context {Printer TreePrinter : Type}.
Context (AddFileds : TreePrinter -> string -> gmap string Cell -> TreePrinter).
Context (Competele : Printer -> Printer).
Context (Validate : Printer -> result unit).
Context (ValidateHub : result unit).

Definition convertToTree (obj : RuntimeObject) (tree : TreePrinter) : TreePrinter :=
  match obj with
  | WorkList items =>
      fold_left
        (fun tree work => AddFileds tree (Name work) (tree_fields work))
        items tree
  | Other _ => tree
  end.

Record Options := mkOptions {
  cluster : string;
  workName : string;
  printer : Printer
}.

Definition complete (o : Options) (args : list string)
  : Options * result unit :=
  if Nat.ltb 1 (length args) then
    (o, Err (Errorf "can only specify one manifestwork"))
  else
    let o :=
      match args with
      | [arg] => mkOptions (cluster o) arg (printer o)
      | _ => o
      end in
    (mkOptions (cluster o) (workName o) (Competele (printer o)), Ok tt).

Definition validate (o : Options) : result unit :=
  match ValidateHub with
  | Err err => Err err
  | Ok _ =>
      if Nat.eqb (String.length (cluster o)) 0 then
        Err (Errorf "cluster name must be specified")
      else
        match Validate (printer o) with
        | Err err => Err err
        | Ok _ => Ok tt
        end
  end.

(** The calls [run] makes to the hub, as recorded. *)
Inductive Call :=
| CToRESTConfig
| CNewClusterClient
| CNewWorkClient
| CGetManagedCluster (name : string)
| CListManifestWorks (namespace : string) (fieldSelector : string)
| CPrint (obj : RuntimeObject).

(** What the hub and the libraries answer. *)
Record Hub := mkHub {
  ToRESTConfig : result RestConfig;
  NewClusterClient : RestConfig -> result Clientset;
  NewWorkClient : RestConfig -> result Clientset;
  GetManagedCluster : string -> result unit;
  ListManifestWorks : string -> string -> result (list ManifestWork);
  Print : Printer -> RuntimeObject -> result unit
}.

(** [run], with the calls it made, oldest first. The converters it installs
    on the printer are [convertToTree] and [converToTable] above. *)
Definition run (H : Hub) (o : Options) : result unit * list Call :=
  match ToRESTConfig H with
  | Err err => (Err err, [CToRESTConfig])
  | Ok restConfig =>
  match NewClusterClient H restConfig with
  | Err err => (Err err, [CToRESTConfig; CNewClusterClient])
  | Ok clusterClient =>
  match NewWorkClient H restConfig with
  | Err err => (Err err, [CToRESTConfig; CNewClusterClient; CNewWorkClient])
  | Ok workClient =>
  let calls :=
    [CToRESTConfig; CNewClusterClient; CNewWorkClient;
     CGetManagedCluster (cluster o)] in
  match GetManagedCluster H (cluster o) with
  | Err err => (Err err, calls)
  | Ok _ =>
  let selector :=
    if Nat.eqb (String.length (workName o)) 0 then ""
    else String.append "name=" (workName o) in
  let calls := calls ++ [CListManifestWorks (cluster o) selector] in
  match ListManifestWorks H (cluster o) selector with
  | Err err => (Err err, calls)
  | Ok items =>
      (Print H (printer o) (WorkList items),
       calls ++ [CPrint (WorkList items)])
  end end end end end.
End Command.

(** The list requests among recorded calls, oldest first: namespace and
    field selector. *)
Fixpoint listed (calls : list Call) : list (string * string) :=
  match calls with
  | [] => []
  | CListManifestWorks namespace fieldSelector :: rest =>
      (namespace, fieldSelector) :: listed rest
  | _ :: rest => listed rest
  end.

End GetWork.
(** ** Vocabulary of the statements *)

(** The cluster entry of the secure credential, from the insecure one. *)
Definition secured (server : string) (ca : GoBytes) (nc : NamedCluster)
  : NamedCluster :=
  with_CertificateAuthorityData ca
    (with_Server server (with_InsecureSkipTLSVerify false nc)).

(** The state once the in-cluster endpoint lookup of
    [createClientcmdapiv1Config] has been made, when the flag asks for it. *)
Definition looked_up (W : World) (client : Clientset) (s : State) : State :=
  if forceHubInClusterEndpointLookup (opts s) then
    mkState (set_hubInClusterEndpoint (GetAPIServer W client).1 (opts s))
      (clusterArrays s) (authInfoArrays s) (contextArrays s) (phaseCells s)
      (trace s ++ [EGetAPIServer client])
  else s.

(** The error of that lookup that ends the escalation, if any. *)
Definition lookup_abort (W : World) (client : Clientset) (s : State)
  : option error :=
  if forceHubInClusterEndpointLookup (opts s) then
    match (GetAPIServer W client).2 with
    | Some e => if IsNotFound e then None else Some e
    | None => None
    end
  else None.

(** The state [createClientcmdapiv1Config] leaves when it has copied the
    insecure config [d] and written the cluster entry [nc'] into the copy. *)
Definition derived (s1 : State) (d : ConfigData) (nc' : NamedCluster)
  (t : list Effect) : State :=
  mkState (opts s1)
    (clusterArrays s1 ++ [nc' :: tail (d_Clusters d)])
    (authInfoArrays s1 ++ [d_AuthInfos d])
    (contextArrays s1 ++ [d_Contexts d])
    (phaseCells s1) (trace s1 ++ t).

(** The copy [DeepCopy] returns in state [s]. *)
Definition copy_of (s : State) (d : ConfigData) : Config :=
  mkConfig (length (clusterArrays s)) (length (authInfoArrays s))
    (length (contextArrays s)) (d_CurrentContext d).

(** The insecure bootstrap credential [createExternalBootstrapConfig] builds. *)
Definition insecure_data (o : Options) : ConfigData :=
  mkConfigData
    [ mkNamedCluster "hub" (mkCluster (hubAPIServer o) "" true "" None "") ]
    [ mkNamedAuthInfo "bootstrap" (mkAuthInfo (token o)) ]
    [ mkNamedContext "bootstrap" (mkContext "hub" "bootstrap" "default") ]
    "bootstrap".

(** The CA bytes [complete] holds after its [--ca-file] step. *)
Definition ca_input (W : World) (o : Options) : result GoBytes :=
  if negb (String.eqb (caFile o) "") then ReadFile W (caFile o)
  else Ok (HubCADate o).

(** The clients the trace asked for the hub's CA. *)
Fixpoint fetches (t : list Effect) : list Clientset :=
  match t with
  | [] => []
  | EGetCACert c :: t' => c :: fetches t'
  | _ :: t' => fetches t'
  end.

(** The state in which [complete] calls [createClientcmdapiv1Config]. *)
Definition staged (s : State) (vb : VersionBundle) (cabytes : GoBytes)
  : State :=
  let o := opts s in
  mkState
    (set_HubCADate cabytes
       (set_values
          (mkValues (clusterName o) (mkHub (hubAPIServer o) "")
             (mkKlusterlet "") (registry o)
             (mkBundleVersion (vb_Registration vb) (vb_Placement vb)
                (vb_Work vb) (vb_Operator vb)))
          o))
    (clusterArrays s ++ [d_Clusters (insecure_data o)])
    (authInfoArrays s ++ [d_AuthInfos (insecure_data o)])
    (contextArrays s ++ [d_Contexts (insecure_data o)])
    (phaseCells s)
    (((trace s ++ [EGetVersionBundle (bundleVersion o)]) ++
      (if negb (String.eqb (caFile o) "") then [EReadFile (caFile o)] else []))
     ++ [ECreateClient (insecure_data o)]).

(** The address the registering cluster reports for itself, as [complete]
    keeps it. *)
Definition klusterlet_address (W : World) (kubeClient : Clientset) : string :=
  match GetAPIServer W kubeClient with
  | (_, Some _) => ""
  | (a, None) => if negb (ValidAPIHost W a) then "" else a
  end.

(** What [complete] does with the outcome of the escalation call. *)
Definition after_escalation (W : World) (r : result Config) (s1 : State)
  : Outcome (result unit) * State :=
  let o2 :=
    set_HubConfig (match r with Ok cfg => Some cfg | Err _ => None end)
      (opts s1) in
  let st o t :=
    mkState o (clusterArrays s1) (authInfoArrays s1) (contextArrays s1)
      (phaseCells s1) t in
  match r with
  | Err e => (Done (Err e), st o2 (trace s1))
  | Ok _ =>
      match KubernetesClientSet W with
      | Err e => (Done (Err e), st o2 (trace s1 ++ [EKubernetesClientSet]))
      | Ok kubeClient =>
          (Done (Ok tt),
           st (set_values
                 (with_Klusterlet_APIServer (klusterlet_address W kubeClient)
                    (values o2)) o2)
             ((trace s1 ++ [EKubernetesClientSet]) ++ [EGetAPIServer kubeClient]))
      end
  end.

(** The watch requests of a trace, oldest first: namespace and options. *)
Fixpoint watches (t : list Effect) : list (string * ListOptions) :=
  match t with
  | [] => []
  | EWatchPods _ namespace o :: t' => (namespace, o) :: watches t'
  | _ :: t' => watches t'
  end.

(** The watch request of the registration-operator wait. *)
Definition operatorWatch (timeout : Z) : string * ListOptions :=
  ("open-cluster-management", mkListOptions (Some timeout) "app=klusterlet").

(** The watch request of the klusterlet-agent wait. *)
Definition agentWatch (timeout : Z) : string * ListOptions :=
  ("open-cluster-management-agent",
   mkListOptions (Some timeout) "app=klusterlet-registration-agent").

(** The seconds the server may keep the given watches open, added up. *)
Fixpoint wait_budget (ws : list (string * ListOptions)) : Z :=
  match ws with
  | [] => 0
  | (_, o) :: ws' =>
      match TimeoutSeconds o with
      | Some t => t + wait_budget ws'
      | None => wait_budget ws'
      end
  end.

(** An event whose object is not a pod. *)
Definition not_a_pod (event : Event) : Prop :=
  match ev_Object event with
  | ObjPod _ => False
  | _ => True
  end.

(** A readiness predicate touches nothing but the phase cells. *)
Definition quiet (p : Event -> M bool) : Prop :=
  forall event s, exists b s',
    p event s = (Done b, s') /\ opts s' = opts s /\ trace s' = trace s.

(** ** A sample hub and managed cluster *)

(** The client handles of the sample world: the client built from the
    insecure bootstrap config, the managed cluster's own client, and the
    client [kubernetes.NewForConfig] builds. *)
Definition hub_client : Clientset := 1.
Definition local_client : Clientset := 2.
Definition rest_client : Clientset := 3.

Definition sample_ca : list Byte.byte := [Byte.x43; Byte.x41].

(** A rendering of a kubeconfig that shows each cluster's server. *)
Definition render (p : option ConfigData) : string :=
  match p with
  | None => "null"
  | Some d =>
      String.concat ";"
        (map
           (fun nc =>
              String.append (nc_Name nc)
                (String.append "@" (Server (nc_Cluster nc))))
           (d_Clusters d))
  end.

Definition ready_pod : Pod :=
  mkPod "klusterlet" "Running" [mkPodCondition "Ready" "True" "" ""].

Definition pending_pod : Pod :=
  mkPod "klusterlet" "Pending" [mkPodCondition "Ready" "False" "" ""].

(** A world in which every call succeeds, except as the arguments say: the
    hub's answer to the in-cluster endpoint lookup, its answer to the CA
    fetch, the managed cluster's answer about its own endpoint, and the
    streams of the two watches. *)
Definition sample_world (lookup : string * option error)
  (ca : result GoBytes) (own : string * option error)
  (operator agent : Stream) : World :=
  mkWorld
    (fun _ => Ok (mkVersionBundle "v0.8.0" "v0.8.0" "v0.8.0" "v0.8.0"))
    (fun _ => Ok (Some sample_ca))
    (fun _ => Ok hub_client)
    (fun c => if Nat.eqb c hub_client then lookup else own)
    (fun _ => ca)
    (Ok local_client)
    (fun h => String.prefix "http://" h || String.prefix "https://" h)
    (fun _ => Ok tt)
    (fun d => Ok (render d))
    (Ok local_client)
    (fun _ _ _ => Ok [])
    (fun _ _ _ => Ok [])
    (fun _ _ _ => Ok [])
    (fun _ _ => Ok tt)
    (Ok 0)
    (fun _ => Ok rest_client)
    (fun _ namespace _ =>
       if String.eqb namespace "open-cluster-management" then Ok operator
       else Ok agent)
    pod_Phase
    "clusteradm"
    (fun _ _ => Ok tt).

Definition ready_stream : Stream :=
  mkStream
    [ mkEvent Bookmark (ObjOther "Bookmark");
      mkEvent Added (ObjPod pending_pod);
      mkEvent Modified (ObjPod ready_pod) ]
    Closed.

Definition stalled_stream : Stream :=
  mkStream [ mkEvent Added (ObjPod pending_pod) ] Closed.

(** The hub of the spec's scenario: it knows no in-cluster endpoint, serves
    the given CA, and the rollout becomes ready. *)
Definition scenario_world (lookup : string * option error)
  (ca : result GoBytes) (own : string * option error) : World :=
  sample_world lookup ca own ready_stream ready_stream.

Definition sample_options (force : bool) (file : string) (w dry : bool)
  : Options :=
  mkOptions (mkFlags dry 300%Z) "tok-123" "https://hub.example:6443" "cluster1"
    "quay.io/open-cluster-management" "default" file "" w force "" None None
    (mkValues "" (mkHub "" "") (mkKlusterlet "") "" (mkBundleVersion "" "" "" "")).

Definition not_found : error :=
  StatusError StatusReasonNotFound "configmaps cluster-info not found".

Definition forbidden : error :=
  StatusError StatusReasonForbidden "configmaps cluster-info is forbidden".

(** The manifest works the sample hub holds for [cluster1]. *)
Definition sample_works : list GetWork.ManifestWork :=
  [ GetWork.mkWork "deploy-nginx" "cluster1" ["deployment"; "service"]
      [ mkCondition "Applied" "True" "" "";
        mkCondition "Available" "False" "" "" ];
    GetWork.mkWork "addon-config" "cluster1" ["configmap"] [] ].

(** A hub that knows the managed cluster [cluster1] and answers a list
    request in its namespace with the works the field selector picks. The
    printer is its output format. *)
Definition works_hub : @GetWork.Hub string :=
  GetWork.mkHub
    (Ok 0)
    (fun _ => Ok hub_client)
    (fun _ => Ok hub_client)
    (fun name => if String.eqb name "cluster1" then Ok tt else Err not_found)
    (fun namespace fieldSelector =>
       if String.eqb namespace "cluster1" then
         Ok (List.filter
               (fun work =>
                  String.eqb fieldSelector "" ||
                  String.eqb fieldSelector
                    (String.append "name=" (GetWork.Name work)))
               sample_works)
       else Ok [])
    (fun _ _ => Ok tt).

(** ** Vocabulary of the further properties *)

(** The state a run of [complete] that returns nil leaves: [vb] is the version
    bundle, [cabytes] the CA bytes held after the [--ca-file] step, [ca] the
    CA bytes of the credential, [client] the client built from the insecure
    bootstrap config and [kubeClient] the managed cluster's own. *)
Definition completed (W : World) (s : State) (vb : VersionBundle)
  (cabytes ca : GoBytes) (client kubeClient : Clientset) : State :=
  let o := opts s in
  let force := forceHubInClusterEndpointLookup o in
  mkState
    (mkOptions (Flags o) (token o) (hubAPIServer o) (clusterName o)
       (registry o) (bundleVersion o) (caFile o) (outputFile o) (wait o) force
       (if force then (GetAPIServer W client).1 else hubInClusterEndpoint o)
       cabytes
       (Some
          (mkConfig (length (clusterArrays s) + 1)
             (length (authInfoArrays s) + 1) (length (contextArrays s) + 1)
             "bootstrap"))
       (mkValues (clusterName o) (mkHub (hubAPIServer o) "")
          (mkKlusterlet (klusterlet_address W kubeClient)) (registry o)
          (mkBundleVersion (vb_Registration vb) (vb_Placement vb)
             (vb_Work vb) (vb_Operator vb))))
    ((clusterArrays s ++ [d_Clusters (insecure_data o)]) ++
     [[mkNamedCluster "hub" (mkCluster (hubAPIServer o) "" false "" ca "")]])
    ((authInfoArrays s ++ [d_AuthInfos (insecure_data o)]) ++
     [d_AuthInfos (insecure_data o)])
    ((contextArrays s ++ [d_Contexts (insecure_data o)]) ++
     [d_Contexts (insecure_data o)])
    (phaseCells s)
    (trace s ++
     [EGetVersionBundle (bundleVersion o)] ++
     (if negb (String.eqb (caFile o) "") then [EReadFile (caFile o)] else []) ++
     [ECreateClient (insecure_data o)] ++
     (if force then [EGetAPIServer client] else []) ++
     (match cabytes with None => [EGetCACert client] | Some _ => [] end) ++
     [EKubernetesClientSet; EGetAPIServer kubeClient]).

(** A kubeconfig whose current context names one of its contexts, whose
    context names one of its clusters and one of its users. *)
Definition resolves (d : ConfigData) : Prop :=
  exists x,
    In x (d_Contexts d) /\
    nx_Name x = d_CurrentContext d /\
    (exists c, In c (d_Clusters d) /\ nc_Name c = ctx_Cluster (nx_Context x)) /\
    (exists a, In a (d_AuthInfos d) /\ na_Name a = ctx_AuthInfo (nx_Context x)).

(** The credential [setKubeconfig] marshals: under the flag, with the
    in-cluster endpoint written over the first cluster's server. *)
Definition persisted (o : Options) (d : ConfigData) : ConfigData :=
  if forceHubInClusterEndpointLookup o then
    mkConfigData
      (match d_Clusters d with
       | nc :: rest => with_Server (hubInClusterEndpoint o) nc :: rest
       | [] => []
       end)
      (d_AuthInfos d) (d_Contexts d) (d_CurrentContext d)
  else d.

(** The calls of a trace that reach the managed cluster's own API server
    from [complete]. *)
Fixpoint local_calls (t : list Effect) : nat :=
  match t with
  | [] => 0
  | EKubernetesClientSet :: t' => S (local_calls t')
  | _ :: t' => local_calls t'
  end.

(** The output files a trace wrote, with what was written. *)
Fixpoint written (t : list Effect) : list (string * list string) :=
  match t with
  | [] => []
  | EWriteOutput file output :: t' => (file, output) :: written t'
  | _ :: t' => written t'
  end.

(** The CRD readiness waits of a trace. *)
Fixpoint crd_waits (t : list Effect) : list (string * bool) :=
  match t with
  | [] => []
  | EWaitUntilCRDReady name b :: t' => (name, b) :: crd_waits t'
  | _ :: t' => crd_waits t'
  end.

(** The apply stages of a trace, in order: stage, dry-run flag, files. *)
Fixpoint applied (t : list Effect) : list (string * bool * list string) :=
  match t with
  | [] => []
  | EApplyDirectly dry files :: t' => ("directly", dry, files) :: applied t'
  | EApplyDeployments dry file :: t' =>
      ("deployments", dry, [file]) :: applied t'
  | EApplyCustomResources dry file :: t' =>
      ("custom-resources", dry, [file]) :: applied t'
  | _ :: t' => applied t'
  end.

(** The first condition of a type, as [meta.FindStatusCondition] finds
    it. *)
Fixpoint first_of_type (ty : string) (cs : list PodCondition)
  : option PodCondition :=
  match cs with
  | [] => None
  | c :: rest =>
      if String.eqb (pc_Type c) ty then Some c else first_of_type ty rest
  end.

(** The calls the two readiness waits make. *)
Definition wait_effect (e : Effect) : bool :=
  match e with
  | EToRESTConfig | ENewForConfig _ | EKubernetesClientSet
  | ESpinnerStart _ | ESpinnerStop | EWatchPods _ _ _ | EWatchStop => true
  | _ => false
  end.

(** The three apply stages of [run], in order, for a dry-run flag. *)
Definition stages (dryRun : bool) : list (string * bool * list string) :=
  [ ("directly", dryRun,
     [ "join/namespace_agent.yaml";
       "join/namespace.yaml";
       "join/bootstrap_hub_kubeconfig.yaml";
       "join/cluster_role.yaml";
       "join/cluster_role_binding.yaml";
       "join/klusterlets.crd.yaml";
       "join/service_account.yaml" ]);
    ("deployments", dryRun, ["join/operator.yaml"]);
    ("custom-resources", dryRun, ["join/klusterlets.cr.yaml"]) ].

(** The world of the sample hub with another preflight check. *)
Definition with_RunChecks (W : World)
  (check : option ConfigData -> result unit) : World :=
  mkWorld (GetVersionBundle W) (ReadFile W)
    (CreateClientFromClientcmdapiv1Config W) (GetAPIServer W) (GetCACert W)
    (KubernetesClientSet W) (ValidAPIHost W) check (yaml_Marshal W)
    (GetClients W) (ApplyDirectly W) (ApplyDeployments W)
    (ApplyCustomResources W) (WaitUntilCRDReady W) (ToRESTConfig W)
    (NewForConfig W) (WatchPods W) (GetSpinnerPodStatus W)
    (GetExampleHeader W) (WriteOutput W).

(** The world of the sample hub whose apply stages print what they applied. *)
Definition with_outputs (W : World) (out1 out2 out3 : list string) : World :=
  mkWorld (GetVersionBundle W) (ReadFile W)
    (CreateClientFromClientcmdapiv1Config W) (GetAPIServer W) (GetCACert W)
    (KubernetesClientSet W) (ValidAPIHost W) (RunChecks W) (yaml_Marshal W)
    (GetClients W) (fun _ _ _ => Ok out1) (fun _ _ _ => Ok out2)
    (fun _ _ _ => Ok out3) (WaitUntilCRDReady W) (ToRESTConfig W)
    (NewForConfig W) (WatchPods W) (GetSpinnerPodStatus W)
    (GetExampleHeader W) (WriteOutput W).

(** The credential of the sample join, as [complete] leaves it. *)
Definition sample_credential : ConfigData :=
  mkConfigData
    [ mkNamedCluster "hub"
        (mkCluster "https://hub.example:6443" "" false "" (Some sample_ca) "") ]
    [ mkNamedAuthInfo "bootstrap" (mkAuthInfo "tok-123") ]
    [ mkNamedContext "bootstrap" (mkContext "hub" "bootstrap" "default") ]
    "bootstrap".
(** ** Store lemmas *)

Lemma lookup_snoc_last {A} (l : list A) (x : A) :
  (l ++ [x]) !! length l = Some x.
Proof.
  rewrite lookup_app_r by lia.
  now rewrite Nat.sub_diag.
Qed.

Lemma insert_snoc_last {A} (l : list A) (x y : A) :
  <[length l := y]> (l ++ [x]) = l ++ [y].
Proof.
  rewrite insert_app_r_alt by lia.
  now rewrite Nat.sub_diag.
Qed.

Lemma lookup_snoc_old {A} (l : list A) (x : A) (i : nat) (y : A) :
  l !! i = Some y -> (l ++ [x]) !! i = Some y.
Proof.
  intros H. rewrite lookup_app_l; [exact H|].
  eapply lookup_lt_Some; eauto.
Qed.

(** Unfolding of the program's plumbing, and of reads and writes behind a
    freshly allocated address. *)
Ltac unfold_go :=
  unfold helpers_GetAPIServer, helpers_GetCACert, version_GetVersionBundle,
    os_ReadFile, helpers_CreateClientFromClientcmdapiv1Config,
    factory_KubernetesClientSet, preflight_RunChecks, yaml_Marshal_ptr,
    createExternalBootstrapConfig, DeepCopy, read_ptr;
  unfold read_Config, view, assign_Clusters, alloc_Clusters, alloc_AuthInfos,
    alloc_Contexts, modify_opts, get_opts, emit, panic, bind, ret,
    set_clusterArrays, set_authInfoArrays, set_contextArrays.

Ltac store_simpl :=
  repeat (rewrite ?lookup_snoc_last, ?insert_snoc_last; simpl).

Section JoinFacts.
Context (W : World).

(** [createClientcmdapiv1Config] in closed form, on a config whose slices
    are live and which has a first cluster. *)
Lemma createClientcmdapiv1Config_run s client cfg d nc rest :
  view s cfg = Some d ->
  d_Clusters d = nc :: rest ->
  createClientcmdapiv1Config W client cfg s =
    let s1 := looked_up W client s in
    let server := hubAPIServer (opts s) in
    match lookup_abort W client s with
    | Some e => (Done (Err e), s1)
    | None =>
        match HubCADate (opts s) with
        | Some ca =>
            (Done (Ok (copy_of s d)),
             derived s1 d (secured server (Some ca) nc) [])
        | None =>
            match GetCACert W client with
            | Ok ca =>
                (Done (Ok (copy_of s d)),
                 derived s1 d (secured server ca nc) [EGetCACert client])
            | Err e =>
                (Done (Err e),
                 derived s1 d
                   (with_Server server (with_InsecureSkipTLSVerify false nc))
                   [EGetCACert client])
            end
        end
    end.
Proof.
  intros Hview Hcl.
  destruct s as [o ca aa xa pc t]. destruct d as [dc da dx dcur].
  unfold view in Hview. simpl in *. subst dc.
  destruct (ca !! Clusters cfg) as [cl|] eqn:E1; [|discriminate].
  destruct (aa !! AuthInfos cfg) as [au|] eqn:E2; [|discriminate].
  destruct (xa !! Contexts cfg) as [cx|] eqn:E3; [|discriminate].
  injection Hview as -> -> -> <-.
  unfold createClientcmdapiv1Config, looked_up, lookup_abort, derived,
    copy_of, secured.
  unfold_go. simpl.
  destruct (forceHubInClusterEndpointLookup o) eqn:Ef; simpl;
    [destruct (GetAPIServer W client) as [ep [e|]] eqn:Eg; simpl;
     [destruct (IsNotFound e) eqn:Enf; simpl; [|reflexivity]|]|];
    rewrite E1, E2, E3; simpl; store_simpl;
    (destruct (HubCADate o) as [b|] eqn:Eca; simpl;
     [|destruct (GetCACert W client) as [b|e'] eqn:Ec; simpl; [|reflexivity]]);
    store_simpl; rewrite ?app_nil_r; reflexivity.
Qed.
End JoinFacts.

(** ** [complete] around the escalation call *)

Lemma fetches_app t1 t2 : fetches (t1 ++ t2) = fetches t1 ++ fetches t2.
Proof.
  induction t1 as [|e t1 IH]; simpl; [reflexivity|].
  destruct e; simpl; rewrite ?IH; reflexivity.
Qed.

Arguments createClientcmdapiv1Config : simpl never.

(** A run of [complete] that stopped before the escalation call. *)
Ltac stopped :=
  left; eexists _, _; split; [reflexivity|split; [reflexivity|]];
  simpl; rewrite ?fetches_app, ?app_nil_r; reflexivity.

(** A run of [complete] that reached it. *)
Ltac reached :=
  unfold set_HubCADate, set_values, with_BundleVersion;
  simpl; rewrite ?app_nil_r;
  let r := fresh "r" in
  let kubeClient := fresh "kubeClient" in
  match goal with
  | |- context [createClientcmdapiv1Config ?W ?client ?c ?st] =>
      destruct (createClientcmdapiv1Config W client c st) as [[r|?] ?]
  end; [|reflexivity];
  unfold after_escalation, klusterlet_address; simpl;
  destruct r as [?|?]; simpl; [|reflexivity];
  destruct (KubernetesClientSet _) as [kubeClient|?]; simpl; [|reflexivity];
  destruct (GetAPIServer _ kubeClient) as [? [?|]]; simpl; reflexivity.

Section CompleteFacts.
Context (W : World).

Lemma view_staged s vb cabytes :
  view (staged s vb cabytes) (copy_of s (insecure_data (opts s))) =
    Some (insecure_data (opts s)).
Proof.
  unfold view, staged, copy_of; simpl.
  now rewrite !lookup_snoc_last.
Qed.

(** [complete] either stops before the escalation call, leaving [HubConfig]
    as it was and having fetched no CA, or hands the insecure bootstrap
    config and the client built from it to [createClientcmdapiv1Config]. *)
Lemma complete_cases s :
  (exists e s',
      complete W s = (Done (Err e), s') /\
      HubConfig (opts s') = HubConfig (opts s) /\
      fetches (trace s') = fetches (trace s))
  \/
  (exists vb cabytes client,
      GetVersionBundle W (bundleVersion (opts s)) = Ok vb /\
      ca_input W (opts s) = Ok cabytes /\
      CreateClientFromClientcmdapiv1Config W (insecure_data (opts s)) =
        Ok client /\
      complete W s =
        match
          createClientcmdapiv1Config W client
            (copy_of s (insecure_data (opts s))) (staged s vb cabytes)
        with
        | (Done r, s1) => after_escalation W r s1
        | (Panic msg, s1) => (Panic msg, s1)
        end).
Proof.
  destruct s as [o ca aa xa pc t].
  unfold complete, ca_input. unfold_go. simpl.
  destruct (String.eqb (token o) ""); [stopped|].
  destruct (String.eqb (hubAPIServer o) ""); [stopped|].
  destruct (String.eqb (clusterName o) ""); [stopped|].
  destruct (Nat.eqb (String.length (registry o)) 0); [stopped|].
  destruct (GetVersionBundle W (bundleVersion o)) as [vb|e]; [|stopped].
  simpl.
  destruct (negb (String.eqb (caFile o) "")) eqn:Ecf; simpl.
  - destruct (ReadFile W (caFile o)) as [cabytes|e]; [|stopped].
    simpl. rewrite !lookup_snoc_last. simpl.
    fold (insecure_data o).
    destruct (CreateClientFromClientcmdapiv1Config W (insecure_data o))
      as [client|e]; [|stopped].
    right. exists vb, cabytes, client.
    repeat split; try reflexivity.
    unfold staged, copy_of. simpl. rewrite Ecf.
    reached.
  - rewrite !lookup_snoc_last. simpl.
    fold (insecure_data o).
    destruct (CreateClientFromClientcmdapiv1Config W (insecure_data o))
      as [client|e]; [|stopped].
    right. exists vb, (HubCADate o), client.
    repeat split; try reflexivity.
    unfold staged, copy_of. simpl. rewrite Ecf.
    reached.
Qed.
End CompleteFacts.

(** Case analysis on a run of [createClientcmdapiv1Config] given in closed
    form. *)
Ltac escalation_cases :=
  unfold looked_up, lookup_abort, derived, copy_of, secured,
    after_escalation, staged, view in *;
  simpl in *;
  repeat match goal with
    | |- context [forceHubInClusterEndpointLookup ?o] =>
        destruct (forceHubInClusterEndpointLookup o) eqn:?; simpl in *
    | |- context [GetAPIServer ?W ?c] =>
        destruct (GetAPIServer W c) as [? [?|]] eqn:?; simpl in *
    | |- context [IsNotFound ?e] =>
        destruct (IsNotFound e) eqn:?; simpl in *
    | |- context [match ?b with Some _ => _ | None => _ end] =>
        is_var b; destruct b; simpl in *
    | |- context [GetCACert ?W ?c] =>
        destruct (GetCACert W c) eqn:?; simpl in *
    | |- context [KubernetesClientSet ?W] =>
        destruct (KubernetesClientSet W) eqn:?; simpl in *
    end.

Section Credential.
Context (W : World).

(** A run of [complete] that leaves a credential in [o.HubConfig]: where
    its CA comes from, what it holds, and how the run ends. *)
Lemma complete_credential s cfg :
  HubConfig (opts s) = None ->
  HubConfig (opts (complete W s).2) = Some cfg ->
  exists cabytes client ca,
    ca_input W (opts s) = Ok cabytes /\
    CreateClientFromClientcmdapiv1Config W (insecure_data (opts s)) =
      Ok client /\
    match cabytes with
    | Some b => ca = Some b
    | None => GetCACert W client = Ok ca
    end /\
    view (complete W s).2 cfg =
      Some
        (mkConfigData
           [ mkNamedCluster "hub"
               (mkCluster (hubAPIServer (opts s)) "" false "" ca "") ]
           (d_AuthInfos (insecure_data (opts s)))
           (d_Contexts (insecure_data (opts s)))
           "bootstrap") /\
    (complete W s).1 =
      match KubernetesClientSet W with
      | Ok _ => Done (Ok tt)
      | Err e => Done (Err e)
      end /\
    forall kubeClient,
      KubernetesClientSet W = Ok kubeClient ->
      kl_APIServer (v_Klusterlet (values (opts (complete W s).2))) =
        klusterlet_address W kubeClient.
Proof.
  intros Hnil.
  destruct (complete_cases W s)
    as [(e & s' & -> & Hh & _) | (vb & cab & client & _ & Hca & Hcc & ->)].
  { simpl. congruence. }
  erewrite createClientcmdapiv1Config_run
    by (apply view_staged || reflexivity).
  cbv zeta. intros H.
  exists cab, client.
  destruct s as [o ca aa xa pc t].
  assert (exists ca0,
    match cab with Some b => ca0 = Some b | None => GetCACert W client = Ok ca0 end)
    as [ca0 Hca0].
  { revert H. escalation_cases; intros [=]; eauto. }
  exists ca0. split; [exact Hca|]. split; [exact Hcc|]. split; [exact Hca0|].
  revert H Hca0. clear Hca Hcc.
  escalation_cases; intros [=] Hca0; simplify_eq; store_simpl;
    (split; [reflexivity|]; split; [reflexivity|]);
    intros kc [=]; subst; reflexivity.
Qed.

(** [complete] asks for the hub's CA at most once, and only when it holds
    no CA bytes of its own. *)
Lemma complete_fetches s b :
  ca_input W (opts s) = Ok (Some b) ->
  fetches (trace (complete W s).2) = fetches (trace s).
Proof.
  intros Hin.
  destruct (complete_cases W s)
    as [(e & s' & -> & _ & Hf) | (vb & cab & client & _ & Hca & _ & ->)].
  { exact Hf. }
  rewrite Hin in Hca. injection Hca as <-.
  erewrite createClientcmdapiv1Config_run
    by (apply view_staged || reflexivity).
  cbv zeta.
  destruct s as [o ca aa xa pc t].
  escalation_cases;
    rewrite ?fetches_app; simpl; rewrite ?fetches_app; simpl;
    destruct (negb (String.eqb (caFile o) "")); simpl;
    rewrite ?app_nil_r; reflexivity.
Qed.
End Credential.


(** ** The waits and [run] *)

Lemma watches_app t1 t2 : watches (t1 ++ t2) = watches t1 ++ watches t2.
Proof.
  induction t1 as [|e t1 IH]; simpl; [reflexivity|].
  destruct e; simpl; rewrite ?IH; reflexivity.
Qed.

Section RolloutFacts.
Context (W : World).

Lemma registrationOperatorPredicate_quiet phase :
  quiet (registrationOperatorPredicate W phase).
Proof.
  intros [ty [pod|r m|k]] s; unfold registrationOperatorPredicate; simpl;
    eexists _, _; eauto.
Qed.

Lemma klusterletPredicate_quiet phase :
  quiet (klusterletPredicate W phase).
Proof.
  intros [ty [pod|r m|k]] s; unfold klusterletPredicate; simpl;
    eexists _, _; eauto.
Qed.

(** The event loop ends, and leaves the options and the trace alone. *)
Lemma consume_quiet p evs e s :
  quiet p ->
  exists r s',
    consume p evs e s = (Done r, s') /\ opts s' = opts s /\ trace s' = trace s.
Proof.
  intros Hp. revert s.
  induction evs as [|event evs IH]; intros s; simpl.
  - destruct e; eexists _, _; eauto.
  - destruct (Hp event s) as (b & s1 & Hb & Ho & Ht).
    unfold bind. rewrite Hb. destruct b.
    + eexists _, _; eauto.
    + destruct (IH s1) as (r & s' & Hr & Ho' & Ht').
      exists r, s'. rewrite Hr. repeat split; congruence.
Qed.

(** [WatchUntil] opens its stream once; what it returns when it could. *)
Lemma WatchUntil_watches client namespace o p s :
  quiet p ->
  exists r s',
    WatchUntil (pods_Watch W client namespace o) p s = (Done r, s') /\
    opts s' = opts s /\
    watches (trace s') = watches (trace s) ++ [(namespace, o)].
Proof.
  intros Hp. unfold WatchUntil, pods_Watch. unfold_go. simpl.
  destruct (WatchPods W client namespace o) as [w|err]; simpl.
  - match goal with
    | |- context [consume p ?evs ?e ?st] =>
        destruct (consume_quiet p evs e st Hp) as (r & s1 & -> & Ho & Ht)
    end.
    simpl. eexists _, _; split; [reflexivity|]. simpl. split; [exact Ho|].
    rewrite Ht; simpl. rewrite !watches_app; simpl. now rewrite app_nil_r.
  - eexists _, _; split; [reflexivity|]. simpl. split; [reflexivity|].
    now rewrite watches_app.
Qed.

(** The operator wait: it ends, keeps the options, and has opened its watch,
    with the timeout it was given, whenever it reports success. *)
Lemma waitUntilRegistrationOperatorConditionIsTrue_watches timeout s :
  exists r s',
    waitUntilRegistrationOperatorConditionIsTrue W timeout s = (Done r, s') /\
    opts s' = opts s /\
    (watches (trace s') = watches (trace s) ++ [operatorWatch timeout] \/
     watches (trace s') = watches (trace s) /\ r <> Ok tt).
Proof.
  unfold waitUntilRegistrationOperatorConditionIsTrue, factory_ToRESTConfig,
    kubernetes_NewForConfig, new_phase.
  unfold_go. simpl.
  destruct (ToRESTConfig W) as [rc|err]; simpl.
  2:{ eexists _, _; split; [reflexivity|]. simpl. split; [reflexivity|].
      right. rewrite watches_app; simpl. now rewrite app_nil_r. }
  destruct (NewForConfig W rc) as [client|err]; simpl.
  2:{ eexists _, _; split; [reflexivity|]. simpl. split; [reflexivity|].
      right. rewrite !watches_app; simpl. now rewrite !app_nil_r. }
  match goal with
  | |- context [WatchUntil (pods_Watch W client ?ns ?o) ?p ?st] =>
      destruct (WatchUntil_watches client ns o p st
                  (registrationOperatorPredicate_quiet _))
        as (r & s1 & -> & Ho & Hw)
  end.
  simpl. eexists _, _; split; [reflexivity|]. simpl. split; [exact Ho|].
  left. rewrite watches_app, Hw; simpl.
  rewrite !watches_app; simpl. now rewrite !app_nil_r.
Qed.

Lemma waitUntilKlusterletConditionIsTrue_watches timeout s :
  exists r s',
    waitUntilKlusterletConditionIsTrue W timeout s = (Done r, s') /\
    opts s' = opts s /\
    (watches (trace s') = watches (trace s) ++ [agentWatch timeout] \/
     watches (trace s') = watches (trace s) /\ r <> Ok tt).
Proof.
  unfold waitUntilKlusterletConditionIsTrue, new_phase.
  unfold_go. simpl.
  destruct (KubernetesClientSet W) as [client|err]; simpl.
  2:{ eexists _, _; split; [reflexivity|]. simpl. split; [reflexivity|].
      right. rewrite watches_app; simpl. now rewrite app_nil_r. }
  match goal with
  | |- context [WatchUntil (pods_Watch W client ?ns ?o) ?p ?st] =>
      destruct (WatchUntil_watches client ns o p st
                  (klusterletPredicate_quiet _))
        as (r & s1 & -> & Ho & Hw)
  end.
  simpl. eexists _, _; split; [reflexivity|]. simpl. split; [exact Ho|].
  left. rewrite watches_app, Hw; simpl.
  rewrite !watches_app; simpl. now rewrite !app_nil_r.
Qed.
End RolloutFacts.

Arguments waitUntilRegistrationOperatorConditionIsTrue : simpl never.
Arguments waitUntilKlusterletConditionIsTrue : simpl never.

(** A run of [run] that ended before the waits, or passed them by. *)
Ltac no_watch :=
  eexists _, _, []; split; [reflexivity|]; simpl;
  rewrite ?watches_app; simpl; rewrite ?app_nil_r;
  repeat split; auto; intros; congruence.

Section RunFacts.
Context (W : World).

(** The watches [run] opens: none when the waits are off; otherwise the
    operator's, then the agent's, each with the configured timeout, the
    second only once the first wait has succeeded. *)
Lemma run_watches s :
  let o := opts s in
  let T := int64 (Timeout (Flags o)) in
  exists r s' ws,
    run W s = (Done r, s') /\
    watches (trace s') = watches (trace s) ++ ws /\
    (ws = [] \/ ws = [operatorWatch T] \/ ws = [operatorWatch T; agentWatch T]) /\
    (wait o && negb (DryRun (Flags o)) = false -> ws = []) /\
    (r = Ok tt -> wait o && negb (DryRun (Flags o)) = true ->
     ws = [operatorWatch T; agentWatch T]).
Proof.
  destruct s as [o ca aa xa pc t]. cbv zeta. simpl opts.
  unfold run, helpers_GetClients, applier_ApplyDirectly,
    applier_ApplyDeployments, applier_ApplyCustomResources,
    wait_WaitUntilCRDReady, apply_WriteOutput.
  unfold_go. simpl.
  destruct (GetClients W) as [clients|err]; simpl; [|no_watch].
  destruct (ApplyDirectly W _ _ _) as [out1|err]; simpl; [|no_watch].
  destruct (ApplyDeployments W _ _ _) as [out2|err]; simpl; [|no_watch].
  destruct (DryRun (Flags o)) eqn:Edry; simpl.
  - (* dry run: no CRD wait, no readiness wait *)
    rewrite andb_false_r.
    destruct (ApplyCustomResources W _ _ _) as [out3|err]; simpl; [|no_watch].
    destruct (WriteOutput W _ _); no_watch.
  - rewrite andb_true_r.
    destruct (WaitUntilCRDReady W _ _) as [[]|err]; simpl; [|no_watch].
    destruct (ApplyCustomResources W _ _ _) as [out3|err]; simpl; [|no_watch].
    destruct (wait o) eqn:Ewait; simpl.
    2:{ destruct (WriteOutput W _ _); no_watch. }
    match goal with
    | |- context [waitUntilRegistrationOperatorConditionIsTrue W ?T ?st] =>
        destruct (waitUntilRegistrationOperatorConditionIsTrue_watches W T st)
          as (r1 & s1 & -> & Ho1 & Hw1)
    end.
    simpl in Hw1. rewrite !watches_app in Hw1. simpl in Hw1.
    rewrite !app_nil_r in Hw1.
    destruct r1 as [[]|err1].
    2:{ destruct Hw1 as [Hw1|[Hw1 _]].
        - eexists _, _, [_]; split; [reflexivity|]. split; [exact Hw1|].
          repeat split; auto; intros; congruence.
        - eexists _, _, []; split; [reflexivity|]. rewrite app_nil_r.
          split; [exact Hw1|]. repeat split; auto; intros; congruence. }
    destruct Hw1 as [Hw1|[_ Hbad]]; [|congruence].
    match goal with
    | |- context [waitUntilKlusterletConditionIsTrue W ?T ?st] =>
        destruct (waitUntilKlusterletConditionIsTrue_watches W T st)
          as (r2 & s2 & -> & Ho2 & Hw2)
    end.
    rewrite Hw1 in Hw2.
    destruct r2 as [[]|err2].
    2:{ destruct Hw2 as [Hw2|[Hw2 _]].
        - eexists _, _, [_; _]; split; [reflexivity|].
          rewrite Hw2, <- app_assoc. split; [reflexivity|].
          repeat split; auto; intros; congruence.
        - eexists _, _, [_]; split; [reflexivity|]. split; [exact Hw2|].
          repeat split; auto; intros; congruence. }
    destruct Hw2 as [Hw2|[_ Hbad]]; [|congruence].
    eexists _, _, [_; _]. split; [reflexivity|]. simpl.
    rewrite !watches_app, Hw2; simpl. rewrite !app_nil_r, <- app_assoc.
    split; [reflexivity|]. repeat split; auto; intros; congruence.
Qed.
End RunFacts.

(** ** Trust escalation *)

(** C1. Whenever a join invocation's trust escalation succeeds, the credential
    it leaves in [o.HubConfig] has a single cluster entry with TLS
    verification on ([InsecureSkipTLSVerify = false]) and the externally
    supplied hub address as its server; no entry of it skips verification, so
    it is not the insecure bootstrap credential. *)
Theorem C1_escalated_credential_verifies_TLS
  (W : World) (s : State) (cfg : Config) :
  HubConfig (opts s) = None ->
  HubConfig (opts (complete W s).2) = Some cfg ->
  exists d nc,
    view (complete W s).2 cfg = Some d /\
    d_Clusters d = [nc] /\
    InsecureSkipTLSVerify (nc_Cluster nc) = false /\
    Server (nc_Cluster nc) = hubAPIServer (opts s) /\
    Forall (fun c => InsecureSkipTLSVerify (nc_Cluster c) = false)
      (d_Clusters d) /\
    d <> insecure_data (opts s).
Proof.
  intros Hnil Hcfg.
  destruct (complete_credential W s cfg Hnil Hcfg)
    as (cab & client & ca & _ & _ & _ & Hview & _).
  eexists _, _. split; [exact Hview|]. simpl.
  repeat split; auto; discriminate.
Qed.

Lemma C1_witness :
  let W := scenario_world ("", Some not_found) (Ok (Some sample_ca))
             ("https://managed.example:6443", None) in
  let s := init_state (sample_options false "" true false) in
  let cfg := mkConfig 1 1 1 "bootstrap" in
  HubConfig (opts s) = None /\
  HubConfig (opts (complete W s).2) = Some cfg /\
  exists d nc,
    view (complete W s).2 cfg = Some d /\
    d_Clusters d = [nc] /\
    InsecureSkipTLSVerify (nc_Cluster nc) = false /\
    Server (nc_Cluster nc) = hubAPIServer (opts s) /\
    Forall (fun c => InsecureSkipTLSVerify (nc_Cluster c) = false)
      (d_Clusters d) /\
    d <> insecure_data (opts s).
Proof.
  cbv zeta.
  split; [reflexivity|]. split; [reflexivity|].
  apply C1_escalated_credential_verifies_TLS; reflexivity.
Defined.

(** A run of [complete] whose required options are set and whose calls up
    to the client of the insecure bootstrap config succeed hands that config
    and that client to [createClientcmdapiv1Config]. *)
Lemma complete_reaches_escalation
  (W : World) (s : State) (vb : VersionBundle) (cabytes : GoBytes)
  (client : Clientset) :
  token (opts s) <> "" ->
  hubAPIServer (opts s) <> "" ->
  clusterName (opts s) <> "" ->
  registry (opts s) <> "" ->
  GetVersionBundle W (bundleVersion (opts s)) = Ok vb ->
  ca_input W (opts s) = Ok cabytes ->
  CreateClientFromClientcmdapiv1Config W (insecure_data (opts s)) = Ok client ->
  complete W s =
    match
      createClientcmdapiv1Config W client
        (copy_of s (insecure_data (opts s))) (staged s vb cabytes)
    with
    | (Done r, s1) => after_escalation W r s1
    | (Panic msg, s1) => (Panic msg, s1)
    end.
Proof.
  destruct s as [o ca aa xa pc t]. cbn [opts].
  intros Ht Hh Hn Hr Hvb Hca Hcc.
  unfold ca_input in Hca.
  unfold complete. unfold_go. simpl.
  destruct (String.eqb_spec (token o) ""); [contradiction|].
  destruct (String.eqb_spec (hubAPIServer o) ""); [contradiction|].
  destruct (String.eqb_spec (clusterName o) ""); [contradiction|].
  destruct (Nat.eqb (String.length (registry o)) 0) eqn:Er.
  { destruct (registry o); [contradiction|discriminate]. }
  rewrite Hvb. simpl.
  destruct (negb (String.eqb (caFile o) "")) eqn:Ecf; simpl.
  - rewrite Hca. simpl. rewrite !lookup_snoc_last. simpl.
    fold (insecure_data o). rewrite Hcc.
    unfold staged, copy_of. simpl. rewrite Ecf.
    reached.
  - injection Hca as <-.
    rewrite !lookup_snoc_last. simpl.
    fold (insecure_data o). rewrite Hcc.
    unfold staged, copy_of. simpl. rewrite Ecf.
    reached.
Qed.

(** C2. When an explicit CA was supplied ([--ca-file] read into a non-nil
    [HubCADate]), the CA is never fetched from the hub, whatever else the
    run does, and any credential the run leaves carries exactly the supplied
    bytes. Such a credential is left: when the required options are set, the
    version bundle is found, the client of the insecure bootstrap config is
    built and the in-cluster endpoint lookup does not end the escalation,
    [o.HubConfig] holds a credential whose one cluster has TLS verification
    on and the supplied bytes as its CA, whether or not the rest of
    [complete] succeeds. *)
Theorem C2_explicit_CA_is_used_verbatim
  (W : World) (s : State) (ca : list Byte.byte) :
  caFile (opts s) <> "" ->
  ReadFile W (caFile (opts s)) = Ok (Some ca) ->
  HubConfig (opts s) = None ->
  fetches (trace (complete W s).2) = fetches (trace s) /\
  (forall cfg,
    HubConfig (opts (complete W s).2) = Some cfg ->
    exists d nc,
      view (complete W s).2 cfg = Some d /\
      d_Clusters d = [nc] /\
      CertificateAuthorityData (nc_Cluster nc) = Some ca) /\
  (forall vb client,
    token (opts s) <> "" ->
    hubAPIServer (opts s) <> "" ->
    clusterName (opts s) <> "" ->
    registry (opts s) <> "" ->
    GetVersionBundle W (bundleVersion (opts s)) = Ok vb ->
    CreateClientFromClientcmdapiv1Config W (insecure_data (opts s)) =
      Ok client ->
    lookup_abort W client s = None ->
    exists cfg d nc,
      HubConfig (opts (complete W s).2) = Some cfg /\
      view (complete W s).2 cfg = Some d /\
      d_Clusters d = [nc] /\
      InsecureSkipTLSVerify (nc_Cluster nc) = false /\
      CertificateAuthorityData (nc_Cluster nc) = Some ca).
Proof.
  intros Hfile Hread Hnil.
  assert (ca_input W (opts s) = Ok (Some ca)) as Hin.
  { unfold ca_input.
    destruct (String.eqb_spec (caFile (opts s)) ""); [contradiction|].
    exact Hread. }
  assert (forall cfg,
    HubConfig (opts (complete W s).2) = Some cfg ->
    exists d nc,
      view (complete W s).2 cfg = Some d /\
      d_Clusters d = [nc] /\
      InsecureSkipTLSVerify (nc_Cluster nc) = false /\
      CertificateAuthorityData (nc_Cluster nc) = Some ca) as Hleft.
  { intros cfg Hcfg.
    destruct (complete_credential W s cfg Hnil Hcfg)
      as (cab & client & ca' & Hin' & _ & Hca & Hview & _).
    rewrite Hin in Hin'. injection Hin' as <-. subst ca'.
    eexists _, _. split; [exact Hview|]. repeat split; reflexivity. }
  split; [exact (complete_fetches W s ca Hin)|]. split.
  - intros cfg Hcfg.
    destruct (Hleft cfg Hcfg) as (d & nc & Hview & Hone & _ & Hca).
    exists d, nc. auto.
  - intros vb client Ht Hh Hn Hr Hvb Hcc Hab.
    assert (exists cfg, HubConfig (opts (complete W s).2) = Some cfg)
      as [cfg Hcfg].
    { rewrite (complete_reaches_escalation W s vb (Some ca) client)
        by assumption.
      erewrite createClientcmdapiv1Config_run
        by (apply view_staged || reflexivity).
      cbv zeta.
      change (lookup_abort W client (staged s vb (Some ca)))
        with (lookup_abort W client s).
      rewrite Hab.
      change (HubCADate (opts (staged s vb (Some ca)))) with (Some ca).
      cbv iota beta.
      unfold after_escalation.
      destruct (KubernetesClientSet W); eexists; reflexivity. }
    exists cfg. destruct (Hleft cfg Hcfg) as (d & nc & H).
    exists d, nc. split; [exact Hcfg|exact H].
Qed.

Lemma C2_witness :
  let W := scenario_world ("", None) (Ok (Some [Byte.x58]))
             ("https://managed.example:6443", None) in
  let s := init_state (sample_options false "/etc/hub/ca.crt" true false) in
  (caFile (opts s) <> "" /\
   ReadFile W (caFile (opts s)) = Ok (Some sample_ca) /\
   GetCACert W hub_client = Ok (Some [Byte.x58]) /\
   HubConfig (opts s) = None) /\
  fetches (trace (complete W s).2) = [] /\
  exists cfg d nc,
    HubConfig (opts (complete W s).2) = Some cfg /\
    view (complete W s).2 cfg = Some d /\
    d_Clusters d = [nc] /\
    InsecureSkipTLSVerify (nc_Cluster nc) = false /\
    CertificateAuthorityData (nc_Cluster nc) = Some sample_ca.
Proof.
  cbv zeta.
  assert ("/etc/hub/ca.crt" <> "") as Hfile by discriminate.
  refine
    (let H :=
       C2_explicit_CA_is_used_verbatim
         (scenario_world ("", None) (Ok (Some [Byte.x58]))
            ("https://managed.example:6443", None))
         (init_state (sample_options false "/etc/hub/ca.crt" true false))
         sample_ca Hfile eq_refl eq_refl in
     conj (conj Hfile (conj eq_refl (conj eq_refl eq_refl)))
       (conj (proj1 H)
          (proj2 (proj2 H)
             (mkVersionBundle "v0.8.0" "v0.8.0" "v0.8.0" "v0.8.0") hub_client
             _ _ _ _ eq_refl eq_refl eq_refl)));
    discriminate.
Defined.

(** C4. With [forceHubInClusterEndpointLookup] set, a not-found error of the
    in-cluster endpoint lookup does not end the escalation: it goes on to the
    CA step and returns a credential, the only error it can still return
    being the CA fetch's own. Any other error of the lookup is returned as it
    is, no copy of the config is made and no CA is fetched: no credential is
    produced. *)
Theorem C4_lookup_errors
  (W : World) (s : State) (client : Clientset) (cfg : Config)
  (d : ConfigData) (nc : NamedCluster) (rest : list NamedCluster)
  (endpoint : string) (e : error) :
  view s cfg = Some d ->
  d_Clusters d = nc :: rest ->
  forceHubInClusterEndpointLookup (opts s) = true ->
  GetAPIServer W client = (endpoint, Some e) ->
  let out := (createClientcmdapiv1Config W client cfg s).1 in
  let s' := (createClientcmdapiv1Config W client cfg s).2 in
  (IsNotFound e = true ->
   match HubCADate (opts s), GetCACert W client with
   | None, Err e' => out = Done (Err e')
   | _, _ =>
       exists cfg' d', out = Done (Ok cfg') /\ view s' cfg' = Some d'
   end) /\
  (IsNotFound e = false ->
   out = Done (Err e) /\
   clusterArrays s' = clusterArrays s /\
   fetches (trace s') = fetches (trace s)).
Proof.
  intros Hview Hcl Hforce Hget. cbv zeta.
  rewrite (createClientcmdapiv1Config_run W s client cfg d nc rest Hview Hcl).
  destruct s as [o ca aa xa pc t]. simpl in Hforce.
  unfold looked_up, lookup_abort, derived, copy_of, view. simpl.
  rewrite Hforce, Hget. simpl.
  split; intros Hnf; rewrite Hnf; simpl.
  - destruct (HubCADate o) as [b|]; simpl;
      [|destruct (GetCACert W client); simpl; [|reflexivity]];
      (eexists _, _; split; [reflexivity|]; simpl;
       rewrite !lookup_snoc_last; reflexivity).
  - rewrite fetches_app; simpl. now rewrite app_nil_r.
Qed.

Lemma C4_witness :
  let s := init_state (sample_options true "" true false) in
  let s0 := (createExternalBootstrapConfig s).2 in
  let cfg := mkConfig 0 0 0 "bootstrap" in
  let run e :=
    createClientcmdapiv1Config
      (scenario_world ("", Some e) (Ok (Some sample_ca)) ("", None))
      hub_client cfg s0 in
  (exists cfg' d',
      (run not_found).1 = Done (Ok cfg') /\
      view (run not_found).2 cfg' = Some d') /\
  (run forbidden).1 = Done (Err forbidden).
Proof.
  cbv zeta. split.
  - refine
      (proj1
         (C4_lookup_errors
            (scenario_world ("", Some not_found) (Ok (Some sample_ca)) ("", None))
            (createExternalBootstrapConfig
               (init_state (sample_options true "" true false))).2
            hub_client (mkConfig 0 0 0 "bootstrap") _ _ _ "" not_found
            eq_refl eq_refl eq_refl eq_refl) eq_refl).
  - refine
      (proj1
         (proj2
            (C4_lookup_errors
               (scenario_world ("", Some forbidden) (Ok (Some sample_ca)) ("", None))
               (createExternalBootstrapConfig
                  (init_state (sample_options true "" true false))).2
               hub_client (mkConfig 0 0 0 "bootstrap") _ _ _ "" forbidden
               eq_refl eq_refl eq_refl eq_refl) eq_refl)).
Defined.

(** C5. With no explicit CA, once the lookup step has let the escalation
    pass: a CA fetch that returns empty bytes and no error makes the
    escalation succeed, and the credential carries those empty bytes; a CA
    fetch that returns an error ends the escalation with that error. *)
Theorem C5_empty_remote_CA_is_accepted
  (W : World) (s : State) (client : Clientset) (cfg : Config)
  (d : ConfigData) (nc : NamedCluster) (rest : list NamedCluster) :
  view s cfg = Some d ->
  d_Clusters d = nc :: rest ->
  HubCADate (opts s) = None ->
  lookup_abort W client s = None ->
  let out := (createClientcmdapiv1Config W client cfg s).1 in
  let s' := (createClientcmdapiv1Config W client cfg s).2 in
  (forall ca,
      GetCACert W client = Ok ca ->
      bytes_len ca = 0 ->
      exists cfg' d' nc',
        out = Done (Ok cfg') /\
        view s' cfg' = Some d' /\
        d_Clusters d' = nc' :: rest /\
        CertificateAuthorityData (nc_Cluster nc') = ca /\
        bytes_len (CertificateAuthorityData (nc_Cluster nc')) = 0) /\
  (forall e, GetCACert W client = Err e -> out = Done (Err e)).
Proof.
  intros Hview Hcl Hnil Hpass. cbv zeta.
  rewrite (createClientcmdapiv1Config_run W s client cfg d nc rest Hview Hcl).
  cbv zeta. rewrite Hpass, Hnil.
  split.
  - intros ca Hca Hlen. rewrite Hca.
    exists (copy_of s d). simpl.
    unfold derived, copy_of, view; simpl.
    assert (clusterArrays (looked_up W client s) = clusterArrays s /\
            authInfoArrays (looked_up W client s) = authInfoArrays s /\
            contextArrays (looked_up W client s) = contextArrays s)
      as (-> & -> & ->).
    { unfold looked_up.
      destruct (forceHubInClusterEndpointLookup (opts s)); auto. }
    rewrite !lookup_snoc_last, Hcl. simpl.
    eexists _, _. repeat split; auto.
  - intros e He. now rewrite He.
Qed.

Lemma C5_witness :
  let W := scenario_world ("", None) (Ok (Some [])) ("", None) in
  let s := (createExternalBootstrapConfig
              (init_state (sample_options false "" true false))).2 in
  let cfg := mkConfig 0 0 0 "bootstrap" in
  exists cfg' d' nc',
    (createClientcmdapiv1Config W hub_client cfg s).1 = Done (Ok cfg') /\
    view (createClientcmdapiv1Config W hub_client cfg s).2 cfg' = Some d' /\
    d_Clusters d' = [nc'] /\
    CertificateAuthorityData (nc_Cluster nc') = Some [] /\
    bytes_len (CertificateAuthorityData (nc_Cluster nc')) = 0.
Proof.
  cbv zeta.
  refine
    (proj1
       (C5_empty_remote_CA_is_accepted
          (scenario_world ("", None) (Ok (Some [])) ("", None))
          (createExternalBootstrapConfig
             (init_state (sample_options false "" true false))).2
          hub_client (mkConfig 0 0 0 "bootstrap") _ _ _
          eq_refl eq_refl eq_refl eq_refl)
       (Some []) eq_refl eq_refl).
Defined.

(** C9. [createClientcmdapiv1Config] leaves the insecure bootstrap config it
    is given as it was, along with every backing array that existed before
    the call: it writes into a deep copy only. The config it returns is that
    copy, in fresh arrays, and differs from the insecure one in nothing but
    [InsecureSkipTLSVerify], [Server] and [CertificateAuthorityData] of the
    first cluster: the cluster's name and other fields, the further clusters,
    the auth infos (name and bearer token), the contexts and the current
    context are the same. *)
Theorem C9_escalation_edits_only_a_copy
  (W : World) (s : State) (client : Clientset) (cfg : Config)
  (d : ConfigData) (nc : NamedCluster) (rest : list NamedCluster) :
  view s cfg = Some d ->
  d_Clusters d = nc :: rest ->
  let out := (createClientcmdapiv1Config W client cfg s).1 in
  let s' := (createClientcmdapiv1Config W client cfg s).2 in
  view s' cfg = Some d /\
  (forall a arr,
      clusterArrays s !! a = Some arr -> clusterArrays s' !! a = Some arr) /\
  (forall a arr,
      authInfoArrays s !! a = Some arr -> authInfoArrays s' !! a = Some arr) /\
  (forall a arr,
      contextArrays s !! a = Some arr -> contextArrays s' !! a = Some arr) /\
  forall cfg',
    out = Done (Ok cfg') ->
    clusterArrays s !! Clusters cfg' = None /\
    authInfoArrays s !! AuthInfos cfg' = None /\
    contextArrays s !! Contexts cfg' = None /\
    exists ca,
      view s' cfg' =
        Some
          (mkConfigData
             (mkNamedCluster (nc_Name nc)
                (mkCluster (hubAPIServer (opts s))
                   (TLSServerName (nc_Cluster nc))
                   false
                   (CertificateAuthority (nc_Cluster nc))
                   ca
                   (ProxyURL (nc_Cluster nc)))
              :: rest)
             (d_AuthInfos d) (d_Contexts d) (d_CurrentContext d)).
Proof.
  intros Hview Hcl. cbv zeta.
  rewrite (createClientcmdapiv1Config_run W s client cfg d nc rest Hview Hcl).
  cbv zeta.
  assert (clusterArrays (looked_up W client s) = clusterArrays s /\
          authInfoArrays (looked_up W client s) = authInfoArrays s /\
          contextArrays (looked_up W client s) = contextArrays s)
    as (Hc & Ha & Hx).
  { unfold looked_up. destruct (forceHubInClusterEndpointLookup (opts s)); auto. }
  assert (forall nc' t, view (derived (looked_up W client s) d nc' t) cfg = Some d)
    as Hkept.
  { intros nc' t. revert Hview. unfold view, derived; simpl.
    rewrite Hc, Ha, Hx.
    destruct (clusterArrays s !! Clusters cfg) eqn:E1; [|discriminate].
    destruct (authInfoArrays s !! AuthInfos cfg) eqn:E2; [|discriminate].
    destruct (contextArrays s !! Contexts cfg) eqn:E3; [|discriminate].
    intros H.
    erewrite !lookup_snoc_old by eassumption. exact H. }
  assert (view (looked_up W client s) cfg = Some d) as Hkept0.
  { unfold view. rewrite Hc, Ha, Hx. exact Hview. }
  assert (forall cfg',
    Ok (copy_of s d) = Ok cfg' ->
    clusterArrays s !! Clusters cfg' = None /\
    authInfoArrays s !! AuthInfos cfg' = None /\
    contextArrays s !! Contexts cfg' = None) as Hfresh.
  { intros cfg' [= <-]. unfold copy_of; simpl.
    repeat split; apply lookup_ge_None_2; lia. }
  destruct (lookup_abort W client s) as [e|]; simpl.
  { rewrite Hc, Ha, Hx. do 4 (split; [auto|]). intros cfg' [=]. }
  destruct (HubCADate (opts s)) as [b|];
    [|destruct (GetCACert W client) as [b|e]]; simpl;
    rewrite ?Hc, ?Ha, ?Hx;
    (split; [apply Hkept|]);
    (split; [intros a arr; apply lookup_snoc_old|]);
    (split; [intros a arr; apply lookup_snoc_old|]);
    (split; [intros a arr; apply lookup_snoc_old|]);
    intros cfg' [= Heq];
    destruct (Hfresh cfg' (f_equal Ok Heq)) as (F1 & F2 & F3);
    (split; [exact F1|]); (split; [exact F2|]); (split; [exact F3|]);
    subst cfg'; eexists; unfold view, derived, copy_of, secured; simpl;
    rewrite Hc, Ha, Hx, !lookup_snoc_last, Hcl; reflexivity.
Qed.

Lemma C9_witness :
  let W := scenario_world ("https://10.0.0.1:6443", None)
             (Ok (Some sample_ca)) ("", None) in
  let o := sample_options true "" true false in
  let s := (createExternalBootstrapConfig (init_state o)).2 in
  let cfg := mkConfig 0 0 0 "bootstrap" in
  view (createClientcmdapiv1Config W hub_client cfg s).2 cfg =
    Some (insecure_data o).
Proof.
  cbv zeta.
  refine
    (proj1
       (C9_escalation_edits_only_a_copy
          (scenario_world ("https://10.0.0.1:6443", None)
             (Ok (Some sample_ca)) ("", None))
          (createExternalBootstrapConfig
             (init_state (sample_options true "" true false))).2
          hub_client (mkConfig 0 0 0 "bootstrap") _ _ _ eq_refl eq_refl)).
Defined.

(** C10. In [complete], looking up the registering cluster's own API-server
    endpoint cannot fail the command: in every invocation whose escalation
    has produced the credential and that could build the local client set,
    [complete] returns nil whatever the lookup answers, and
    [Klusterlet.APIServer] is the empty string whenever the lookup returns an
    error or an address that does not start with http:// or https:// (for a
    [ValidAPIHost] that accepts only addresses starting so). *)
Theorem C10_own_endpoint_lookup_is_never_fatal
  (W : World) (s : State) (cfg : Config) (kubeClient : Clientset) :
  HubConfig (opts s) = None ->
  HubConfig (opts (complete W s).2) = Some cfg ->
  KubernetesClientSet W = Ok kubeClient ->
  (forall h,
      ValidAPIHost W h = true ->
      String.prefix "http://" h = true \/ String.prefix "https://" h = true) ->
  (complete W s).1 = Done (Ok tt) /\
  ((exists e, (GetAPIServer W kubeClient).2 = Some e) \/
   (String.prefix "http://" (GetAPIServer W kubeClient).1 = false /\
    String.prefix "https://" (GetAPIServer W kubeClient).1 = false) ->
   kl_APIServer (v_Klusterlet (values (opts (complete W s).2))) = "").
Proof.
  intros Hnil Hcfg Hkc Hvalid.
  destruct (complete_credential W s cfg Hnil Hcfg)
    as (cab & client & ca & _ & _ & _ & _ & Hout & Haddr).
  rewrite Hkc in Hout. split; [exact Hout|].
  rewrite (Haddr kubeClient Hkc). unfold klusterlet_address.
  destruct (GetAPIServer W kubeClient) as [a [e|]]; simpl; [reflexivity|].
  intros [[e [=]]|[H1 H2]].
  destruct (ValidAPIHost W a) eqn:Ev; simpl; [|reflexivity].
  destruct (Hvalid a Ev); congruence.
Qed.

Lemma sample_world_ValidAPIHost lookup ca own operator agent h :
  ValidAPIHost (sample_world lookup ca own operator agent) h = true ->
  String.prefix "http://" h = true \/ String.prefix "https://" h = true.
Proof.
  intros H.
  change (String.prefix "http://" h || String.prefix "https://" h = true) in H.
  apply orb_prop in H. exact H.
Qed.

Lemma C10_witness :
  let W := scenario_world ("", None) (Ok (Some sample_ca))
             ("managed.example:6443", None) in
  let s := init_state (sample_options false "" true false) in
  (complete W s).1 = Done (Ok tt) /\
  kl_APIServer (v_Klusterlet (values (opts (complete W s).2))) = "".
Proof.
  cbv zeta.
  refine
    (let H :=
       C10_own_endpoint_lookup_is_never_fatal
         (scenario_world ("", None) (Ok (Some sample_ca))
            ("managed.example:6443", None))
         (init_state (sample_options false "" true false))
         (mkConfig 1 1 1 "bootstrap") local_client
         eq_refl eq_refl eq_refl
         (sample_world_ValidAPIHost _ _ _ _ _) in
     conj (proj1 H) (proj2 H (or_intror (conj eq_refl eq_refl)))).
Defined.

(** ** The in-cluster endpoint override *)

(** A lookup that fails with not-found still stores what it returned. *)
Lemma lookup_not_found_is_stored
  (W : World) (s : State) (client : Clientset) (cfg : Config)
  (d : ConfigData) (nc : NamedCluster) (rest : list NamedCluster)
  (endpoint : string) (e : error) :
  view s cfg = Some d ->
  d_Clusters d = nc :: rest ->
  forceHubInClusterEndpointLookup (opts s) = true ->
  GetAPIServer W client = (endpoint, Some e) ->
  hubInClusterEndpoint (opts (createClientcmdapiv1Config W client cfg s).2) =
    endpoint.
Proof.
  intros Hview Hcl Hforce Hget.
  rewrite (createClientcmdapiv1Config_run W s client cfg d nc rest Hview Hcl).
  cbv zeta. unfold looked_up, lookup_abort. rewrite Hforce, Hget. simpl.
  destruct (IsNotFound e); simpl; [|reflexivity].
  destruct (HubCADate (opts s)); [|destruct (GetCACert W client)];
    reflexivity.
Qed.

(** Under the flag, [setKubeconfig] writes [o.hubInClusterEndpoint] over the
    credential's server, whatever that string is, and changes nothing else
    of the credential. *)
Lemma setKubeconfig_overwrites_server
  (W : World) (s : State) (cfg : Config)
  (d : ConfigData) (nc : NamedCluster) (rest : list NamedCluster) :
  HubConfig (opts s) = Some cfg ->
  view s cfg = Some d ->
  d_Clusters d = nc :: rest ->
  forceHubInClusterEndpointLookup (opts s) = true ->
  view (setKubeconfig W s).2 cfg =
    Some
      (mkConfigData (with_Server (hubInClusterEndpoint (opts s)) nc :: rest)
         (d_AuthInfos d) (d_Contexts d) (d_CurrentContext d)).
Proof.
  intros Hcfg Hview Hcl Hforce.
  destruct s as [o ca aa xa pc t]. destruct d as [dc da dx dcur].
  unfold view in Hview. simpl in *. subst dc.
  destruct (ca !! Clusters cfg) as [cl|] eqn:E1; [|discriminate].
  destruct (aa !! AuthInfos cfg) as [au|] eqn:E2; [|discriminate].
  destruct (xa !! Contexts cfg) as [cx|] eqn:E3; [|discriminate].
  injection Hview as -> -> -> <-.
  unfold setKubeconfig. unfold_go. simpl.
  rewrite Hforce, Hcfg. simpl. rewrite E1. simpl. rewrite Hcfg. simpl.
  rewrite list_lookup_insert_eq by (eapply lookup_lt_Some; eauto).
  rewrite E2, E3. simpl.
  destruct (yaml_Marshal W _); simpl;
    rewrite list_lookup_insert_eq by (eapply lookup_lt_Some; eauto);
    rewrite E2, E3; reflexivity.
Qed.

(** C3, at the failing input. The flag is set, the hub address is
    [https://hub.example:6443], and the hub answers the in-cluster endpoint
    lookup with a not-found error. [complete] and then [validate] both return
    nil, and the credential [validate] persists in [Hub.KubeConfig] has the
    empty string as its server, not the hub address. *)
Theorem C3_not_found_lookup_persists_unset_server :
  let W := scenario_world ("", Some not_found) (Ok (Some sample_ca))
             ("https://managed.example:6443", None) in
  let s0 := init_state (sample_options true "" true false) in
  let s1 := (complete W s0).2 in
  let s2 := (validate W s1).2 in
  hubAPIServer (opts s0) = "https://hub.example:6443" /\
  (complete W s0).1 = Done (Ok tt) /\
  (validate W s1).1 = Done (Ok tt) /\
  exists cfg d nc,
    HubConfig (opts s2) = Some cfg /\
    view s2 cfg = Some d /\
    d_Clusters d = [nc] /\
    Server (nc_Cluster nc) = "" /\
    InsecureSkipTLSVerify (nc_Cluster nc) = false /\
    hub_KubeConfig (v_Hub (values (opts s2))) = render (Some d) /\
    hub_KubeConfig (v_Hub (values (opts s2))) = "hub@".
Proof.
  vm_compute.
  split; [reflexivity|]. split; [reflexivity|]. split; [reflexivity|].
  eexists _, _, _.
  split; [reflexivity|]. split; [reflexivity|]. split; [reflexivity|].
  repeat split; reflexivity.
Qed.

(** The other half of the override, on the same hub when the lookup
    succeeds: the persisted server is the resolved in-cluster address, while
    the credential [complete] left still had the hub address. *)
Lemma resolved_lookup_persists_internal_server :
  let W := scenario_world ("https://10.0.0.1:6443", None)
             (Ok (Some sample_ca)) ("https://managed.example:6443", None) in
  let s0 := init_state (sample_options true "" true false) in
  let s1 := (complete W s0).2 in
  let s2 := (validate W s1).2 in
  (complete W s0).1 = Done (Ok tt) /\
  (validate W s1).1 = Done (Ok tt) /\
  exists cfg d1 nc1 d2 nc2,
    HubConfig (opts s1) = Some cfg /\
    HubConfig (opts s2) = Some cfg /\
    view s1 cfg = Some d1 /\ d_Clusters d1 = [nc1] /\
    Server (nc_Cluster nc1) = "https://hub.example:6443" /\
    view s2 cfg = Some d2 /\ d_Clusters d2 = [nc2] /\
    Server (nc_Cluster nc2) = "https://10.0.0.1:6443" /\
    hub_KubeConfig (v_Hub (values (opts s2))) = "hub@https://10.0.0.1:6443".
Proof.
  vm_compute.
  split; [reflexivity|]. split; [reflexivity|].
  eexists _, _, _, _, _.
  split; [reflexivity|]. split; [reflexivity|]. split; [reflexivity|].
  split; [reflexivity|]. split; [reflexivity|]. split; [reflexivity|].
  repeat split; reflexivity.
Qed.

(** ** Rollout *)

(** C6. Both readiness waits are given the full configured timeout: every
    watch [run] opens carries [TimeoutSeconds = int64(Timeout)], with nothing
    deducted for the time the first wait took, so the seconds the watches of
    one run may stay open add up to the timeout times their number, at most
    two; a run that passes both waits has asked for exactly twice the
    timeout. *)
Theorem C6_each_wait_gets_the_full_timeout (W : World) (s : State) :
  let T := int64 (Timeout (Flags (opts s))) in
  exists ws,
    watches (trace (run W s).2) = watches (trace s) ++ ws /\
    Forall (fun w => TimeoutSeconds w.2 = Some T) ws /\
    length ws <= 2 /\
    wait_budget ws = (Z.of_nat (length ws) * T)%Z /\
    ((run W s).1 = Done (Ok tt) ->
     wait (opts s) && negb (DryRun (Flags (opts s))) = true ->
     ws = [operatorWatch T; agentWatch T] /\ wait_budget ws = (2 * T)%Z).
Proof.
  cbv zeta.
  destruct (run_watches W s) as (r & s' & ws & Hrun & Hw & Hshape & _ & Hok).
  rewrite Hrun. simpl. exists ws. split; [exact Hw|].
  assert (Forall
            (fun w => TimeoutSeconds w.2 = Some (int64 (Timeout (Flags (opts s)))))
            ws /\
          length ws <= 2 /\
          wait_budget ws =
            (Z.of_nat (length ws) * int64 (Timeout (Flags (opts s))))%Z)
    as (H1 & H2 & H3).
  { destruct Hshape as [-> | [-> | ->]]; simpl;
      repeat split; repeat constructor; lia. }
  split; [exact H1|]. split; [exact H2|]. split; [exact H3|].
  intros [= ->] Hgate. rewrite (Hok eq_refl Hgate).
  split; [reflexivity|]. simpl. lia.
Qed.

Lemma C6_witness :
  let W := scenario_world ("", None) (Ok (Some sample_ca)) ("", None) in
  let s := init_state (sample_options false "" true false) in
  exists ws,
    watches (trace (run W s).2) = ws /\
    ws = [operatorWatch 300%Z; agentWatch 300%Z] /\
    wait_budget ws = 600%Z.
Proof.
  cbv zeta.
  destruct
    (C6_each_wait_gets_the_full_timeout
       (scenario_world ("", None) (Ok (Some sample_ca)) ("", None))
       (init_state (sample_options false "" true false)))
    as (ws & Hw & _ & _ & _ & Hok).
  exists ws. split; [exact Hw|].
  exact (Hok eq_refl eq_refl).
Defined.

(** C7. With [wait] off or dry-run on, [run] opens no watch at all. With
    [wait] on and dry-run off, the watches it opens are the operator's
    first and the agent's second and no other: never the agent's without
    the operator's before it, never more than these two, and exactly these
    two in every run that returns nil. *)
Theorem C7_waits_are_gated_and_ordered (W : World) (s : State) :
  let o := opts s in
  let T := int64 (Timeout (Flags o)) in
  exists ws,
    watches (trace (run W s).2) = watches (trace s) ++ ws /\
    (wait o = false \/ DryRun (Flags o) = true -> ws = []) /\
    (wait o = true -> DryRun (Flags o) = false ->
     (ws = [] \/ ws = [operatorWatch T] \/
      ws = [operatorWatch T; agentWatch T]) /\
     ((run W s).1 = Done (Ok tt) -> ws = [operatorWatch T; agentWatch T])).
Proof.
  cbv zeta.
  destruct (run_watches W s) as (r & s' & ws & Hrun & Hw & Hshape & Hoff & Hok).
  rewrite Hrun. simpl. exists ws. split; [exact Hw|]. split.
  - intros [Hwait|Hdry]; apply Hoff.
    + now rewrite Hwait.
    + rewrite Hdry. apply andb_false_r.
  - intros Hwait Hdry. split; [exact Hshape|].
    intros [= ->]. apply Hok; [reflexivity|]. now rewrite Hwait, Hdry.
Qed.

Lemma C7_witness :
  let W := scenario_world ("", None) (Ok (Some sample_ca)) ("", None) in
  let on := init_state (sample_options false "" true false) in
  let off := init_state (sample_options false "" false false) in
  let dry := init_state (sample_options false "" true true) in
  watches (trace (run W on).2) = [operatorWatch 300%Z; agentWatch 300%Z] /\
  watches (trace (run W off).2) = [] /\
  watches (trace (run W dry).2) = [].
Proof.
  cbv zeta.
  destruct
    (C7_waits_are_gated_and_ordered
       (scenario_world ("", None) (Ok (Some sample_ca)) ("", None))
       (init_state (sample_options false "" true false)))
    as (ws1 & Hw1 & _ & Hon).
  destruct
    (C7_waits_are_gated_and_ordered
       (scenario_world ("", None) (Ok (Some sample_ca)) ("", None))
       (init_state (sample_options false "" false false)))
    as (ws2 & Hw2 & Hoff & _).
  destruct
    (C7_waits_are_gated_and_ordered
       (scenario_world ("", None) (Ok (Some sample_ca)) ("", None))
       (init_state (sample_options false "" true true)))
    as (ws3 & Hw3 & Hdry & _).
  split; [|split].
  - rewrite Hw1. exact (proj2 (Hon eq_refl eq_refl) eq_refl).
  - rewrite Hw2. exact (Hoff (or_introl eq_refl)).
  - rewrite Hw3. exact (Hdry (or_intror eq_refl)).
Defined.

(** C8. On a watch event whose object is not a pod, both readiness predicates
    return false, without panicking and without any change of state, the
    displayed phase included; the event loop then goes on with the events
    that follow. *)
Theorem C8_events_without_a_pod_are_skipped
  (W : World) (phase : addr) (event : Event) (s : State) :
  not_a_pod event ->
  registrationOperatorPredicate W phase event s = (Done false, s) /\
  klusterletPredicate W phase event s = (Done false, s) /\
  forall rest e,
    consume (registrationOperatorPredicate W phase) (event :: rest) e s =
      consume (registrationOperatorPredicate W phase) rest e s /\
    consume (klusterletPredicate W phase) (event :: rest) e s =
      consume (klusterletPredicate W phase) rest e s.
Proof.
  intros Hnot.
  assert (registrationOperatorPredicate W phase event s = (Done false, s) /\
          klusterletPredicate W phase event s = (Done false, s)) as [H1 H2].
  { unfold registrationOperatorPredicate, klusterletPredicate, not_a_pod in *.
    destruct (ev_Object event); [contradiction| |]; split; reflexivity. }
  split; [exact H1|]. split; [exact H2|].
  intros rest e. simpl. unfold bind. rewrite H1, H2. split; reflexivity.
Qed.

Lemma C8_witness :
  let W := scenario_world ("", None) (Ok (Some sample_ca)) ("", None) in
  let s := set_phaseCells ["Pending"] (init_state (sample_options false "" true false)) in
  let bookmark := mkEvent Bookmark (ObjOther "Bookmark") in
  not_a_pod bookmark /\
  registrationOperatorPredicate W 0 bookmark s = (Done false, s) /\
  klusterletPredicate W 0 bookmark s = (Done false, s) /\
  phaseCells
    (consume (klusterletPredicate W 0)
       [bookmark; mkEvent Modified (ObjPod ready_pod)] Closed s).2 =
    ["Running"].
Proof.
  cbv zeta.
  pose proof
    (C8_events_without_a_pod_are_skipped
       (scenario_world ("", None) (Ok (Some sample_ca)) ("", None)) 0
       (mkEvent Bookmark (ObjOther "Bookmark"))
       (set_phaseCells ["Pending"]
          (init_state (sample_options false "" true false))) I)
    as (H1 & H2 & H3).
  split; [exact I|]. split; [exact H1|]. split; [exact H2|].
  rewrite (proj2 (H3 [mkEvent Modified (ObjPod ready_pod)] Closed)).
  reflexivity.
Defined.

(** ** Further properties of [complete] *)

(** X1. [complete] checks its required options before anything else: with an
    empty token, hub address, cluster name or registry it returns the error
    naming the first one missing, makes no call and changes nothing. *)
Theorem complete_rejects_missing_input (W : World) (s : State) :
  let o := opts s in
  token o = "" \/ hubAPIServer o = "" \/ clusterName o = "" \/ registry o = "" ->
  (exists msg, complete W s = (Done (Err (Errorf msg)), s)) /\
  (token o = "" -> complete W s = (Done (Err (Errorf "token is missing")), s)) /\
  (token o <> "" -> hubAPIServer o = "" ->
   complete W s = (Done (Err (Errorf "hub-server is missing")), s)) /\
  (token o <> "" -> hubAPIServer o <> "" -> clusterName o = "" ->
   complete W s = (Done (Err (Errorf "name is missing")), s)) /\
  (token o <> "" -> hubAPIServer o <> "" -> clusterName o <> "" ->
   registry o = "" ->
   complete W s =
     (Done
        (Err
           (Errorf
              "the OCM image registry should not be empty, like quay.io/open-cluster-management")),
      s)).
Proof.
  cbv zeta. destruct s as [o ca aa xa pc t]. simpl.
  unfold complete. unfold bind, get_opts. cbv beta iota. cbn [opts].
  intros Hmiss.
  destruct (String.eqb_spec (token o) "") as [Ht|Ht].
  { split; [eexists; reflexivity|]. repeat split; intros; congruence. }
  destruct (String.eqb_spec (hubAPIServer o) "") as [Hh|Hh].
  { split; [eexists; reflexivity|]. repeat split; intros; congruence. }
  destruct (String.eqb_spec (clusterName o) "") as [Hn|Hn].
  { split; [eexists; reflexivity|]. repeat split; intros; congruence. }
  destruct Hmiss as [H|[H|[H|H]]]; try congruence.
  rewrite H. cbn [String.length Nat.eqb].
  split; [eexists; reflexivity|]. repeat split; intros; congruence.
Qed.

Lemma complete_rejects_missing_input_witness :
  let W := scenario_world ("", None) (Ok (Some sample_ca)) ("", None) in
  let s :=
    init_state
      (mkOptions (mkFlags false 300%Z) "tok-123" "" "cluster1"
         "quay.io/open-cluster-management" "default" "" "" true false "" None
         None
         (mkValues "" (mkHub "" "") (mkKlusterlet "") ""
            (mkBundleVersion "" "" "" ""))) in
  complete W s = (Done (Err (Errorf "hub-server is missing")), s).
Proof.
  cbv zeta.
  refine
    (proj1
       (proj2
          (proj2
             (complete_rejects_missing_input
                (scenario_world ("", None) (Ok (Some sample_ca)) ("", None))
                (init_state
                   (mkOptions (mkFlags false 300%Z) "tok-123" "" "cluster1"
                      "quay.io/open-cluster-management" "default" "" "" true
                      false "" None None
                      (mkValues "" (mkHub "" "") (mkKlusterlet "") ""
                         (mkBundleVersion "" "" "" ""))))
                (or_intror (or_introl eq_refl)))))
       _ eq_refl).
  discriminate.
Defined.

(** A run of [complete] that returns nil, in closed form. *)
Lemma complete_success (W : World) (s : State) :
  (complete W s).1 = Done (Ok tt) ->
  exists vb cabytes ca client kubeClient,
    GetVersionBundle W (bundleVersion (opts s)) = Ok vb /\
    ca_input W (opts s) = Ok cabytes /\
    CreateClientFromClientcmdapiv1Config W (insecure_data (opts s)) =
      Ok client /\
    lookup_abort W client s = None /\
    match cabytes with
    | Some b => ca = Some b
    | None => GetCACert W client = Ok ca
    end /\
    KubernetesClientSet W = Ok kubeClient /\
    (complete W s).2 = completed W s vb cabytes ca client kubeClient.
Proof.
  destruct (complete_cases W s)
    as [(e & s' & -> & _ & _) | (vb & cab & client & Hvb & Hca & Hcc & ->)].
  { simpl. intros [=]. }
  erewrite createClientcmdapiv1Config_run
    by (apply view_staged || reflexivity).
  cbv zeta.
  change (lookup_abort W client (staged s vb cab))
    with (lookup_abort W client s).
  change (HubCADate (opts (staged s vb cab))) with cab.
  destruct (lookup_abort W client s) as [e|] eqn:Eab; [intros [=]|].
  assert (forall ca kubeClient,
    KubernetesClientSet W = Ok kubeClient ->
    (after_escalation W (Ok (copy_of (staged s vb cab) (insecure_data (opts s))))
       (derived (looked_up W client (staged s vb cab)) (insecure_data (opts s))
          (secured (hubAPIServer (opts (staged s vb cab))) ca
             (mkNamedCluster "hub"
                (mkCluster (hubAPIServer (opts s)) "" true "" None "")))
          (match cab with None => [EGetCACert client] | Some _ => [] end))).2 =
    completed W s vb cab ca client kubeClient) as Hstate.
  { intros ca kc Hkc. destruct s as [o cl aa xa pc t].
    unfold after_escalation, completed, looked_up, derived, copy_of, secured,
      staged.
    simpl. rewrite Hkc.
    unfold set_values, set_HubConfig, set_hubInClusterEndpoint, set_HubCADate,
      with_Klusterlet_APIServer.
    simpl.
    destruct (forceHubInClusterEndpointLookup o); simpl;
      destruct (negb (String.eqb (caFile o) "")); simpl;
      destruct cab; simpl;
      rewrite ?length_app; simpl;
      rewrite <- ?app_assoc; simpl; reflexivity. }
  destruct cab as [b|];
    [|destruct (GetCACert W client) as [ca0|e] eqn:Eca; [|intros [=]]];
    (destruct (KubernetesClientSet W) as [kc|e] eqn:Ekc;
     [|unfold after_escalation; rewrite Ekc; intros [=]]);
    intros _.
  - exists vb, (Some b), (Some b), client, kc.
    do 6 (split; [assumption || reflexivity|]).
    exact (Hstate (Some b) kc eq_refl).
  - exists vb, None, ca0, client, kc.
    do 6 (split; [assumption || reflexivity|]).
    exact (Hstate ca0 kc eq_refl).
Qed.

(** X2. A run of [complete] that returns nil has replaced the template values
    by the options' cluster name, hub address and registry, the image
    versions of the version bundle and an empty kubeconfig; the registering
    cluster's own endpoint is kept when its lookup succeeds with an address
    [ValidAPIHost] accepts. *)
Theorem complete_fills_the_template_values (W : World) (s : State) :
  (complete W s).1 = Done (Ok tt) ->
  let o := opts s in
  let v := values (opts (complete W s).2) in
  exists vb kubeClient,
    GetVersionBundle W (bundleVersion o) = Ok vb /\
    KubernetesClientSet W = Ok kubeClient /\
    v_ClusterName v = clusterName o /\
    hub_APIServer (v_Hub v) = hubAPIServer o /\
    hub_KubeConfig (v_Hub v) = "" /\
    v_Registry v = registry o /\
    v_BundleVersion v =
      mkBundleVersion (vb_Registration vb) (vb_Placement vb) (vb_Work vb)
        (vb_Operator vb) /\
    forall a,
      GetAPIServer W kubeClient = (a, None) ->
      ValidAPIHost W a = true ->
      kl_APIServer (v_Klusterlet v) = a.
Proof.
  intros Hok. cbv zeta.
  destruct (complete_success W s Hok)
    as (vb & cab & ca & client & kc & Hvb & _ & _ & _ & _ & Hkc & ->).
  exists vb, kc. simpl.
  do 7 (split; [assumption || reflexivity|]).
  intros a Ha Hv. unfold klusterlet_address. rewrite Ha, Hv. reflexivity.
Qed.

Lemma complete_fills_the_template_values_witness :
  let W := scenario_world ("", None) (Ok (Some sample_ca))
             ("https://managed.example:6443", None) in
  let s := init_state (sample_options false "" true false) in
  exists vb kubeClient,
    GetVersionBundle W (bundleVersion (opts s)) = Ok vb /\
    KubernetesClientSet W = Ok kubeClient /\
    v_ClusterName (values (opts (complete W s).2)) = "cluster1" /\
    kl_APIServer (v_Klusterlet (values (opts (complete W s).2))) =
      "https://managed.example:6443".
Proof.
  cbv zeta.
  destruct
    (complete_fills_the_template_values
       (scenario_world ("", None) (Ok (Some sample_ca))
          ("https://managed.example:6443", None))
       (init_state (sample_options false "" true false)) eq_refl)
    as (vb & kc & Hvb & Hkc & Hname & _ & _ & _ & _ & Hown).
  exists vb, kc.
  split; [exact Hvb|]. split; [exact Hkc|]. split; [exact Hname|].
  injection Hkc as <-.
  exact (Hown _ eq_refl eq_refl).
Defined.

(** X3. The credential a successful [complete] leaves in [o.HubConfig] is a
    kubeconfig that resolves: its current context names its one context,
    which names its one cluster and its one user, and that user
    authenticates with the join token. *)
Theorem complete_credential_resolves_with_the_token (W : World) (s : State) :
  (complete W s).1 = Done (Ok tt) ->
  exists cfg d,
    HubConfig (opts (complete W s).2) = Some cfg /\
    view (complete W s).2 cfg = Some d /\
    d_AuthInfos d =
      [mkNamedAuthInfo "bootstrap" (mkAuthInfo (token (opts s)))] /\
    d_CurrentContext d = "bootstrap" /\
    resolves d.
Proof.
  intros Hok.
  destruct (complete_success W s Hok)
    as (vb & cab & ca & client & kc & _ & _ & _ & _ & _ & _ & ->).
  eexists _, _. simpl. split; [reflexivity|].
  unfold view, completed; simpl.
  replace (length (clusterArrays s) + 1)
    with (length (clusterArrays s ++ [d_Clusters (insecure_data (opts s))]))
    by (rewrite length_app; reflexivity).
  replace (length (authInfoArrays s) + 1)
    with (length (authInfoArrays s ++ [d_AuthInfos (insecure_data (opts s))]))
    by (rewrite length_app; reflexivity).
  replace (length (contextArrays s) + 1)
    with (length (contextArrays s ++ [d_Contexts (insecure_data (opts s))]))
    by (rewrite length_app; reflexivity).
  rewrite !lookup_snoc_last.
  split; [reflexivity|]. simpl. split; [reflexivity|]. split; [reflexivity|].
  unfold resolves; simpl.
  eexists. split; [left; reflexivity|]. split; [reflexivity|]. simpl.
  split; eexists; (split; [left; reflexivity|reflexivity]).
Qed.

Lemma complete_credential_resolves_with_the_token_witness :
  let W := scenario_world ("", None) (Ok (Some sample_ca))
             ("https://managed.example:6443", None) in
  let s := init_state (sample_options false "" true false) in
  exists cfg d,
    HubConfig (opts (complete W s).2) = Some cfg /\
    view (complete W s).2 cfg = Some d /\
    d_AuthInfos d = [mkNamedAuthInfo "bootstrap" (mkAuthInfo "tok-123")] /\
    d_CurrentContext d = "bootstrap" /\
    resolves d.
Proof.
  cbv zeta.
  exact
    (complete_credential_resolves_with_the_token
       (scenario_world ("", None) (Ok (Some sample_ca))
          ("https://managed.example:6443", None))
       (init_state (sample_options false "" true false)) eq_refl).
Defined.

(** X4. The calls a successful [complete] makes, in order: the version
    bundle; the CA file, only when one is named; the client from the insecure
    bootstrap config; the in-cluster endpoint lookup, only under the flag,
    and the CA fetch, only when no CA bytes are held, both over that client;
    the managed cluster's client set and its own endpoint lookup. *)
Theorem complete_call_order (W : World) (s : State) :
  (complete W s).1 = Done (Ok tt) ->
  let o := opts s in
  exists cabytes client kubeClient,
    ca_input W o = Ok cabytes /\
    CreateClientFromClientcmdapiv1Config W (insecure_data o) = Ok client /\
    KubernetesClientSet W = Ok kubeClient /\
    trace (complete W s).2 =
      trace s ++
      [EGetVersionBundle (bundleVersion o)] ++
      (if negb (String.eqb (caFile o) "") then [EReadFile (caFile o)] else []) ++
      [ECreateClient (insecure_data o)] ++
      (if forceHubInClusterEndpointLookup o then [EGetAPIServer client]
       else []) ++
      (match cabytes with None => [EGetCACert client] | Some _ => [] end) ++
      [EKubernetesClientSet; EGetAPIServer kubeClient].
Proof.
  intros Hok. cbv zeta.
  destruct (complete_success W s Hok)
    as (vb & cab & ca & client & kc & _ & Hca & Hcc & _ & _ & Hkc & ->).
  exists cab, client, kc. repeat split; assumption || reflexivity.
Qed.

Lemma complete_call_order_witness :
  let W := scenario_world ("", Some not_found) (Ok (Some sample_ca))
             ("https://managed.example:6443", None) in
  let s := init_state (sample_options true "" true false) in
  let o := opts s in
  trace (complete W s).2 =
    [ EGetVersionBundle "default"; ECreateClient (insecure_data o);
      EGetAPIServer hub_client; EGetCACert hub_client;
      EKubernetesClientSet; EGetAPIServer local_client ].
Proof.
  cbv zeta.
  destruct
    (complete_call_order
       (scenario_world ("", Some not_found) (Ok (Some sample_ca))
          ("https://managed.example:6443", None))
       (init_state (sample_options true "" true false)) eq_refl)
    as (cab & client & kc & Hca & Hcc & Hkc & Ht).
  injection Hca as <-. injection Hcc as <-. injection Hkc as <-.
  exact Ht.
Defined.

(** X5. [complete] never panics: the first cluster it writes to always
    exists, because the bootstrap config it copies has exactly one. *)
Theorem complete_never_panics (W : World) (s : State) :
  exists r, (complete W s).1 = Done r.
Proof.
  destruct (complete_cases W s)
    as [(e & s' & -> & _ & _) | (vb & cab & client & _ & _ & _ & ->)].
  { eexists; reflexivity. }
  erewrite createClientcmdapiv1Config_run
    by (apply view_staged || reflexivity).
  cbv zeta.
  destruct (lookup_abort W client (staged s vb cab)); [eexists; reflexivity|].
  destruct (HubCADate (opts (staged s vb cab)));
    [|destruct (GetCACert W client); [|eexists; reflexivity]];
    unfold after_escalation;
    destruct (KubernetesClientSet W); eexists; reflexivity.
Qed.

(** ** Further properties of [validate] and [setKubeconfig] *)

(** [validate] in closed form, on options holding a credential with a first
    cluster. *)
Lemma validate_run (W : World) (s : State) (cfg : Config)
  (d : ConfigData) (nc : NamedCluster) (rest : list NamedCluster) :
  HubConfig (opts s) = Some cfg ->
  view s cfg = Some d ->
  d_Clusters d = nc :: rest ->
  validate W s =
    let o := opts s in
    let t := trace s ++ [ERunChecks (Some d)] in
    let arrays :=
      if forceHubInClusterEndpointLookup o then
        <[Clusters cfg := with_Server (hubInClusterEndpoint o) nc :: rest]>
          (clusterArrays s)
      else clusterArrays s in
    match RunChecks W (Some d) with
    | Err e =>
        (Done (Err e),
         mkState o (clusterArrays s) (authInfoArrays s) (contextArrays s)
           (phaseCells s) t)
    | Ok _ =>
        match yaml_Marshal W (Some (persisted o d)) with
        | Ok bytes =>
            (Done (Ok tt),
             mkState (set_values (with_Hub_KubeConfig bytes (values o)) o)
               arrays (authInfoArrays s) (contextArrays s) (phaseCells s) t)
        | Err e =>
            (Done (Err e),
             mkState o arrays (authInfoArrays s) (contextArrays s)
               (phaseCells s) t)
        end
    end.
Proof.
  intros Hcfg Hview Hcl.
  destruct s as [o ca aa xa pc t]. destruct d as [dc da dx dcur].
  unfold view in Hview. simpl in *. subst dc.
  destruct (ca !! Clusters cfg) as [cl|] eqn:E1; [|discriminate].
  destruct (aa !! AuthInfos cfg) as [au|] eqn:E2; [|discriminate].
  destruct (xa !! Contexts cfg) as [cx|] eqn:E3; [|discriminate].
  injection Hview as -> -> -> <-.
  unfold validate, setKubeconfig, persisted. unfold_go. simpl.
  rewrite Hcfg. simpl. rewrite E1, E2, E3. simpl.
  destruct (RunChecks W _) as [[]|e]; simpl; [|reflexivity].
  destruct (forceHubInClusterEndpointLookup o) eqn:Ef; simpl.
  - rewrite Hcfg. simpl. rewrite E1. simpl. rewrite Hcfg. simpl.
    rewrite list_lookup_insert_eq by (eapply lookup_lt_Some; eauto).
    rewrite E2, E3. simpl.
    destruct (yaml_Marshal W _); reflexivity.
  - rewrite Hcfg. simpl. rewrite E1, E2, E3. simpl.
    destruct (yaml_Marshal W _); reflexivity.
Qed.

(** X6. A credential that fails the preflight check is neither rewritten nor
    marshalled: [validate] returns the check's error, and the options, the
    template values and every kubeconfig array are as before. *)
Theorem validate_stops_at_a_failed_preflight (W : World) (s : State)
  (cfg : Config) (d : ConfigData) (nc : NamedCluster)
  (rest : list NamedCluster) (e : error) :
  HubConfig (opts s) = Some cfg ->
  view s cfg = Some d ->
  d_Clusters d = nc :: rest ->
  RunChecks W (Some d) = Err e ->
  (validate W s).1 = Done (Err e) /\
  opts (validate W s).2 = opts s /\
  clusterArrays (validate W s).2 = clusterArrays s /\
  view (validate W s).2 cfg = Some d.
Proof.
  intros Hcfg Hview Hcl Hchk.
  rewrite (validate_run W s cfg d nc rest Hcfg Hview Hcl). cbv zeta.
  rewrite Hchk. simpl. repeat split. exact Hview.
Qed.

(** What a run of [validate] that returns nil has persisted. *)
Lemma validate_success (W : World) (s : State)
  (cfg : Config) (d : ConfigData) (nc : NamedCluster)
  (rest : list NamedCluster) :
  HubConfig (opts s) = Some cfg ->
  view s cfg = Some d ->
  d_Clusters d = nc :: rest ->
  (validate W s).1 = Done (Ok tt) ->
  let s' := (validate W s).2 in
  view s' cfg = Some (persisted (opts s) d) /\
  yaml_Marshal W (Some (persisted (opts s) d)) =
    Ok (hub_KubeConfig (v_Hub (values (opts s')))) /\
  (forceHubInClusterEndpointLookup (opts s) = false -> persisted (opts s) d = d) /\
  (forceHubInClusterEndpointLookup (opts s) = true ->
   persisted (opts s) d =
     mkConfigData (with_Server (hubInClusterEndpoint (opts s)) nc :: rest)
       (d_AuthInfos d) (d_Contexts d) (d_CurrentContext d)) /\
  values (opts s') =
    with_Hub_KubeConfig (hub_KubeConfig (v_Hub (values (opts s'))))
      (values (opts s)).
Proof.
  intros Hcfg Hview Hcl.
  rewrite (validate_run W s cfg d nc rest Hcfg Hview Hcl). cbv zeta.
  destruct (RunChecks W (Some d)) as [[]|e]; [|intros [=]].
  destruct (yaml_Marshal W (Some (persisted (opts s) d))) as [bytes|e] eqn:Ey;
    [|intros [=]].
  intros _. simpl.
  split.
  { revert Hview. unfold view, persisted; simpl.
    destruct (clusterArrays s !! Clusters cfg) as [cl|] eqn:E1; [|discriminate].
    destruct (authInfoArrays s !! AuthInfos cfg) as [au|] eqn:E2; [|discriminate].
    destruct (contextArrays s !! Contexts cfg) as [cx|] eqn:E3; [|discriminate].
    intros [= <-]. simpl in Hcl. subst cl.
    destruct (forceHubInClusterEndpointLookup (opts s)); simpl.
    - rewrite list_lookup_insert_eq by (eapply lookup_lt_Some; eauto).
      reflexivity.
    - rewrite E1. reflexivity. }
  split; [reflexivity|].
  unfold persisted. rewrite Hcl.
  split; [intros ->; reflexivity|]. split; [intros ->; reflexivity|].
  reflexivity.
Qed.

(** X7. When [validate] returns nil, [Hub.KubeConfig] is the YAML of the
    credential as it then stands: the one [complete] left, with
    [o.hubInClusterEndpoint] as its server under the flag and unchanged
    without it. No other template value and no other field of the
    credential changes. *)
Theorem validate_persists_the_credential (W : World) (s : State)
  (cfg : Config) (d : ConfigData) (nc : NamedCluster)
  (rest : list NamedCluster) :
  HubConfig (opts s) = Some cfg ->
  view s cfg = Some d ->
  d_Clusters d = nc :: rest ->
  (validate W s).1 = Done (Ok tt) ->
  let s' := (validate W s).2 in
  view s' cfg = Some (persisted (opts s) d) /\
  yaml_Marshal W (Some (persisted (opts s) d)) =
    Ok (hub_KubeConfig (v_Hub (values (opts s')))) /\
  (forceHubInClusterEndpointLookup (opts s) = false -> persisted (opts s) d = d) /\
  (forceHubInClusterEndpointLookup (opts s) = true ->
   persisted (opts s) d =
     mkConfigData (with_Server (hubInClusterEndpoint (opts s)) nc :: rest)
       (d_AuthInfos d) (d_Contexts d) (d_CurrentContext d)) /\
  values (opts s') =
    with_Hub_KubeConfig (hub_KubeConfig (v_Hub (values (opts s'))))
      (values (opts s)).
Proof.
  exact (validate_success W s cfg d nc rest).
Qed.

(** X8. [complete] followed by [validate], both returning nil: the persisted
    kubeconfig is the YAML of a credential with the join token, TLS
    verification on, the CA of the escalation, and as server the hub address
    without the flag and, under the flag, the string the in-cluster endpoint
    lookup returned over the insecure client. *)
Theorem join_persists_the_escalated_credential (W : World) (s : State) :
  (complete W s).1 = Done (Ok tt) ->
  (validate W (complete W s).2).1 = Done (Ok tt) ->
  let o := opts s in
  let s2 := (validate W (complete W s).2).2 in
  exists client cabytes ca,
    CreateClientFromClientcmdapiv1Config W (insecure_data o) = Ok client /\
    ca_input W o = Ok cabytes /\
    match cabytes with
    | Some b => ca = Some b
    | None => GetCACert W client = Ok ca
    end /\
    yaml_Marshal W
      (Some
         (mkConfigData
            [ mkNamedCluster "hub"
                (mkCluster
                   (if forceHubInClusterEndpointLookup o
                    then (GetAPIServer W client).1 else hubAPIServer o)
                   "" false "" ca "") ]
            [ mkNamedAuthInfo "bootstrap" (mkAuthInfo (token o)) ]
            [ mkNamedContext "bootstrap" (mkContext "hub" "bootstrap" "default") ]
            "bootstrap")) =
      Ok (hub_KubeConfig (v_Hub (values (opts s2)))).
Proof.
  intros Hok Hval. cbv zeta.
  destruct (complete_success W s Hok)
    as (vb & cab & ca & client & kc & _ & Hca & Hcc & _ & Hcad & _ & Hst).
  exists client, cab, ca.
  do 3 (split; [assumption|]).
  revert Hval. rewrite Hst. intros Hval.
  assert (view (completed W s vb cab ca client kc)
            (mkConfig (length (clusterArrays s) + 1)
               (length (authInfoArrays s) + 1) (length (contextArrays s) + 1)
               "bootstrap") =
          Some
            (mkConfigData
               [mkNamedCluster "hub"
                  (mkCluster (hubAPIServer (opts s)) "" false "" ca "")]
               (d_AuthInfos (insecure_data (opts s)))
               (d_Contexts (insecure_data (opts s))) "bootstrap")) as Hview.
  { unfold view, completed; simpl.
    replace (length (clusterArrays s) + 1)
      with (length (clusterArrays s ++ [d_Clusters (insecure_data (opts s))]))
      by (rewrite length_app; reflexivity).
    replace (length (authInfoArrays s) + 1)
      with (length (authInfoArrays s ++ [d_AuthInfos (insecure_data (opts s))]))
      by (rewrite length_app; reflexivity).
    replace (length (contextArrays s) + 1)
      with (length (contextArrays s ++ [d_Contexts (insecure_data (opts s))]))
      by (rewrite length_app; reflexivity).
    rewrite !lookup_snoc_last. reflexivity. }
  assert (HubConfig (opts (completed W s vb cab ca client kc)) =
          Some
            (mkConfig (length (clusterArrays s) + 1)
               (length (authInfoArrays s) + 1) (length (contextArrays s) + 1)
               "bootstrap")) as Hcfg by reflexivity.
  destruct
    (validate_success W _ _ _ _ _ Hcfg Hview eq_refl Hval)
    as (_ & Hy & _).
  rewrite <- Hy. f_equal. f_equal.
  unfold persisted, completed; simpl.
  destruct (forceHubInClusterEndpointLookup (opts s)); reflexivity.
Qed.

Lemma validate_stops_at_a_failed_preflight_witness :
  let W :=
    with_RunChecks
      (scenario_world ("", None) (Ok (Some sample_ca))
         ("https://managed.example:6443", None))
      (fun _ => Err forbidden) in
  let s := (complete W (init_state (sample_options false "" true false))).2 in
  (validate W s).1 = Done (Err forbidden) /\
  opts (validate W s).2 = opts s /\
  clusterArrays (validate W s).2 = clusterArrays s /\
  view (validate W s).2 (mkConfig 1 1 1 "bootstrap") = Some sample_credential.
Proof.
  cbv zeta.
  exact
    (validate_stops_at_a_failed_preflight
       (with_RunChecks
          (scenario_world ("", None) (Ok (Some sample_ca))
             ("https://managed.example:6443", None))
          (fun _ => Err forbidden))
       (complete
          (with_RunChecks
             (scenario_world ("", None) (Ok (Some sample_ca))
                ("https://managed.example:6443", None))
             (fun _ => Err forbidden))
          (init_state (sample_options false "" true false))).2
       (mkConfig 1 1 1 "bootstrap") sample_credential
       (mkNamedCluster "hub"
          (mkCluster "https://hub.example:6443" "" false "" (Some sample_ca) ""))
       [] forbidden eq_refl eq_refl eq_refl eq_refl).
Defined.

Lemma validate_persists_the_credential_witness :
  let W := scenario_world ("https://10.0.0.1:6443", None)
             (Ok (Some sample_ca)) ("https://managed.example:6443", None) in
  let s := (complete W (init_state (sample_options true "" true false))).2 in
  let nc :=
    mkNamedCluster "hub"
      (mkCluster "https://hub.example:6443" "" false "" (Some sample_ca) "") in
  let s' := (validate W s).2 in
  view s' (mkConfig 1 1 1 "bootstrap") =
    Some (persisted (opts s) sample_credential) /\
  yaml_Marshal W (Some (persisted (opts s) sample_credential)) =
    Ok (hub_KubeConfig (v_Hub (values (opts s')))) /\
  (forceHubInClusterEndpointLookup (opts s) = false ->
   persisted (opts s) sample_credential = sample_credential) /\
  (forceHubInClusterEndpointLookup (opts s) = true ->
   persisted (opts s) sample_credential =
     mkConfigData [with_Server (hubInClusterEndpoint (opts s)) nc]
       (d_AuthInfos sample_credential) (d_Contexts sample_credential)
       (d_CurrentContext sample_credential)) /\
  values (opts s') =
    with_Hub_KubeConfig (hub_KubeConfig (v_Hub (values (opts s'))))
      (values (opts s)).
Proof.
  cbv zeta.
  exact
    (validate_persists_the_credential
       (scenario_world ("https://10.0.0.1:6443", None)
          (Ok (Some sample_ca)) ("https://managed.example:6443", None))
       (complete
          (scenario_world ("https://10.0.0.1:6443", None)
             (Ok (Some sample_ca)) ("https://managed.example:6443", None))
          (init_state (sample_options true "" true false))).2
       (mkConfig 1 1 1 "bootstrap") sample_credential
       (mkNamedCluster "hub"
          (mkCluster "https://hub.example:6443" "" false "" (Some sample_ca) ""))
       [] eq_refl eq_refl eq_refl eq_refl).
Defined.

Lemma join_persists_the_escalated_credential_witness :
  let W := scenario_world ("https://10.0.0.1:6443", None)
             (Ok (Some sample_ca)) ("https://managed.example:6443", None) in
  let s := init_state (sample_options false "" true false) in
  let o := opts s in
  let s2 := (validate W (complete W s).2).2 in
  exists client cabytes ca,
    CreateClientFromClientcmdapiv1Config W (insecure_data o) = Ok client /\
    ca_input W o = Ok cabytes /\
    match cabytes with
    | Some b => ca = Some b
    | None => GetCACert W client = Ok ca
    end /\
    yaml_Marshal W
      (Some
         (mkConfigData
            [ mkNamedCluster "hub"
                (mkCluster
                   (if forceHubInClusterEndpointLookup o
                    then (GetAPIServer W client).1 else hubAPIServer o)
                   "" false "" ca "") ]
            [ mkNamedAuthInfo "bootstrap" (mkAuthInfo (token o)) ]
            [ mkNamedContext "bootstrap" (mkContext "hub" "bootstrap" "default") ]
            "bootstrap")) =
      Ok (hub_KubeConfig (v_Hub (values (opts s2)))).
Proof.
  cbv zeta.
  exact
    (join_persists_the_escalated_credential
       (scenario_world ("https://10.0.0.1:6443", None)
          (Ok (Some sample_ca)) ("https://managed.example:6443", None))
       (init_state (sample_options false "" true false)) eq_refl eq_refl).
Defined.

(** ** Further properties of [run] and the readiness predicates *)

Lemma applied_app t1 t2 : applied (t1 ++ t2) = applied t1 ++ applied t2.
Proof.
  induction t1 as [|e t1 IH]; simpl; [reflexivity|].
  destruct e; simpl; rewrite ?IH; reflexivity.
Qed.

Lemma crd_waits_app t1 t2 :
  crd_waits (t1 ++ t2) = crd_waits t1 ++ crd_waits t2.
Proof.
  induction t1 as [|e t1 IH]; simpl; [reflexivity|].
  destruct e; simpl; rewrite ?IH; reflexivity.
Qed.

Lemma written_app t1 t2 : written (t1 ++ t2) = written t1 ++ written t2.
Proof.
  induction t1 as [|e t1 IH]; simpl; [reflexivity|].
  destruct e; simpl; rewrite ?IH; reflexivity.
Qed.

(** The waits' calls apply nothing, wait for no CRD and write no output. *)
Lemma wait_effects_silent evs :
  forallb wait_effect evs = true ->
  applied evs = [] /\ crd_waits evs = [] /\ written evs = [].
Proof.
  induction evs as [|e evs IH]; simpl; [auto|].
  intros H. apply andb_prop in H as [He H].
  destruct e; simpl in *; try discriminate; auto.
Qed.

Lemma forallb_wait_app l1 l2 :
  forallb wait_effect l1 = true ->
  forallb wait_effect l2 = true ->
  forallb wait_effect (l1 ++ l2) = true.
Proof.
  intros H1 H2. rewrite forallb_app, H1, H2. reflexivity.
Qed.

Section WaitEffects.
Context (W : World).

Lemma WatchUntil_effects client namespace o p s :
  quiet p ->
  exists r s' evs,
    WatchUntil (pods_Watch W client namespace o) p s = (Done r, s') /\
    opts s' = opts s /\
    trace s' = trace s ++ evs /\
    forallb wait_effect evs = true.
Proof.
  intros Hp. unfold WatchUntil, pods_Watch. unfold_go. simpl.
  destruct (WatchPods W client namespace o) as [w|err]; simpl.
  - match goal with
    | |- context [consume p ?evs ?e ?st] =>
        destruct (consume_quiet p evs e st Hp) as (r & s1 & -> & Ho & Ht)
    end.
    simpl. eexists _, _, [_; _]; split; [reflexivity|]. simpl.
    split; [exact Ho|]. rewrite Ht; simpl. rewrite <- app_assoc.
    split; reflexivity.
  - eexists _, _, [_]; split; [reflexivity|]. simpl.
    repeat split; reflexivity.
Qed.

Lemma waitUntilRegistrationOperatorConditionIsTrue_effects timeout s :
  exists r s' evs,
    waitUntilRegistrationOperatorConditionIsTrue W timeout s = (Done r, s') /\
    opts s' = opts s /\
    trace s' = trace s ++ evs /\
    forallb wait_effect evs = true.
Proof.
  unfold waitUntilRegistrationOperatorConditionIsTrue, factory_ToRESTConfig,
    kubernetes_NewForConfig, new_phase.
  unfold_go. simpl.
  destruct (ToRESTConfig W) as [rc|err]; simpl.
  2:{ eexists _, _, [_]; split; [reflexivity|]. repeat split; reflexivity. }
  destruct (NewForConfig W rc) as [client|err]; simpl.
  2:{ eexists _, _, [_; _]; split; [reflexivity|]. simpl.
      rewrite <- app_assoc. repeat split; reflexivity. }
  match goal with
  | |- context [WatchUntil (pods_Watch W client ?ns ?o) ?p ?st] =>
      destruct (WatchUntil_effects client ns o p st
                  (registrationOperatorPredicate_quiet _ _))
        as (r & s1 & evs & -> & Ho & Ht & Hq)
  end.
  simpl in *. eexists _, _, ([_; _; _] ++ evs ++ [_]).
  split; [reflexivity|]. simpl. split; [exact Ho|]. rewrite Ht.
  rewrite <- !app_assoc. simpl. split; [reflexivity|].
  rewrite forallb_app, Hq. reflexivity.
Qed.

Lemma waitUntilKlusterletConditionIsTrue_effects timeout s :
  exists r s' evs,
    waitUntilKlusterletConditionIsTrue W timeout s = (Done r, s') /\
    opts s' = opts s /\
    trace s' = trace s ++ evs /\
    forallb wait_effect evs = true.
Proof.
  unfold waitUntilKlusterletConditionIsTrue, new_phase.
  unfold_go. simpl.
  destruct (KubernetesClientSet W) as [client|err]; simpl.
  2:{ eexists _, _, [_]; split; [reflexivity|]. repeat split; reflexivity. }
  match goal with
  | |- context [WatchUntil (pods_Watch W client ?ns ?o) ?p ?st] =>
      destruct (WatchUntil_effects client ns o p st
                  (klusterletPredicate_quiet _ _))
        as (r & s1 & evs & -> & Ho & Ht & Hq)
  end.
  simpl in *. eexists _, _, ([_; _] ++ evs ++ [_]).
  split; [reflexivity|]. simpl. split; [exact Ho|]. rewrite Ht.
  rewrite <- !app_assoc. simpl. split; [reflexivity|].
  rewrite forallb_app, Hq. reflexivity.
Qed.
End WaitEffects.

(** Filters of a trace made of known calls and of the waits' calls. *)
Ltac filter_simpl :=
  repeat first
    [ progress simpl
    | rewrite applied_app
    | rewrite crd_waits_app
    | rewrite written_app
    | match goal with
      | H : applied ?e = [] |- context [applied ?e] => rewrite H
      | H : crd_waits ?e = [] |- context [crd_waits ?e] => rewrite H
      | H : written ?e = [] |- context [written ?e] => rewrite H
      end ].

(** One way through [run], once its state and result are explicit. *)
Ltac run_leaf :=
  eexists _, _, _; split; [reflexivity|]; simpl;
  repeat match goal with
    | H : trace ?s1 = _ |- context [trace ?s1] => rewrite H
    end;
  rewrite <- ?app_assoc; simpl;
  split; [reflexivity|];
  filter_simpl;
  split;
  [ first
      [ exists 3; split; [reflexivity|]; intros; reflexivity
      | exists 0; split; [reflexivity|]; intros; discriminate
      | exists 1; split; [reflexivity|]; intros; discriminate
      | exists 2; split; [reflexivity|]; intros; discriminate
      | exists 3; split; [reflexivity|]; intros; discriminate ]
  | split; [auto|];
    split; [intros; first [reflexivity | discriminate]|];
    split; [intros; first [reflexivity | discriminate]|];
    split;
    [ first
        [ left; reflexivity
        | right; do 3 eexists; repeat split; eassumption || reflexivity ]
    | intros; discriminate ] ].

Section RunEffects.
Context (W : World).

(** What [run] applies, waits for and writes. *)
Lemma run_effects s :
  let o := opts s in
  let dry := DryRun (Flags o) in
  let crd := "klusterlets.operator.open-cluster-management.io" in
  exists r s' evs,
    run W s = (Done r, s') /\
    trace s' = trace s ++ evs /\
    (exists k, applied evs = take k (stages dry) /\ (r = Ok tt -> k = 3)) /\
    (crd_waits evs = [] \/ crd_waits evs = [(crd, wait o)]) /\
    (dry = true -> crd_waits evs = []) /\
    (r = Ok tt -> dry = false -> crd_waits evs = [(crd, wait o)]) /\
    (written evs = [] \/
     exists out1 out2 out3,
       ApplyDirectly W (values o) dry (stages dry !!! 0%nat).2 = Ok out1 /\
       ApplyDeployments W (values o) dry "join/operator.yaml" = Ok out2 /\
       ApplyCustomResources W (values o) dry "join/klusterlets.cr.yaml" =
         Ok out3 /\
       written evs = [(outputFile o, out1 ++ out2 ++ out3)] /\
       r = WriteOutput W (outputFile o) (out1 ++ out2 ++ out3)) /\
    (r = Ok tt -> written evs <> []).
Proof.
  destruct s as [o ca aa xa pc t]. cbv zeta. simpl opts.
  unfold run, helpers_GetClients, applier_ApplyDirectly,
    applier_ApplyDeployments, applier_ApplyCustomResources,
    wait_WaitUntilCRDReady, apply_WriteOutput.
  unfold_go. simpl.
  destruct (DryRun (Flags o)) eqn:Edry; simpl.
  - destruct (GetClients W) as [clients|err]; simpl; [|run_leaf].
    destruct (ApplyDirectly W _ _ _) as [out1|err] eqn:E1; simpl; [|run_leaf].
    destruct (ApplyDeployments W _ _ _) as [out2|err] eqn:E2; simpl;
      [|run_leaf].
    destruct (ApplyCustomResources W _ _ _) as [out3|err] eqn:E3; simpl;
      [|run_leaf].
    rewrite andb_false_r. simpl. run_leaf.
  - destruct (GetClients W) as [clients|err]; simpl; [|run_leaf].
    destruct (ApplyDirectly W _ _ _) as [out1|err] eqn:E1; simpl; [|run_leaf].
    destruct (ApplyDeployments W _ _ _) as [out2|err] eqn:E2; simpl;
      [|run_leaf].
    destruct (WaitUntilCRDReady W _ _) as [[]|err]; simpl; [|run_leaf].
    destruct (ApplyCustomResources W _ _ _) as [out3|err] eqn:E3; simpl;
      [|run_leaf].
    rewrite andb_true_r.
    destruct (wait o) eqn:Ewait; simpl; [|run_leaf].
    match goal with
    | |- context [waitUntilRegistrationOperatorConditionIsTrue W ?T ?st] =>
        destruct (waitUntilRegistrationOperatorConditionIsTrue_effects W T st)
          as (r1 & s1 & evs1 & -> & Ho1 & Ht1 & Hq1)
    end.
    destruct (wait_effects_silent evs1 Hq1) as (Ha1 & Hc1 & Hw1).
    simpl in Ht1.
    destruct r1 as [[]|err1]; [|run_leaf].
    match goal with
    | |- context [waitUntilKlusterletConditionIsTrue W ?T ?st] =>
        destruct (waitUntilKlusterletConditionIsTrue_effects W T st)
          as (r2 & s2 & evs2 & -> & Ho2 & Ht2 & Hq2)
    end.
    destruct (wait_effects_silent evs2 Hq2) as (Ha2 & Hc2 & Hw2).
    destruct r2 as [[]|err2]; run_leaf.
Qed.
End RunEffects.

(** X9. [run] applies its manifests in three stages, always in the order
    directly-applied files, operator deployment, klusterlet custom resource,
    each with the command's dry-run flag: what a run has applied is an
    initial part of that list, and all of it when the run returns nil. *)
Theorem run_applies_its_stages_in_order (W : World) (s : State) :
  exists k,
    applied (trace (run W s).2) =
      applied (trace s) ++ take k (stages (DryRun (Flags (opts s)))) /\
    ((run W s).1 = Done (Ok tt) -> k = 3).
Proof.
  destruct (run_effects W s)
    as (r & s' & evs & Hrun & Ht & (k & Hk & Hall) & _).
  rewrite Hrun. simpl. exists k. rewrite Ht, applied_app, Hk.
  split; [reflexivity|]. intros [= ->]. exact (Hall eq_refl).
Qed.

Lemma run_applies_its_stages_in_order_witness :
  let W := scenario_world ("", None) (Ok (Some sample_ca)) ("", None) in
  let s := init_state (sample_options false "" true true) in
  applied (trace (run W s).2) = stages true.
Proof.
  cbv zeta.
  destruct
    (run_applies_its_stages_in_order
       (scenario_world ("", None) (Ok (Some sample_ca)) ("", None))
       (init_state (sample_options false "" true true)))
    as (k & Hk & Hall).
  rewrite Hk, (Hall eq_refl). reflexivity.
Defined.

(** X10. In dry-run mode [run] never waits for the klusterlet CRD. Otherwise
    it waits for it at most once, handing the helper the [wait] option as it
    is, and it has done so in every run that returns nil, whether [wait] is
    set or not. *)
Theorem run_waits_for_the_CRD_unless_dry (W : World) (s : State) :
  let o := opts s in
  let crd := "klusterlets.operator.open-cluster-management.io" in
  exists ws,
    crd_waits (trace (run W s).2) = crd_waits (trace s) ++ ws /\
    (ws = [] \/ ws = [(crd, wait o)]) /\
    (DryRun (Flags o) = true -> ws = []) /\
    ((run W s).1 = Done (Ok tt) -> DryRun (Flags o) = false ->
     ws = [(crd, wait o)]).
Proof.
  cbv zeta.
  destruct (run_effects W s)
    as (r & s' & evs & Hrun & Ht & _ & Hc & Hdry & Hok & _).
  rewrite Hrun. simpl. exists (crd_waits evs). rewrite Ht, crd_waits_app.
  split; [reflexivity|]. split; [exact Hc|]. split; [exact Hdry|].
  intros [= ->]. exact (Hok eq_refl).
Qed.

Lemma run_waits_for_the_CRD_unless_dry_witness :
  let W := scenario_world ("", None) (Ok (Some sample_ca)) ("", None) in
  crd_waits (trace (run W (init_state (sample_options false "" false false))).2) =
    [("klusterlets.operator.open-cluster-management.io", false)] /\
  crd_waits (trace (run W (init_state (sample_options false "" true true))).2) =
    [].
Proof.
  cbv zeta.
  destruct
    (run_waits_for_the_CRD_unless_dry
       (scenario_world ("", None) (Ok (Some sample_ca)) ("", None))
       (init_state (sample_options false "" false false)))
    as (ws1 & Hw1 & _ & _ & Hok).
  destruct
    (run_waits_for_the_CRD_unless_dry
       (scenario_world ("", None) (Ok (Some sample_ca)) ("", None))
       (init_state (sample_options false "" true true)))
    as (ws2 & Hw2 & _ & Hdry & _).
  split.
  - rewrite Hw1, (Hok eq_refl eq_refl). reflexivity.
  - rewrite Hw2, (Hdry eq_refl). reflexivity.
Defined.

(** *** What a wait returns does not depend on the state it starts in *)

(** Both readiness predicates answer from the event alone. *)
Lemma registrationOperatorPredicate_answer (W : World) (phase phase' : addr)
  (event : Event) (s s0 : State) :
  exists b s1 s1',
    registrationOperatorPredicate W phase event s = (Done b, s1) /\
    registrationOperatorPredicate W phase' event s0 = (Done b, s1').
Proof.
  destruct event as [ty [pod|r m|k]]; unfold registrationOperatorPredicate;
    simpl; eexists _, _, _; split; reflexivity.
Qed.

Lemma klusterletPredicate_answer (W : World) (phase phase' : addr)
  (event : Event) (s s0 : State) :
  exists b s1 s1',
    klusterletPredicate W phase event s = (Done b, s1) /\
    klusterletPredicate W phase' event s0 = (Done b, s1').
Proof.
  destruct event as [ty [pod|r m|k]]; unfold klusterletPredicate;
    simpl; eexists _, _, _; split; reflexivity.
Qed.

(** The event loop, run with two predicates that agree on every event, ends
    with the same result from any two states. *)
Lemma consume_result (p p' : Event -> M bool) (evs : list Event)
  (e : StreamEnd) :
  (forall event s s0, exists b s1 s1',
      p event s = (Done b, s1) /\ p' event s0 = (Done b, s1')) ->
  forall s s0, exists r s1 s1',
    consume p evs e s = (Done r, s1) /\ consume p' evs e s0 = (Done r, s1').
Proof.
  intros H. induction evs as [|event evs IH]; intros s s0; simpl.
  - destruct e; eexists _, _, _; split; reflexivity.
  - unfold bind. destruct (H event s s0) as (b & s1 & s1' & -> & ->).
    destruct b; [eexists _, _, _; split; reflexivity|apply IH].
Qed.

Lemma WatchUntil_result (W : World) (client : Clientset) (namespace : string)
  (o : ListOptions) (p p' : Event -> M bool) (s s0 : State) :
  (forall event s s0, exists b s1 s1',
      p event s = (Done b, s1) /\ p' event s0 = (Done b, s1')) ->
  exists r s1 s1',
    WatchUntil (pods_Watch W client namespace o) p s = (Done r, s1) /\
    WatchUntil (pods_Watch W client namespace o) p' s0 = (Done r, s1').
Proof.
  intros H. unfold WatchUntil, pods_Watch. unfold_go. simpl.
  destruct (WatchPods W client namespace o) as [w|err]; simpl.
  2:{ eexists _, _, _; split; reflexivity. }
  match goal with
  | |- context [consume p ?evs ?e ?st] =>
      match goal with
      | |- context [consume p' evs e ?st'] =>
          destruct (consume_result p p' evs e H st st')
            as (r & s1 & s1' & -> & ->)
      end
  end.
  eexists _, _, _; split; reflexivity.
Qed.

(** The operator wait returns the same from every state. *)
Lemma waitUntilRegistrationOperatorConditionIsTrue_result
  (W : World) (timeout : Z) (s s0 : State) :
  (waitUntilRegistrationOperatorConditionIsTrue W timeout s).1 =
  (waitUntilRegistrationOperatorConditionIsTrue W timeout s0).1.
Proof.
  unfold waitUntilRegistrationOperatorConditionIsTrue, factory_ToRESTConfig,
    kubernetes_NewForConfig, new_phase.
  unfold_go. simpl.
  destruct (ToRESTConfig W) as [rc|err]; simpl; [|reflexivity].
  destruct (NewForConfig W rc) as [client|err]; simpl; [|reflexivity].
  match goal with
  | |- context [WatchUntil (pods_Watch W client ?ns ?o)
                  (registrationOperatorPredicate W ?ph) ?st] =>
      match goal with
      | |- context [WatchUntil (pods_Watch W client ns o)
                      (registrationOperatorPredicate W ?ph') ?st'] =>
          tryif constr_eq st st' then fail else
          destruct
            (WatchUntil_result W client ns o
               (registrationOperatorPredicate W ph)
               (registrationOperatorPredicate W ph') st st'
               (registrationOperatorPredicate_answer W ph ph'))
            as (r & s1 & s1' & -> & ->)
      end
  end.
  reflexivity.
Qed.

(** The agent wait returns the same from every state. *)
Lemma waitUntilKlusterletConditionIsTrue_result
  (W : World) (timeout : Z) (s s0 : State) :
  (waitUntilKlusterletConditionIsTrue W timeout s).1 =
  (waitUntilKlusterletConditionIsTrue W timeout s0).1.
Proof.
  unfold waitUntilKlusterletConditionIsTrue, new_phase.
  unfold_go. simpl.
  destruct (KubernetesClientSet W) as [client|err]; simpl; [|reflexivity].
  match goal with
  | |- context [WatchUntil (pods_Watch W client ?ns ?o)
                  (klusterletPredicate W ?ph) ?st] =>
      match goal with
      | |- context [WatchUntil (pods_Watch W client ns o)
                      (klusterletPredicate W ?ph') ?st'] =>
          tryif constr_eq st st' then fail else
          destruct
            (WatchUntil_result W client ns o
               (klusterletPredicate W ph) (klusterletPredicate W ph') st st'
               (klusterletPredicate_answer W ph ph'))
            as (r & s1 & s1' & -> & ->)
      end
  end.
  reflexivity.
Qed.

(** A way through [run] that ended before the write. *)
Ltac unwritten :=
  let Hw := fresh "Hw" in
  intros Hw; exfalso; apply Hw; simpl;
  repeat match goal with
    | H : trace ?s1 = _ |- context [trace ?s1] => rewrite H
    end;
  filter_simpl; rewrite ?app_nil_r; reflexivity.

(** [run] writes only after everything before the write has succeeded:
    the clients, the CRD wait when it is made, and both readiness waits
    when they are made. *)
Lemma run_output_is_gated (W : World) (s : State) :
  let o := opts s in
  let T := int64 (Timeout (Flags o)) in
  written (trace (run W s).2) <> written (trace s) ->
  (exists clients, GetClients W = Ok clients) /\
  (DryRun (Flags o) = false ->
   WaitUntilCRDReady W "klusterlets.operator.open-cluster-management.io"
     (wait o) = Ok tt /\
   (wait o = true ->
    forall s0,
      (waitUntilRegistrationOperatorConditionIsTrue W T s0).1 = Done (Ok tt) /\
      (waitUntilKlusterletConditionIsTrue W T s0).1 = Done (Ok tt))).
Proof.
  destruct s as [o ca aa xa pc t]. cbv zeta. simpl opts.
  unfold run, helpers_GetClients, applier_ApplyDirectly,
    applier_ApplyDeployments, applier_ApplyCustomResources,
    wait_WaitUntilCRDReady, apply_WriteOutput.
  unfold_go. simpl.
  destruct (GetClients W) as [clients|err]; simpl; [|unwritten].
  destruct (ApplyDirectly W _ _ _) as [out1|err]; simpl; [|unwritten].
  destruct (ApplyDeployments W _ _ _) as [out2|err]; simpl; [|unwritten].
  destruct (DryRun (Flags o)) eqn:Edry; simpl.
  { intros _. split; [eexists; reflexivity|discriminate]. }
  destruct (WaitUntilCRDReady W _ _) as [[]|err]; simpl; [|unwritten].
  destruct (ApplyCustomResources W _ _ _) as [out3|err]; simpl; [|unwritten].
  rewrite andb_true_r.
  destruct (wait o) eqn:Ewait; simpl.
  2:{ intros _. split; [eexists; reflexivity|]. intros _.
      split; [reflexivity|discriminate]. }
  match goal with
  | |- context [waitUntilRegistrationOperatorConditionIsTrue W ?T ?st] =>
      destruct (waitUntilRegistrationOperatorConditionIsTrue_effects W T st)
        as (r1 & s1 & evs1 & Heq1 & Ho1 & Ht1 & Hq1);
      assert (forall s0,
        (waitUntilRegistrationOperatorConditionIsTrue W T s0).1 = Done r1)
        as Hall1
        by (intros s0;
            rewrite (waitUntilRegistrationOperatorConditionIsTrue_result
                       W T s0 st), Heq1; reflexivity);
      rewrite Heq1
  end.
  destruct (wait_effects_silent evs1 Hq1) as (Ha1 & Hc1 & Hw1).
  simpl in Ht1.
  destruct r1 as [[]|err1]; [|unwritten].
  match goal with
  | |- context [waitUntilKlusterletConditionIsTrue W ?T ?st] =>
      destruct (waitUntilKlusterletConditionIsTrue_effects W T st)
        as (r2 & s2 & evs2 & Heq2 & Ho2 & Ht2 & Hq2);
      assert (forall s0,
        (waitUntilKlusterletConditionIsTrue W T s0).1 = Done r2)
        as Hall2
        by (intros s0;
            rewrite (waitUntilKlusterletConditionIsTrue_result W T s0 st),
              Heq2; reflexivity);
      rewrite Heq2
  end.
  destruct (wait_effects_silent evs2 Hq2) as (Ha2 & Hc2 & Hw2).
  destruct r2 as [[]|err2]; [|unwritten].
  intros _. split; [eexists; reflexivity|]. intros _.
  split; [reflexivity|]. intros _ s0. split; [apply Hall1|apply Hall2].
Qed.

(** X11. [run] writes its output at most once: the outputs of the three
    apply stages, concatenated in stage order, go to [outputFile], and the
    result of that write is the result of [run]. A run that returns nil has
    written. A run writes only when all that comes before the write has
    succeeded: the three stages, the clients, the CRD wait outside dry-run
    mode and, when [wait] is set outside dry-run mode, both readiness waits;
    so a run in which a stage or a wait failed writes nothing. (What a
    readiness wait returns does not depend on the state it starts in, so its
    result is stated for every state.) *)
Theorem run_writes_the_stage_outputs_once (W : World) (s : State) :
  let o := opts s in
  let dry := DryRun (Flags o) in
  let T := int64 (Timeout (Flags o)) in
  exists w,
    written (trace (run W s).2) = written (trace s) ++ w /\
    (w = [] \/
     exists out1 out2 out3,
       ApplyDirectly W (values o) dry (stages dry !!! 0%nat).2 = Ok out1 /\
       ApplyDeployments W (values o) dry "join/operator.yaml" = Ok out2 /\
       ApplyCustomResources W (values o) dry "join/klusterlets.cr.yaml" =
         Ok out3 /\
       w = [(outputFile o, out1 ++ out2 ++ out3)] /\
       (run W s).1 = Done (WriteOutput W (outputFile o) (out1 ++ out2 ++ out3))) /\
    ((run W s).1 = Done (Ok tt) -> w <> []) /\
    (w <> [] ->
     (exists clients, GetClients W = Ok clients) /\
     (dry = false ->
      WaitUntilCRDReady W "klusterlets.operator.open-cluster-management.io"
        (wait o) = Ok tt /\
      (wait o = true ->
       forall s0,
         (waitUntilRegistrationOperatorConditionIsTrue W T s0).1 =
           Done (Ok tt) /\
         (waitUntilKlusterletConditionIsTrue W T s0).1 = Done (Ok tt)))).
Proof.
  cbv zeta.
  pose proof (run_output_is_gated W s) as Hgate. cbv zeta in Hgate.
  destruct (run_effects W s)
    as (r & s' & evs & Hrun & Ht & _ & _ & _ & _ & Hw & Hok).
  rewrite Hrun in *. simpl in *. exists (written evs).
  rewrite Ht, written_app in *.
  split; [reflexivity|]. split; [|split].
  - destruct Hw as [Hw|(o1 & o2 & o3 & H1 & H2 & H3 & Hw & Hr)];
      [left; exact Hw|right].
    exists o1, o2, o3. rewrite Hr. repeat split; assumption.
  - intros [= ->]. exact (Hok eq_refl).
  - intros Hne. apply Hgate. intros Heq. apply Hne.
    apply (app_inv_head (written (trace s))). rewrite app_nil_r.
    exact Heq.
Qed.

Lemma run_writes_the_stage_outputs_once_witness :
  let W :=
    with_outputs
      (scenario_world ("", None) (Ok (Some sample_ca)) ("", None))
      ["namespace/open-cluster-management created"]
      ["deployment/klusterlet created"] ["klusterlet/klusterlet created"] in
  let W' :=
    with_outputs
      (sample_world ("", None) (Ok (Some sample_ca)) ("", None)
         ready_stream stalled_stream)
      ["namespace/open-cluster-management created"]
      ["deployment/klusterlet created"] ["klusterlet/klusterlet created"] in
  let s := init_state (sample_options false "" true false) in
  written (trace (run W s).2) =
    [("",
      ["namespace/open-cluster-management created";
       "deployment/klusterlet created"; "klusterlet/klusterlet created"])] /\
  (waitUntilKlusterletConditionIsTrue W' 300 s).1 = Done (Err TimeoutError) /\
  written (trace (run W' s).2) = [].
Proof.
  cbv zeta. split; [|split].
  - destruct
      (run_writes_the_stage_outputs_once
         (with_outputs
            (scenario_world ("", None) (Ok (Some sample_ca)) ("", None))
            ["namespace/open-cluster-management created"]
            ["deployment/klusterlet created"] ["klusterlet/klusterlet created"])
         (init_state (sample_options false "" true false)))
      as (w & Hw & [Hnone|(o1 & o2 & o3 & H1 & H2 & H3 & Hsome & _)] & Hok & _).
    + exfalso. exact (Hok eq_refl Hnone).
    + rewrite Hw, Hsome.
      injection H1 as <-. injection H2 as <-. injection H3 as <-.
      reflexivity.
  - vm_compute. reflexivity.
  - destruct
      (run_writes_the_stage_outputs_once
         (with_outputs
            (sample_world ("", None) (Ok (Some sample_ca)) ("", None)
               ready_stream stalled_stream)
            ["namespace/open-cluster-management created"]
            ["deployment/klusterlet created"] ["klusterlet/klusterlet created"])
         (init_state (sample_options false "" true false)))
      as (w & Hw & _ & _ & Hgate).
    rewrite Hw. destruct w as [|x w']; [reflexivity|]. exfalso.
    assert (x :: w' <> []) as Hne by discriminate.
    destruct (Hgate Hne) as [_ Hdry].
    destruct (Hdry eq_refl) as [_ Hwait].
    destruct
      (Hwait eq_refl (init_state (sample_options false "" true false)))
      as [_ Hagent].
    vm_compute in Hagent. discriminate Hagent.
Defined.

(** The conversion loop and [meta.IsStatusConditionTrue] together: the first
    pod condition of type Ready decides. *)
Lemma ready_decided_by_first_Ready_condition (pod : Pod) :
  IsStatusConditionTrue (conds_of pod) "Ready" =
    match first_of_type "Ready" (pod_Conditions pod) with
    | Some c => String.eqb (pc_Status c) "True"
    | None => false
    end.
Proof.
  unfold IsStatusConditionTrue, conds_of.
  induction (pod_Conditions pod) as [|c cs IH]; [reflexivity|].
  cbn [map IsStatusConditionPresentAndEqual first_of_type cond_Type cond_Status].
  destruct (String.eqb (pc_Type c) "Ready"); [reflexivity|exact IH].
Qed.

(** X12. On a pod event both readiness predicates store the pod's spinner
    status in the phase cell, change nothing else, and answer true exactly
    when the pod has a condition of type Ready and the first such condition
    has status True; conditions of other types, and later Ready conditions,
    do not count. *)
Theorem pod_is_ready_by_its_first_Ready_condition
  (W : World) (phase : addr) (event : Event) (pod : Pod) (s : State) :
  ev_Object event = ObjPod pod ->
  exists b,
    registrationOperatorPredicate W phase event s =
      (Done b,
       set_phaseCells (<[phase := GetSpinnerPodStatus W pod]> (phaseCells s)) s) /\
    klusterletPredicate W phase event s =
      (Done b,
       set_phaseCells (<[phase := GetSpinnerPodStatus W pod]> (phaseCells s)) s) /\
    (b = true <->
     exists c,
       first_of_type "Ready" (pod_Conditions pod) = Some c /\
       pc_Status c = "True").
Proof.
  intros Hpod.
  exists (IsStatusConditionTrue (conds_of pod) "Ready").
  unfold registrationOperatorPredicate, klusterletPredicate.
  rewrite Hpod. split; [reflexivity|]. split; [reflexivity|].
  rewrite ready_decided_by_first_Ready_condition.
  destruct (first_of_type "Ready" (pod_Conditions pod)) as [c|].
  - split.
    + intros H. exists c. split; [reflexivity|]. now apply String.eqb_eq.
    + intros (c' & [= <-] & H). now apply String.eqb_eq.
  - split; [discriminate|]. intros (c' & [=] & _).
Qed.

Lemma pod_is_ready_by_its_first_Ready_condition_witness :
  let W := scenario_world ("", None) (Ok (Some sample_ca)) ("", None) in
  let s := set_phaseCells [""] (init_state (sample_options false "" true false)) in
  let flapping :=
    mkPod "klusterlet" "Running"
      [ mkPodCondition "Initialized" "True" "" "";
        mkPodCondition "Ready" "False" "" "";
        mkPodCondition "Ready" "True" "" "" ] in
  klusterletPredicate W 0 (mkEvent Modified (ObjPod flapping)) s =
    (Done false, set_phaseCells ["Running"] s).
Proof.
  cbv zeta.
  destruct
    (pod_is_ready_by_its_first_Ready_condition
       (scenario_world ("", None) (Ok (Some sample_ca)) ("", None)) 0
       (mkEvent Modified
          (ObjPod
             (mkPod "klusterlet" "Running"
                [ mkPodCondition "Initialized" "True" "" "";
                  mkPodCondition "Ready" "False" "" "";
                  mkPodCondition "Ready" "True" "" "" ])))
       _
       (set_phaseCells [""] (init_state (sample_options false "" true false)))
       eq_refl)
    as (b & _ & Hk & Hb).
  rewrite Hk. destruct b; [|reflexivity].
  destruct (proj1 Hb eq_refl) as (c & [= <-] & [=]).
Defined.

(** X20. With the flag off and an explicit CA held,
    [createClientcmdapiv1Config] contacts nobody: it makes no call at all,
    changes no option, and returns the secure copy with the held CA. *)
Theorem escalation_with_explicit_CA_makes_no_call
  (W : World) (s : State) (client : Clientset) (cfg : Config)
  (d : ConfigData) (nc : NamedCluster) (rest : list NamedCluster)
  (ca : list Byte.byte) :
  view s cfg = Some d ->
  d_Clusters d = nc :: rest ->
  forceHubInClusterEndpointLookup (opts s) = false ->
  HubCADate (opts s) = Some ca ->
  let out := (createClientcmdapiv1Config W client cfg s).1 in
  let s' := (createClientcmdapiv1Config W client cfg s).2 in
  trace s' = trace s /\
  opts s' = opts s /\
  exists cfg',
    out = Done (Ok cfg') /\
    view s' cfg' =
      Some
        (mkConfigData (secured (hubAPIServer (opts s)) (Some ca) nc :: rest)
           (d_AuthInfos d) (d_Contexts d) (d_CurrentContext d)).
Proof.
  intros Hview Hcl Hforce Hca. cbv zeta.
  rewrite (createClientcmdapiv1Config_run W s client cfg d nc rest Hview Hcl).
  cbv zeta. unfold lookup_abort, looked_up. rewrite Hforce, Hca. simpl.
  split; [apply app_nil_r|]. split; [reflexivity|].
  eexists. split; [reflexivity|].
  unfold view, copy_of; simpl. rewrite !lookup_snoc_last, Hcl. reflexivity.
Qed.

Lemma escalation_with_explicit_CA_makes_no_call_witness :
  let W := scenario_world ("https://10.0.0.1:6443", None)
             (Ok (Some [Byte.x58])) ("", None) in
  let s :=
    (createExternalBootstrapConfig
       (init_state
          (set_HubCADate (Some sample_ca)
             (sample_options false "/etc/hub/ca.crt" true false)))).2 in
  trace (createClientcmdapiv1Config W hub_client (mkConfig 0 0 0 "bootstrap") s).2 =
    [].
Proof.
  cbv zeta.
  exact
    (proj1
       (escalation_with_explicit_CA_makes_no_call
          (scenario_world ("https://10.0.0.1:6443", None)
             (Ok (Some [Byte.x58])) ("", None))
          (createExternalBootstrapConfig
             (init_state
                (set_HubCADate (Some sample_ca)
                   (sample_options false "/etc/hub/ca.crt" true false)))).2
          hub_client (mkConfig 0 0 0 "bootstrap") _ _ _ sample_ca
          eq_refl eq_refl eq_refl eq_refl)).
Defined.

Section WaitCalls.
Context (W : World).

Lemma WatchUntil_calls client namespace o p s :
  quiet p ->
  exists r s',
    WatchUntil (pods_Watch W client namespace o) p s = (Done r, s') /\
    opts s' = opts s /\
    trace s' =
      trace s ++
      EWatchPods client namespace o ::
      match WatchPods W client namespace o with
      | Ok _ => [EWatchStop]
      | Err _ => []
      end /\
    (forall e, WatchPods W client namespace o = Err e -> r = Err e).
Proof.
  intros Hp. unfold WatchUntil, pods_Watch. unfold_go. simpl.
  destruct (WatchPods W client namespace o) as [w|err]; simpl.
  - match goal with
    | |- context [consume p ?evs ?e ?st] =>
        destruct (consume_quiet p evs e st Hp) as (r & s1 & -> & Ho & Ht)
    end.
    simpl. eexists _, _; split; [reflexivity|]. simpl.
    split; [exact Ho|]. rewrite Ht; simpl. rewrite <- app_assoc.
    split; [reflexivity|]. intros e [=].
  - eexists _, _; split; [reflexivity|]. simpl.
    repeat split. intros e [= ->]. reflexivity.
Qed.

(** X21. The calls of the two readiness waits. The operator wait builds its
    client from the REST config, the agent wait takes the factory's client
    set; a failure there is returned before anything is shown. Otherwise the
    spinner is started, one watch is opened on the pods labelled
    [app=klusterlet] in [open-cluster-management], respectively
    [app=klusterlet-registration-agent] in [open-cluster-management-agent],
    with the timeout given, and the spinner is stopped whatever the wait's
    result; an error opening the watch is that result. *)
Theorem readiness_waits_calls (timeout : Z) (s : State) :
  (exists r s',
      waitUntilRegistrationOperatorConditionIsTrue W timeout s = (Done r, s') /\
      opts s' = opts s /\
      match ToRESTConfig W with
      | Err e => r = Err e /\ trace s' = trace s ++ [EToRESTConfig]
      | Ok rc =>
          match NewForConfig W rc with
          | Err e =>
              r = Err e /\
              trace s' = trace s ++ [EToRESTConfig; ENewForConfig rc]
          | Ok client =>
              let o := mkListOptions (Some timeout) "app=klusterlet" in
              let ns := "open-cluster-management" in
              trace s' =
                trace s ++
                [ EToRESTConfig; ENewForConfig rc;
                  ESpinnerStart
                    "Waiting for registration operator to become ready...";
                  EWatchPods client ns o ] ++
                match WatchPods W client ns o with
                | Ok _ => [EWatchStop]
                | Err _ => []
                end ++ [ESpinnerStop] /\
              (forall e, WatchPods W client ns o = Err e -> r = Err e)
          end
      end) /\
  (exists r s',
      waitUntilKlusterletConditionIsTrue W timeout s = (Done r, s') /\
      opts s' = opts s /\
      match KubernetesClientSet W with
      | Err e => r = Err e /\ trace s' = trace s ++ [EKubernetesClientSet]
      | Ok client =>
          let o :=
            mkListOptions (Some timeout) "app=klusterlet-registration-agent" in
          let ns := "open-cluster-management-agent" in
          trace s' =
            trace s ++
            [ EKubernetesClientSet;
              ESpinnerStart "Waiting for klusterlet agent to become ready...";
              EWatchPods client ns o ] ++
            match WatchPods W client ns o with
            | Ok _ => [EWatchStop]
            | Err _ => []
            end ++ [ESpinnerStop] /\
          (forall e, WatchPods W client ns o = Err e -> r = Err e)
      end).
Proof.
  split.
  - unfold waitUntilRegistrationOperatorConditionIsTrue, factory_ToRESTConfig,
      kubernetes_NewForConfig, new_phase.
    unfold_go. simpl.
    destruct (ToRESTConfig W) as [rc|err]; simpl.
    2:{ eexists _, _; split; [reflexivity|]. repeat split; reflexivity. }
    destruct (NewForConfig W rc) as [client|err]; simpl.
    2:{ eexists _, _; split; [reflexivity|]. simpl.
        rewrite <- app_assoc. repeat split; reflexivity. }
    match goal with
    | |- context [WatchUntil (pods_Watch W client ?ns ?o) ?p ?st] =>
        destruct (WatchUntil_calls client ns o p st
                    (registrationOperatorPredicate_quiet _ _))
          as (r & s1 & -> & Ho & Ht & He)
    end.
    simpl in *. eexists _, _. split; [reflexivity|]. simpl.
    split; [exact Ho|]. rewrite Ht. rewrite <- !app_assoc. simpl.
    split; [reflexivity|exact He].
  - unfold waitUntilKlusterletConditionIsTrue, new_phase.
    unfold_go. simpl.
    destruct (KubernetesClientSet W) as [client|err]; simpl.
    2:{ eexists _, _; split; [reflexivity|]. repeat split; reflexivity. }
    match goal with
    | |- context [WatchUntil (pods_Watch W client ?ns ?o) ?p ?st] =>
        destruct (WatchUntil_calls client ns o p st
                    (klusterletPredicate_quiet _ _))
          as (r & s1 & -> & Ho & Ht & He)
    end.
    simpl in *. eexists _, _. split; [reflexivity|]. simpl.
    split; [exact Ho|]. rewrite Ht. rewrite <- !app_assoc. simpl.
    split; [reflexivity|exact He].
Qed.
End WaitCalls.

(** X22. After a [complete] that returned nil, [validate] never panics, with
    or without the flag: [o.HubConfig] is not nil and the first cluster that
    [setKubeconfig] writes to exists. *)
Theorem validate_after_complete_never_panics (W : World) (s : State) :
  (complete W s).1 = Done (Ok tt) ->
  exists r, (validate W (complete W s).2).1 = Done r.
Proof.
  intros Hok.
  destruct (complete_success W s Hok)
    as (vb & cab & ca & client & kc & _ & _ & _ & _ & _ & _ & ->).
  assert (view (completed W s vb cab ca client kc)
            (mkConfig (length (clusterArrays s) + 1)
               (length (authInfoArrays s) + 1) (length (contextArrays s) + 1)
               "bootstrap") =
          Some
            (mkConfigData
               [mkNamedCluster "hub"
                  (mkCluster (hubAPIServer (opts s)) "" false "" ca "")]
               (d_AuthInfos (insecure_data (opts s)))
               (d_Contexts (insecure_data (opts s))) "bootstrap")) as Hview.
  { unfold view, completed; simpl.
    replace (length (clusterArrays s) + 1)
      with (length (clusterArrays s ++ [d_Clusters (insecure_data (opts s))]))
      by (rewrite length_app; reflexivity).
    replace (length (authInfoArrays s) + 1)
      with (length (authInfoArrays s ++ [d_AuthInfos (insecure_data (opts s))]))
      by (rewrite length_app; reflexivity).
    replace (length (contextArrays s) + 1)
      with (length (contextArrays s ++ [d_Contexts (insecure_data (opts s))]))
      by (rewrite length_app; reflexivity).
    rewrite !lookup_snoc_last. reflexivity. }
  erewrite validate_run by (reflexivity || exact Hview).
  cbv zeta.
  destruct (RunChecks W _) as [[]|e]; [|eexists; reflexivity].
  destruct (yaml_Marshal W _); eexists; reflexivity.
Qed.

Lemma validate_after_complete_never_panics_witness :
  let W := scenario_world ("", Some not_found) (Ok (Some sample_ca))
             ("https://managed.example:6443", None) in
  let s := init_state (sample_options true "" true false) in
  exists r, (validate W (complete W s).2).1 = Done r.
Proof.
  cbv zeta.
  exact
    (validate_after_complete_never_panics
       (scenario_world ("", Some not_found) (Ok (Some sample_ca))
          ("https://managed.example:6443", None))
       (init_state (sample_options true "" true false)) eq_refl).
Defined.

(** * Properties of [get work] *)

Module GetWorkFacts.
Import GetWork.

Lemma FindStatusCondition_none (cs : list Condition) (ty : string) :
  Forall (fun c => cond_Type c <> ty) cs ->
  FindStatusCondition cs ty = None.
Proof.
  induction 1 as [|c cs Hc _ IH]; simpl; [reflexivity|].
  destruct (String.eqb_spec (cond_Type c) ty); [contradiction|exact IH].
Qed.

Lemma FindStatusCondition_first (pre : list Condition) (c : Condition)
  (post : list Condition) (ty : string) :
  Forall (fun c => cond_Type c <> ty) pre ->
  cond_Type c = ty ->
  FindStatusCondition (pre ++ c :: post) ty = Some c.
Proof.
  intros Hpre Hc.
  induction Hpre as [|x pre Hx _ IH]; simpl.
  - rewrite Hc, String.eqb_refl. reflexivity.
  - destruct (String.eqb_spec (cond_Type x) ty); [contradiction|exact IH].
Qed.

(** X13. [getFileds] reports the work's namespace as its cluster and the
    number of its manifests; as applied and available it reports the status
    of the first condition of type Applied, respectively Available, and the
    empty string when the work has no such condition. *)
Theorem getFileds_reads_the_first_conditions (work : ManifestWork) :
  let '(cluster, number, applied, available) := getFileds work in
  cluster = Namespace work /\
  number = Z.of_nat (length (Manifests work)) /\
  (Forall (fun c => cond_Type c <> "Applied") (Conditions work) ->
   applied = "") /\
  (Forall (fun c => cond_Type c <> "Available") (Conditions work) ->
   available = "") /\
  (forall pre c post,
      Conditions work = pre ++ c :: post ->
      Forall (fun c => cond_Type c <> "Applied") pre ->
      cond_Type c = "Applied" ->
      applied = cond_Status c) /\
  (forall pre c post,
      Conditions work = pre ++ c :: post ->
      Forall (fun c => cond_Type c <> "Available") pre ->
      cond_Type c = "Available" ->
      available = cond_Status c).
Proof.
  unfold getFileds, WorkApplied, WorkAvailable.
  split; [reflexivity|]. split; [reflexivity|].
  split; [intros H; now rewrite (FindStatusCondition_none _ _ H)|].
  split; [intros H; now rewrite (FindStatusCondition_none _ _ H)|].
  split; intros pre c post -> Hpre Hc;
    now rewrite (FindStatusCondition_first pre c post _ Hpre Hc).
Qed.

Lemma getFileds_reads_the_first_conditions_witness :
  getFileds
    (mkWork "deploy-nginx" "cluster1" ["deployment"; "service"]
       [ mkCondition "Applied" "True" "AppliedManifestWorkComplete" "";
         mkCondition "Applied" "False" "" "" ]) =
    ("cluster1", 2%Z, "True", "").
Proof.
  pose proof
    (getFileds_reads_the_first_conditions
       (mkWork "deploy-nginx" "cluster1" ["deployment"; "service"]
          [ mkCondition "Applied" "True" "AppliedManifestWorkComplete" "";
            mkCondition "Applied" "False" "" "" ])) as H.
  destruct (getFileds _) as [[[cluster number] applied] available].
  destruct H as (-> & -> & _ & Hav & Hap & _).
  rewrite Hav
    by (repeat constructor; discriminate).
  rewrite (Hap [] _ _ eq_refl (List.Forall_nil _) eq_refl).
  reflexivity.
Defined.

Lemma table_loop_cells (b : bool) (items : list ManifestWork)
  (rows : list TableRow) (vars : list ManifestWork) :
  map Cells (table_loop b items rows vars).1 =
    map Cells rows ++ map row_cells items.
Proof.
  revert rows vars.
  induction items as [|work items IH]; intros rows vars; simpl.
  - now rewrite app_nil_r.
  - destruct b; [|destruct vars]; simpl; rewrite IH, map_app; simpl;
      now rewrite <- app_assoc.
Qed.

(** X14. [converToTable] gives a table of five columns with one row per
    work of the list, in the list's order, whose cells are the work's name,
    cluster, number of manifests, applied and available status: every row
    has as many cells as there are columns. An object that is not a work
    list gives the same columns and no row. *)
Theorem converToTable_has_a_row_per_work (b : bool) (obj : RuntimeObject) :
  let table := (converToTable b obj).1 in
  map col_Name (ColumnDefinitions table) =
    ["Name"; "Cluster"; "Number Of Manifests"; "Applied"; "Available"] /\
  Forall
    (fun row => length (Cells row) = length (ColumnDefinitions table))
    (Rows table) /\
  match obj with
  | WorkList items =>
      map Cells (Rows table) = map row_cells items /\
      length (Rows table) = length items
  | Other _ => Rows table = []
  end.
Proof.
  cbv zeta. unfold converToTable.
  destruct obj as [items|kind]; simpl.
  2:{ repeat split. constructor. }
  pose proof (table_loop_cells b items [] []) as Hc.
  destruct (table_loop b items [] []) as [rows vars]; simpl in *.
  split; [reflexivity|].
  assert (length rows = length items) as Hlen.
  { rewrite <- (length_map Cells rows), Hc, length_map. reflexivity. }
  split; [|split; [exact Hc|exact Hlen]].
  apply Forall_forall. intros row Hin.
  assert (In (Cells row) (map row_cells items)) as Hrow.
  { rewrite <- Hc. apply in_map. apply list_elem_of_In. exact Hin. }
  apply in_map_iff in Hrow as (work & <- & _).
  unfold row_cells, getFileds. reflexivity.
Qed.

Lemma table_loop_per_iteration (items : list ManifestWork)
  (rows : list TableRow) (vars : list ManifestWork) :
  (table_loop true items rows vars).2 = vars ++ items /\
  map Object (table_loop true items rows vars).1 =
    map Object rows ++ seq (length vars) (length items).
Proof.
  revert rows vars.
  induction items as [|work items IH]; intros rows vars; simpl.
  - now rewrite !app_nil_r.
  - destruct (IH (rows ++ [mkRow (row_cells work) (length vars)])
                (vars ++ [work])) as [Hv Hr].
    rewrite Hv, Hr. rewrite map_app, length_app, <- !app_assoc. simpl.
    rewrite Nat.add_1_r. split; reflexivity.
Qed.

Lemma table_loop_shared (items : list ManifestWork)
  (rows : list TableRow) (vars : list ManifestWork) :
  length vars <= 1 ->
  Forall (fun row => Object row = 0) rows ->
  match items with
  | [] => (table_loop false items rows vars).2 = vars
  | _ :: _ => (table_loop false items rows vars).2 = [List.last items (mkWork "" "" [] [])]
  end /\
  Forall (fun row => Object row = 0) (table_loop false items rows vars).1.
Proof.
  revert rows vars.
  induction items as [|work items IH]; intros rows vars Hlen Hrows.
  - simpl. split; [reflexivity|exact Hrows].
  - assert (exists v,
      (if false then (length vars, vars ++ [work])
       else match vars with
            | [] => (0, [work])
            | _ :: _ => (0, <[0:=work]> vars)
            end) = (0, [v]) /\ v = work) as (v & Hstep & ->).
    { destruct vars as [|x [|y vars]]; simpl in *; eauto; lia. }
    cbn [table_loop]. cbv beta iota in Hstep. rewrite Hstep.
    destruct (IH (rows ++ [mkRow (row_cells work) 0]) [work]) as [Hv Hr].
    { simpl; lia. }
    { apply Forall_app. split; [exact Hrows|]. repeat constructor. }
    split; [|exact Hr].
    destruct items as [|w2 items]; [exact Hv|].
    rewrite Hv. reflexivity.
Qed.

(** X15. What the rows of [converToTable] point to. Where every iteration
    has a loop variable of its own (Go 1.22 and later), the i-th row's
    object is the i-th work of the list. Where the loop has one variable
    (earlier Go), the object of every row is that one variable, which holds
    the last work of the list once the table is built. *)
Theorem converToTable_row_objects (items : list ManifestWork) :
  (forall i row,
      Rows (converToTable true (WorkList items)).1 !! i = Some row ->
      (converToTable true (WorkList items)).2 !! Object row = items !! i) /\
  (forall row,
      In row (Rows (converToTable false (WorkList items)).1) ->
      (converToTable false (WorkList items)).2 !! Object row =
        Some (List.last items (mkWork "" "" [] []))).
Proof.
  unfold converToTable. split.
  - destruct (table_loop_per_iteration items [] []) as [Hv Hr].
    pose proof (table_loop_cells true items [] []) as Hc.
    destruct (table_loop true items [] []) as [rows vars]; simpl in *.
    subst vars. intros i row Hrow.
    assert (map Object rows !! i = Some (Object row)) as Ho.
    { rewrite list_lookup_fmap, Hrow. reflexivity. }
    rewrite Hr in Ho.
    apply lookup_seq in Ho as [-> _]. reflexivity.
  - destruct items as [|w items].
    { simpl. intros row []. }
    destruct (table_loop_shared (w :: items) [] []) as [Hv Hr];
      [simpl; lia|constructor|].
    destruct (table_loop false (w :: items) [] []) as [rows vars];
      simpl in Hv, Hr |- *.
    subst vars. intros row Hin.
    apply list_elem_of_In in Hin.
    rewrite Forall_forall in Hr. rewrite (Hr row Hin). reflexivity.
Qed.

Lemma converToTable_row_objects_witness :
  let w1 := mkWork "w1" "cluster1" [] [] in
  let w2 := mkWork "w2" "cluster1" ["m"] [] in
  let old := converToTable false (WorkList [w1; w2]) in
  let new := converToTable true (WorkList [w1; w2]) in
  (forall row, In row (Rows old.1) -> old.2 !! Object row = Some w2) /\
  (forall i row, Rows new.1 !! i = Some row ->
                 new.2 !! Object row = [w1; w2] !! i).
Proof.
  cbv zeta.
  exact
    (conj
       (proj2
          (converToTable_row_objects
             [mkWork "w1" "cluster1" [] []; mkWork "w2" "cluster1" ["m"] []]))
       (proj1
          (converToTable_row_objects
             [mkWork "w1" "cluster1" [] []; mkWork "w2" "cluster1" ["m"] []]))).
Defined.

(** X16. The tree and the table show the same data: the four fields
    [convertToTree] records for a work are the four cells that follow the
    work's name in its table row, and the map holds nothing else. *)
Theorem tree_fields_are_the_row_cells (work : ManifestWork) :
  exists c1 c2 c3 c4,
    tree_fields work !! ".Cluster" = Some c1 /\
    tree_fields work !! ".Number of Manifests" = Some c2 /\
    tree_fields work !! ".Applied" = Some c3 /\
    tree_fields work !! ".Available" = Some c4 /\
    row_cells work = [CellString (Name work); c1; c2; c3; c4] /\
    forall k,
      tree_fields work !! k <> None ->
      k = ".Cluster" \/ k = ".Number of Manifests" \/
      k = ".Applied" \/ k = ".Available".
Proof.
  unfold tree_fields, row_cells.
  destruct (getFileds work) as [[[cluster number] applied] available].
  eexists _, _, _, _.
  repeat split; try (simplify_map_eq; reflexivity).
  intros k Hk.
  destruct (decide (k = ".Available")) as [->|H4]; [auto|].
  destruct (decide (k = ".Applied")) as [->|H3]; [auto|].
  destruct (decide (k = ".Number of Manifests")) as [->|H2]; [auto|].
  destruct (decide (k = ".Cluster")) as [->|H1]; [auto|].
  exfalso. apply Hk. now simplify_map_eq.
Qed.

Section CommandFacts.
Context {Printer TreePrinter : Type}.
Context (Competele : Printer -> Printer).
Context (Validate : Printer -> result unit).
Context (ValidateHub : result unit).

(** [complete] takes at most one work name: with more than one argument
    it returns an error and leaves the options, printer included, as they
    were; with one, that argument becomes the work name; with none, the work
    name stays as it was (every work of the cluster is listed). In the last
    two cases the printer is completed and nothing else changes. *)
Lemma complete_takes_at_most_one_work_name
  (o : @Options Printer) (args : list string) :
  (1 < length args ->
   complete Competele o args =
     (o, Err (Errorf "can only specify one manifestwork"))) /\
  (forall arg,
      args = [arg] ->
      complete Competele o args =
        (mkOptions (cluster o) arg (Competele (printer o)), Ok tt)) /\
  (args = [] ->
   complete Competele o args =
     (mkOptions (cluster o) (workName o) (Competele (printer o)), Ok tt)).
Proof.
  unfold complete. repeat split.
  - intros H. apply Nat.ltb_lt in H. now rewrite H.
  - intros arg ->. reflexivity.
  - intros ->. reflexivity.
Qed.

(** X18. [validate] passes only a named cluster: it returns nil exactly when
    the hub flags validate, the cluster name is not empty and the printer
    validates; with an empty cluster name it returns an error whatever
    else holds. *)
Theorem validate_requires_a_cluster_name (o : @Options Printer) :
  (validate Validate ValidateHub o = Ok tt <->
   ValidateHub = Ok tt /\ cluster o <> "" /\ Validate (printer o) = Ok tt) /\
  (cluster o = "" -> exists e, validate Validate ValidateHub o = Err e).
Proof.
  unfold validate. split.
  - destruct ValidateHub as [[]|e]; [|split; [discriminate|intros [[=] _]]].
    destruct (cluster o) as [|c rest]; simpl.
    + split; [discriminate|]. intros (_ & H & _). congruence.
    + destruct (Validate (printer o)) as [[]|e].
      * split; [intros _; repeat split; discriminate|reflexivity].
      * split; [discriminate|]. intros (_ & _ & [=]).
  - intros ->. destruct ValidateHub; simpl; eauto.
Qed.

(** The calls of [run], and its result. *)
Lemma run_calls
  (H : @Hub Printer) (o : @Options Printer) :
  let selector :=
    if String.eqb (workName o) "" then ""
    else String.append "name=" (workName o) in
  let calls := (run H o).2 in
  (forall namespace fieldSelector,
      In (CListManifestWorks namespace fieldSelector) calls ->
      GetManagedCluster H (cluster o) = Ok tt /\
      namespace = cluster o /\ fieldSelector = selector) /\
  (forall obj,
      In (CPrint obj) calls ->
      exists items,
        GetManagedCluster H (cluster o) = Ok tt /\
        ListManifestWorks H (cluster o) selector = Ok items /\
        obj = WorkList items /\
        (run H o).1 = Print H (printer o) (WorkList items)) /\
  (forall e,
      GetManagedCluster H (cluster o) = Err e ->
      (run H o).1 <> Ok tt /\
      forall c, In c calls ->
        (forall obj, c <> CPrint obj) /\
        (forall namespace fieldSelector,
            c <> CListManifestWorks namespace fieldSelector)).
Proof.
  cbv zeta.
  assert ((if Nat.eqb (String.length (workName o)) 0 then ""
           else String.append "name=" (workName o)) =
          (if String.eqb (workName o) "" then ""
           else String.append "name=" (workName o))) as Hsel.
  { destruct (workName o); reflexivity. }
  unfold run. rewrite Hsel.
  destruct (ToRESTConfig H) as [rc|e0]; simpl.
  2:{ repeat split; intros; simpl in *; intuition congruence. }
  destruct (NewClusterClient H rc) as [cc|e0]; simpl.
  2:{ repeat split; intros; simpl in *; intuition congruence. }
  destruct (NewWorkClient H rc) as [wc|e0]; simpl.
  2:{ repeat split; intros; simpl in *; intuition congruence. }
  destruct (GetManagedCluster H (cluster o)) as [[]|e0]; simpl.
  2:{ repeat split; intros; simpl in *; intuition congruence. }
  destruct (ListManifestWorks H (cluster o) _) as [items|e0]; simpl.
  - split; [|split].
    + intros ns fs [|[|[|[|[[= <- <-]|[|[]]]]]]]; try discriminate. auto.
    + intros obj [|[|[|[|[|[[= <-]|[]]]]]]]; try discriminate. eauto.
    + intros e [=].
  - split; [|split].
    + intros ns fs [|[|[|[|[[= <- <-]|[]]]]]]; try discriminate. auto.
    + intros obj [|[|[|[|[|[]]]]]]; discriminate.
    + intros e [=].
Qed.

(** [run] in closed form, once the clients are built and the hub knows the
    managed cluster. *)
Lemma run_trace
  (H : @Hub Printer) (o : @Options Printer)
  (restConfig : RestConfig) (clusterClient workClient : Clientset) :
  ToRESTConfig H = Ok restConfig ->
  NewClusterClient H restConfig = Ok clusterClient ->
  NewWorkClient H restConfig = Ok workClient ->
  GetManagedCluster H (cluster o) = Ok tt ->
  let selector :=
    if String.eqb (workName o) "" then ""
    else String.append "name=" (workName o) in
  let calls :=
    [ CToRESTConfig; CNewClusterClient; CNewWorkClient;
      CGetManagedCluster (cluster o);
      CListManifestWorks (cluster o) selector ] in
  run H o =
    match ListManifestWorks H (cluster o) selector with
    | Ok items =>
        (Print H (printer o) (WorkList items),
         calls ++ [CPrint (WorkList items)])
    | Err e => (Err e, calls)
    end.
Proof.
  intros Hrc Hcc Hwc Hget. cbv zeta.
  assert ((if Nat.eqb (String.length (workName o)) 0 then ""
           else String.append "name=" (workName o)) =
          (if String.eqb (workName o) "" then ""
           else String.append "name=" (workName o))) as Hsel.
  { destruct (workName o); reflexivity. }
  unfold run. rewrite Hrc, Hcc, Hwc, Hget, Hsel.
  destruct (ListManifestWorks H (cluster o) _); reflexivity.
Qed.

(** X19. [run] lists the works only of a managed cluster the hub knows, in
    the namespace named after the cluster, with the field selector
    [name=<work>] when a work name was given and none otherwise; it prints
    exactly the list the hub returned, and the printer's result is then its
    own. When the cluster cannot be fetched nothing is listed or printed.
    And [run] does list and print: once the clients are built and the hub
    has returned the managed cluster, its calls are exactly the three client
    constructions, the fetch of the cluster, one list request with that
    namespace and selector and, when the list is returned, one print of that
    list, whose result [run] returns; an error of the list request is
    returned after the request, with nothing printed. *)
Theorem run_lists_the_works_of_a_known_cluster
  (H : @Hub Printer) (o : @Options Printer) :
  let selector :=
    if String.eqb (workName o) "" then ""
    else String.append "name=" (workName o) in
  let calls := (run H o).2 in
  (forall namespace fieldSelector,
      In (CListManifestWorks namespace fieldSelector) calls ->
      GetManagedCluster H (cluster o) = Ok tt /\
      namespace = cluster o /\ fieldSelector = selector) /\
  (forall obj,
      In (CPrint obj) calls ->
      exists items,
        GetManagedCluster H (cluster o) = Ok tt /\
        ListManifestWorks H (cluster o) selector = Ok items /\
        obj = WorkList items /\
        (run H o).1 = Print H (printer o) (WorkList items)) /\
  (forall e,
      GetManagedCluster H (cluster o) = Err e ->
      (run H o).1 <> Ok tt /\
      forall c, In c calls ->
        (forall obj, c <> CPrint obj) /\
        (forall namespace fieldSelector,
            c <> CListManifestWorks namespace fieldSelector)) /\
  (forall restConfig clusterClient workClient,
      ToRESTConfig H = Ok restConfig ->
      NewClusterClient H restConfig = Ok clusterClient ->
      NewWorkClient H restConfig = Ok workClient ->
      GetManagedCluster H (cluster o) = Ok tt ->
      let made :=
        [ CToRESTConfig; CNewClusterClient; CNewWorkClient;
          CGetManagedCluster (cluster o);
          CListManifestWorks (cluster o) selector ] in
      (forall items,
          ListManifestWorks H (cluster o) selector = Ok items ->
          run H o =
            (Print H (printer o) (WorkList items),
             made ++ [CPrint (WorkList items)])) /\
      (forall e,
          ListManifestWorks H (cluster o) selector = Err e ->
          run H o = (Err e, made))).
Proof.
  cbv zeta.
  destruct (run_calls H o) as (Hlist & Hprint & Hnone).
  refine (conj Hlist (conj Hprint (conj Hnone _))).
  intros rc cc wc Hrc Hcc Hwc Hget.
  pose proof (run_trace H o rc cc wc Hrc Hcc Hwc Hget) as Hrun.
  cbv zeta in Hrun.
  split.
  - intros items Hitems. rewrite Hitems in Hrun. exact Hrun.
  - intros e He. rewrite He in Hrun. exact Hrun.
Qed.

(** X17. An argument of the command selects the work that is listed:
    after [complete] has accepted one non-empty argument, [run] lists with
    the field selector [name=<argument>] in the cluster's namespace; after
    it has accepted none on options without a work name, [run] lists
    without a selector. With more than one argument [complete] returns an
    error and the options are as before. And the list request is made:
    once the clients are built and the hub has returned the managed cluster,
    [run] after [complete] makes exactly one list request, the one just
    described. *)
Theorem get_work_lists_the_named_work
  (H : @Hub Printer) (o : @Options Printer) :
  (forall arg namespace fieldSelector,
      arg <> "" ->
      In (CListManifestWorks namespace fieldSelector)
        (run H (complete Competele o [arg]).1).2 ->
      (complete Competele o [arg]).2 = Ok tt /\
      namespace = cluster o /\
      fieldSelector = String.append "name=" arg) /\
  (forall namespace fieldSelector,
      workName o = "" ->
      In (CListManifestWorks namespace fieldSelector)
        (run H (complete Competele o []).1).2 ->
      (complete Competele o []).2 = Ok tt /\
      namespace = cluster o /\ fieldSelector = "") /\
  (forall args,
      1 < length args ->
      complete Competele o args =
        (o, Err (Errorf "can only specify one manifestwork"))) /\
  (forall restConfig clusterClient workClient,
      ToRESTConfig H = Ok restConfig ->
      NewClusterClient H restConfig = Ok clusterClient ->
      NewWorkClient H restConfig = Ok workClient ->
      GetManagedCluster H (cluster o) = Ok tt ->
      (forall arg,
          arg <> "" ->
          (complete Competele o [arg]).2 = Ok tt /\
          listed (run H (complete Competele o [arg]).1).2 =
            [(cluster o, String.append "name=" arg)]) /\
      (workName o = "" ->
       (complete Competele o []).2 = Ok tt /\
       listed (run H (complete Competele o []).1).2 = [(cluster o, "")])).
Proof.
  split; [|split; [|split]].
  - intros arg ns fs Harg Hin.
    destruct
      (proj1 (run_calls H
                (complete Competele o [arg]).1) ns fs Hin)
      as (_ & -> & ->).
    simpl. destruct arg; [contradiction|]. auto.
  - intros ns fs Hname Hin.
    destruct
      (proj1 (run_calls H
                (complete Competele o []).1) ns fs Hin)
      as (_ & -> & ->).
    simpl. rewrite Hname. auto.
  - intros args Hlen.
    exact (proj1 (complete_takes_at_most_one_work_name o args) Hlen).
  - intros rc cc wc Hrc Hcc Hwc Hget. split.
    + intros arg Harg. split; [reflexivity|].
      rewrite (run_trace H (complete Competele o [arg]).1 rc cc wc
                 Hrc Hcc Hwc Hget).
      cbv zeta. simpl. destruct arg; [contradiction|]. simpl.
      destruct (ListManifestWorks H _ _); reflexivity.
    + intros Hname. split; [reflexivity|].
      rewrite (run_trace H (complete Competele o []).1 rc cc wc
                 Hrc Hcc Hwc Hget).
      cbv zeta. simpl. rewrite Hname. simpl.
      destruct (ListManifestWorks H _ _); reflexivity.
Qed.
End CommandFacts.

Lemma run_lists_the_works_of_a_known_cluster_witness :
  let o := mkOptions "cluster1" "addon-config" "table" in
  let o' := mkOptions "cluster2" "" "table" in
  run works_hub o =
    (Ok tt,
     [ CToRESTConfig; CNewClusterClient; CNewWorkClient;
       CGetManagedCluster "cluster1";
       CListManifestWorks "cluster1" "name=addon-config";
       CPrint (WorkList [mkWork "addon-config" "cluster1" ["configmap"] []]) ]) /\
  (run works_hub o').1 <> Ok tt /\
  listed (run works_hub o').2 = [].
Proof.
  cbv zeta.
  pose proof
    (run_lists_the_works_of_a_known_cluster works_hub
       (mkOptions "cluster1" "addon-config" "table")) as Hknown.
  pose proof
    (run_lists_the_works_of_a_known_cluster works_hub
       (mkOptions "cluster2" "" "table")) as Hunknown.
  cbv zeta in Hknown, Hunknown.
  destruct Hknown as (_ & _ & _ & Hmade).
  destruct Hunknown as (_ & _ & Hnone & _).
  split; [|split].
  - exact
      (proj1 (Hmade 0 hub_client hub_client eq_refl eq_refl eq_refl eq_refl)
         _ eq_refl).
  - exact (proj1 (Hnone not_found eq_refl)).
  - reflexivity.
Defined.

Lemma get_work_lists_the_named_work_witness :
  let o := mkOptions "cluster1" "" "table" in
  listed (run works_hub (complete id o ["deploy-nginx"]).1).2 =
    [("cluster1", "name=deploy-nginx")] /\
  listed (run works_hub (complete id o []).1).2 = [("cluster1", "")] /\
  (complete id o ["deploy-nginx"; "addon-config"]).2 =
    Err (Errorf "can only specify one manifestwork").
Proof.
  cbv zeta.
  destruct
    (get_work_lists_the_named_work id works_hub
       (mkOptions "cluster1" "" "table"))
    as (_ & _ & Hmany & Hone).
  destruct (Hone 0 hub_client hub_client eq_refl eq_refl eq_refl eq_refl)
    as (Harg & Hnone).
  split; [|split].
  - refine (proj2 (Harg "deploy-nginx" _)). discriminate.
  - exact (proj2 (Hnone eq_refl)).
  - rewrite (Hmany ["deploy-nginx"; "addon-config"]); [reflexivity|].
    simpl. lia.
Defined.

End GetWorkFacts.
